(** * View models of the notebook cell diff view

    Shallow embedding of
    [src/vs/workbench/contrib/notebook/browser/diff/celllDiffViewModel.ts]:
    the layout record of a diff entry with its notifying setters, the
    single-side and the side-by-side view model with their output-height
    collections and cumulative-offset trackers, and the metadata snapshot
    used to detect metadata changes.

    Conventions of the embedding.
    - Pixel sizes ([number] in the source) are non-negative integers, [N].
    - Array positions are [nat]; an array created by [new Array(n)] is a
      list of [n] holes, a hole being [None].
    - A method is a computation in the monad [M V]: it receives the object,
      returns the object as the method left it, and completes normally or by
      a [throw]; what was mutated before a [throw] stays mutated.
    - The emitter [_layoutInfoEmitter] is the list of the events it has
      fired, oldest first. *)

From Stdlib Require Import ZArith NArith Lia Bool Ascii String.
From stdpp Require Import base option list strings.

Local Open Scope N_scope.
#[local] Set Warnings "-register-all".


(** ** Completions and the method monad *)

Inductive exn : Type :=
| Error (message : string)       (* [throw new Error(message)] *)
| TypeError.                     (* a property read on [null] *)

Inductive completion (A : Type) : Type :=
| Normal (a : A)
| Throw (e : exn).
Arguments Normal {A} a.
Arguments Throw {A} e.

Definition M (V A : Type) : Type := V → completion A * V.

Definition ret {V A} (a : A) : M V A := λ v, (Normal a, v).

Definition bind {V A B} (m : M V A) (k : A → M V B) : M V B :=
  λ v, match m v with
       | (Normal a, v') => k a v'
       | (Throw e, v') => (Throw e, v')
       end.

Definition throw {V A} (e : exn) : M V A := λ v, (Throw e, v).
Definition gets {V A} (f : V → A) : M V A := λ v, (Normal (f v), v).
Definition modify {V} (f : V → V) : M V unit := λ v, (Normal tt, f v).

Notation "x <- m ;; k" := (bind m (λ x, k))
  (at level 100, m at next level, right associativity).
Notation "m ;; k" := (bind m (λ _, k))
  (at level 100, right associativity).

Definition result {V A} (m : M V A) (v : V) : completion A := fst (m v).
Definition after {V A} (m : M V A) (v : V) : V := snd (m v).

(** The non-null assertion [x!] followed by a member access. *)
Definition deref {V A} (x : option A) : M V A :=
  match x with
  | Some a => ret a
  | None => throw TypeError
  end.

(** ** Layout record and change events *)

Inductive PropertyFoldingState : Type := Expanded | Collapsed.

Record LayoutInfo : Type := mkLayoutInfo {
  width : N;
  editorHeight : N;
  editorMargin : N;
  metadataStatusHeight : N;
  metadataHeight : N;
  outputStatusHeight : N;
  outputHeight : N;
  bodyMargin : N
}.

(** The argument of [_fireLayoutChangeEvent]: five optional flags. *)
Module LayoutChangeEvent.
Record t : Type := mk {
  outerWidth : option bool;
  editorHeight : option bool;
  metadataEditor : option bool;
  outputEditor : option bool;
  outputView : option bool
}.
(** The object literal [{}]. *)
Definition empty : t := mk None None None None None.
(** A flag counts as set when it is present and true. *)
Definition flagged (f : t → option bool) (e : t) : bool :=
  match f e with Some true => true | _ => false end.
End LayoutChangeEvent.

Record CellDiffViewModelBase : Type := mkBase {
  metadataFoldingState : PropertyFoldingState;
  outputFoldingState : PropertyFoldingState;
  _layoutInfoEmitter : list LayoutChangeEvent.t;
  _layoutInfo : LayoutInfo
}.

Definition fire (e : LayoutChangeEvent.t) (b : CellDiffViewModelBase)
  : CellDiffViewModelBase :=
  mkBase (metadataFoldingState b) (outputFoldingState b)
         (_layoutInfoEmitter b ++ [e]) (_layoutInfo b).

Definition with_layoutInfo (l : LayoutInfo) (b : CellDiffViewModelBase)
  : CellDiffViewModelBase :=
  mkBase (metadataFoldingState b) (outputFoldingState b)
         (_layoutInfoEmitter b) l.

Definition _fireLayoutChangeEvent (state : LayoutChangeEvent.t)
  : M CellDiffViewModelBase unit :=
  modify (fire state).

Definition set_outputHeight (height : N) : M CellDiffViewModelBase unit :=
  modify (λ b, with_layoutInfo
    (let l := _layoutInfo b in
     mkLayoutInfo (width l) (editorHeight l) (editorMargin l)
       (metadataStatusHeight l) (metadataHeight l) (outputStatusHeight l)
       height (bodyMargin l)) b) ;;
  _fireLayoutChangeEvent
    (LayoutChangeEvent.mk None None None (Some true) (Some true)).

Definition get_outputHeight (b : CellDiffViewModelBase) : N :=
  outputHeight (_layoutInfo b).

Definition set_outputStatusHeight (height : N) : M CellDiffViewModelBase unit :=
  modify (λ b, with_layoutInfo
    (let l := _layoutInfo b in
     mkLayoutInfo (width l) (editorHeight l) (editorMargin l)
       (metadataStatusHeight l) (metadataHeight l) height
       (outputHeight l) (bodyMargin l)) b) ;;
  _fireLayoutChangeEvent LayoutChangeEvent.empty.

Definition get_outputStatusHeight (b : CellDiffViewModelBase) : N :=
  outputStatusHeight (_layoutInfo b).

Definition set_editorHeight (height : N) : M CellDiffViewModelBase unit :=
  modify (λ b, with_layoutInfo
    (let l := _layoutInfo b in
     mkLayoutInfo (width l) height (editorMargin l)
       (metadataStatusHeight l) (metadataHeight l) (outputStatusHeight l)
       (outputHeight l) (bodyMargin l)) b) ;;
  _fireLayoutChangeEvent
    (LayoutChangeEvent.mk None (Some true) None None None).

Definition get_editorHeight (b : CellDiffViewModelBase) : N :=
  editorHeight (_layoutInfo b).

Definition set_editorMargin (height : N) : M CellDiffViewModelBase unit :=
  modify (λ b, with_layoutInfo
    (let l := _layoutInfo b in
     mkLayoutInfo (width l) (editorHeight l) height
       (metadataStatusHeight l) (metadataHeight l) (outputStatusHeight l)
       (outputHeight l) (bodyMargin l)) b) ;;
  _fireLayoutChangeEvent LayoutChangeEvent.empty.

Definition get_editorMargin (b : CellDiffViewModelBase) : N :=
  editorMargin (_layoutInfo b).

Definition get_metadataStatusHeight (b : CellDiffViewModelBase) : N :=
  metadataStatusHeight (_layoutInfo b).

Definition set_metadataHeight (height : N) : M CellDiffViewModelBase unit :=
  modify (λ b, with_layoutInfo
    (let l := _layoutInfo b in
     mkLayoutInfo (width l) (editorHeight l) (editorMargin l)
       (metadataStatusHeight l) height (outputStatusHeight l)
       (outputHeight l) (bodyMargin l)) b) ;;
  _fireLayoutChangeEvent
    (LayoutChangeEvent.mk None None (Some true) None None).

Definition get_metadataHeight (b : CellDiffViewModelBase) : N :=
  metadataHeight (_layoutInfo b).

Definition totalHeight (b : CellDiffViewModelBase) : N :=
  editorHeight (_layoutInfo b)
  + editorMargin (_layoutInfo b)
  + metadataHeight (_layoutInfo b)
  + metadataStatusHeight (_layoutInfo b)
  + outputHeight (_layoutInfo b)
  + outputStatusHeight (_layoutInfo b)
  + bodyMargin (_layoutInfo b).

(** The part of the base constructor that builds the object: the initial
    layout record and both folding states collapsed. *)
Definition initialLayoutInfo : LayoutInfo :=
  mkLayoutInfo 0 0 0 25 0 25 0 32.

Definition newBase : CellDiffViewModelBase :=
  mkBase Collapsed Collapsed [] initialLayoutInfo.

(** The listener the base constructor registers on
    [editorEventDispatcher.onDidChangeLayout]. *)
Definition onDidChangeLayout : M CellDiffViewModelBase unit :=
  modify (fire (LayoutChangeEvent.mk (Some true) None None None None)).

(** What a client can do to any view model through the base class: assign
    through a setter, assign a folding state (both are public fields), or
    let the dispatcher deliver a layout change. *)
Inductive BaseCall : Type :=
| SetOutputHeight (height : N)
| SetOutputStatusHeight (height : N)
| SetEditorHeight (height : N)
| SetEditorMargin (height : N)
| SetMetadataHeight (height : N)
| SetMetadataFoldingState (f : PropertyFoldingState)
| SetOutputFoldingState (f : PropertyFoldingState)
| DidChangeLayout.

Definition baseCall (c : BaseCall) : M CellDiffViewModelBase unit :=
  match c with
  | SetOutputHeight h => set_outputHeight h
  | SetOutputStatusHeight h => set_outputStatusHeight h
  | SetEditorHeight h => set_editorHeight h
  | SetEditorMargin h => set_editorMargin h
  | SetMetadataHeight h => set_metadataHeight h
  | SetMetadataFoldingState f =>
      modify (λ b, mkBase f (outputFoldingState b)
                          (_layoutInfoEmitter b) (_layoutInfo b))
  | SetOutputFoldingState f =>
      modify (λ b, mkBase (metadataFoldingState b) f
                          (_layoutInfoEmitter b) (_layoutInfo b))
  | DidChangeLayout => onDidChangeLayout
  end.

(** ** The abstract base class *)

(** What a concrete view model supplies to [CellDiffViewModelBase]: the
    inherited state and the four abstract methods. *)
Class CellDiffViewModel (V : Type) : Type := {
  super : V → CellDiffViewModelBase;
  with_super : CellDiffViewModelBase → V → V;
  checkIfOutputsModified : V → bool;
  checkMetadataIfModified : V → bool;
  ensureOutputsTop : M V unit;
  layoutChange : M V unit
}.

(** ** Typed arrays *)

Definition UINT32 : N := 2 ^ 32.

(** The conversion applied by a store into a [Uint32Array]: [undefined]
    (a hole of the source array) becomes 0, an integer is reduced modulo
    2^32. *)
Definition toUint32Element (x : option N) : N :=
  match x with
  | None => 0
  | Some h => h mod UINT32
  end.

(** [new Uint32Array(length)]. *)
Definition newUint32Array (length : nat) : list N := replicate length 0.

(** The loop
    [for (let i = 0; i < collection.length; i++) values[i] = collection[i]]
    of the three [ensure...OutputsTop] methods, the counter running over
    [seq 0 (length collection)]. *)
Definition copyToUint32Array (collection : list (option N)) : list N :=
  foldl (λ values i, <[i := toUint32Element (collection !!! i)]> values)
        (newUint32Array (length collection))
        (seq 0 (length collection)).

(** ** The cumulative-offset tracker *)

Fixpoint sumN (l : list N) : N :=
  match l with
  | [] => 0
  | x :: r => x + sumN r
  end.

(** The class [PrefixSumComputer] of
    [vs/editor/common/viewModel/prefixSumComputer] is imported by the source
    file and its code is not part of it; section 4.2 of the specification
    describes it. *)
Module PrefixSumComputer.

(** Modelled from the spec: the class [PrefixSumComputer], whose code is
    missing, holds "an ordered sequence of non-negative integer sizes"; the
    source constructs it from a [Uint32Array]. *)
Record t : Type := mk { values : list N }.

(** Modelled from the spec: the missing method [getTotalValue], "query total
    accumulated size". *)
Definition getTotalValue (p : t) : N := sumN (values p).

(** Modelled from the spec: the missing method [getAccumulatedValue], "query
    accumulated size up to (but excluding) a given index".  The source asks
    for the size accumulated before [index] by the call
    [getAccumulatedValue(index - 1)], so [getAccumulatedValue j] accumulates
    the positions [0 .. j], which are none for [j = -1]. *)
Definition getAccumulatedValue (p : t) (index : Z) : N :=
  sumN (take (Z.to_nat (index + 1)) (values p)).

(** Modelled from the spec: the missing method [changeValue], "update the
    size at a given index and report whether the total changed". *)
Definition changeValue (p : t) (index : nat) (value : N) : bool * t :=
  let p' := mk (<[index := value]> (values p)) in
  (negb (getTotalValue p' =? getTotalValue p), p').

End PrefixSumComputer.

(** The tracker an [ensure...OutputsTop] method leaves: the one there is, or
    a new one over the copy of the collection. *)
Definition ensuredTop (collection : list (option N))
    (top : option PrefixSumComputer.t) : PrefixSumComputer.t :=
  match top with
  | Some p => p
  | None => PrefixSumComputer.mk (copyToUint32Array collection)
  end.

(** ** Cells and documents, as far as the view models read them *)

(** Metadata and outputs are JSON-like values; an object keeps its
    properties in enumeration order. *)
Inductive JSValue : Type :=
| JUndefined
| JNull
| JBool (b : bool)
| JNumber (n : Z)
| JString (s : string)
| JArray (items : list JSValue)
| JObject (props : list (string * JSValue)).

Definition JSProps : Type := list (string * JSValue).

Record NotebookCellTextModel : Type := mkCell {
  outputs : list JSValue;
  metadata : option JSProps;
  language : string
}.

Record TransientOptions : Type := mkTransientOptions {
  transientOutputs : bool;
  transientMetadata : list (string * bool)
}.

Record NotebookTextModel : Type := mkNotebook {
  transientOptions : TransientOptions
}.

(** The strings ['unchanged'], ['insert'], ['delete'] and ['modified']. *)
Inductive DiffType : Type := Unchanged | Insert | Delete | Modified.

(** ** The single-side view model *)

Module SingleSide.

Record t : Type := mk {
  base : CellDiffViewModelBase;
  documentTextModel : NotebookTextModel;
  original : option NotebookCellTextModel;
  modified : option NotebookCellTextModel;
  type : DiffType;
  _outputCollection : list (option N);
  _outputsTop : option PrefixSumComputer.t
}.

Definition with_base (b : CellDiffViewModelBase) (v : t) : t :=
  mk b (documentTextModel v) (original v) (modified v) (type v)
     (_outputCollection v) (_outputsTop v).

Definition with_outputCollection (c : list (option N)) (v : t) : t :=
  mk (base v) (documentTextModel v) (original v) (modified v) (type v)
     c (_outputsTop v).

Definition with_outputsTop (p : option PrefixSumComputer.t) (v : t) : t :=
  mk (base v) (documentTextModel v) (original v) (modified v) (type v)
     (_outputCollection v) p.

Definition cellTextModel (v : t) : option NotebookCellTextModel :=
  match type v with
  | Insert => modified v
  | _ => original v
  end.

(** The constructor; [this.modified!.outputs] throws when both cells are
    missing. *)
Definition new (documentTextModel : NotebookTextModel)
    (original modified : option NotebookCellTextModel) (type : DiffType)
  : completion t :=
  match original, modified with
  | Some o, _ =>
      Normal (mk newBase documentTextModel original modified type
                 (replicate (length (outputs o)) None) None)
  | None, Some m =>
      Normal (mk newBase documentTextModel original modified type
                 (replicate (length (outputs m)) None) None)
  | None, None => Throw TypeError
  end.

Definition ensureOutputsTop : M t unit :=
  top <- gets _outputsTop ;;
  match top with
  | Some _ => ret tt
  | None =>
      collection <- gets _outputCollection ;;
      modify (with_outputsTop
                (Some (PrefixSumComputer.mk (copyToUint32Array collection))))
  end.

Definition getOutputTotalHeight : M t N :=
  ensureOutputsTop ;;
  top <- gets _outputsTop ;;
  ret (match top with
       | Some p => PrefixSumComputer.getTotalValue p
       | None => 0
       end).

Definition layoutChange : M t unit :=
  ensureOutputsTop ;;
  folding <- gets (λ v, outputFoldingState (base v)) ;;
  outputHeight <- match folding with
                  | Collapsed => ret 0
                  | Expanded => getOutputTotalHeight
                  end ;;
  modify (λ v, with_base (with_layoutInfo
    (let l := _layoutInfo (base v) in
     mkLayoutInfo (width l) (editorHeight l) (editorMargin l)
       (metadataStatusHeight l) (metadataHeight l) (outputStatusHeight l)
       outputHeight (bodyMargin l)) (base v)) v) ;;
  modify (λ v, with_base (fire LayoutChangeEvent.empty (base v)) v).

Definition checkIfOutputsModified (v : t) : bool := false.
Definition checkMetadataIfModified (v : t) : bool := false.

Definition outOfRange : exn := Error "Output index out of range!".

Definition updateOutputHeight (index : nat) (height : N) : M t unit :=
  collection <- gets _outputCollection ;;
  if (length collection <=? index)%nat then throw outOfRange
  else
    ensureOutputsTop ;;
    modify (λ v, with_outputCollection
                   (<[index := Some height]> (_outputCollection v)) v) ;;
    top <- gets _outputsTop ;;
    p <- deref top ;;
    let '(changed, p') := PrefixSumComputer.changeValue p index height in
    modify (with_outputsTop (Some p')) ;;
    if changed then layoutChange else ret tt.

Definition getOutputOffsetInContainer (index : nat) : M t N :=
  ensureOutputsTop ;;
  collection <- gets _outputCollection ;;
  if (length collection <=? index)%nat then throw outOfRange
  else
    top <- gets _outputsTop ;;
    p <- deref top ;;
    ret (PrefixSumComputer.getAccumulatedValue p (Z.of_nat index - 1)).

(** The calls a client can make, and a client that makes a list of them
    one after the other, going on to the next call also when one threw. *)
Inductive call : Type :=
| Inherited (c : BaseCall)
| UpdateOutputHeight (index : nat) (height : N)
| GetOutputOffsetInContainer (index : nat)
| GetOutputTotalHeight
| LayoutChange
| EnsureOutputsTop.

Definition liftBase {A} (m : M CellDiffViewModelBase A) : M t A :=
  λ v, let '(r, b) := m (base v) in (r, with_base b v).

Definition perform (c : call) (v : t) : t :=
  match c with
  | Inherited c => after (liftBase (baseCall c)) v
  | UpdateOutputHeight index height => after (updateOutputHeight index height) v
  | GetOutputOffsetInContainer index => after (getOutputOffsetInContainer index) v
  | GetOutputTotalHeight => after getOutputTotalHeight v
  | LayoutChange => after layoutChange v
  | EnsureOutputsTop => after ensureOutputsTop v
  end.

Definition performAll (cs : list call) (v : t) : t := foldl (λ v c, perform c v) v cs.

(** The completion of one call, its value dropped. *)
Definition outcome (c : call) (v : t) : completion unit :=
  match c with
  | Inherited c => result (liftBase (baseCall c)) v
  | UpdateOutputHeight index height => result (updateOutputHeight index height) v
  | GetOutputOffsetInContainer index =>
      match result (getOutputOffsetInContainer index) v with
      | Normal _ => Normal tt
      | Throw e => Throw e
      end
  | GetOutputTotalHeight =>
      match result getOutputTotalHeight v with
      | Normal _ => Normal tt
      | Throw e => Throw e
      end
  | LayoutChange => result layoutChange v
  | EnsureOutputsTop => result ensureOutputsTop v
  end.

(** The view model with [height] stored at [index], in the collection and
    in the ensured tracker. *)
Definition stored (index : nat) (height : N) (v : t) : t :=
  mk (base v) (documentTextModel v) (original v) (modified v) (type v)
     (<[index := Some height]> (_outputCollection v))
     (Some (PrefixSumComputer.mk
              (<[index := height]>
                 (PrefixSumComputer.values
                    (ensuredTop (_outputCollection v) (_outputsTop v)))))).

(** The states a client can bring a view model to. *)
Definition reachable (v : t) : Prop :=
  ∃ doc o m ty v0 cs, new doc o m ty = Normal v0 ∧ v = performAll cs v0.

End SingleSide.

#[export] Instance SingleSide_view_model : CellDiffViewModel SingleSide.t := {
  super := SingleSide.base;
  with_super := SingleSide.with_base;
  checkIfOutputsModified := SingleSide.checkIfOutputsModified;
  checkMetadataIfModified := SingleSide.checkMetadataIfModified;
  ensureOutputsTop := SingleSide.ensureOutputsTop;
  layoutChange := SingleSide.layoutChange
}.

(** ** Capabilities of the host *)

(** The utilities the source imports and only calls: [hash] of
    [vs/base/common/hash], [JSON.stringify], [format] of
    [vs/base/common/jsonFormatter] and [applyEdits] of
    [vs/base/common/jsonEdit].  The view models use them as opaque
    functions. *)
Class Host : Type := {
  hash : JSValue → Z;
  JSON_stringify : JSValue → string;
  Edit : Type;
  format : string → list Edit;
  applyEdits : string → list Edit → string
}.

(** ** Objects as ordered property lists *)

(** A plain object is the list of its own enumerable properties in the
    order JavaScript enumerates them: the keys that are array indices first,
    in ascending numeric order, then the other keys in the order of their
    creation. *)

(** [o[key]] for a key the object owns, [undefined] being [None]. *)
Fixpoint prop_get {A} (key : string) (o : list (string * A)) : option A :=
  match o with
  | [] => None
  | (k, x) :: r => if String.eqb k key then Some x else prop_get key r
  end.

Definition digitValue (c : ascii) : option N :=
  let n := N_of_ascii c in
  if (48 <=? n) && (n <=? 57) then Some (n - 48) else None.

Fixpoint decimalValue (s : string) (acc : N) : option N :=
  match s with
  | EmptyString => Some acc
  | String c r =>
      match digitValue c with
      | Some d => decimalValue r (10 * acc + d)
      | None => None
      end
  end.

(** The number a key stands for when it is an array index: a decimal
    numeral without a leading zero (the numeral 0 apart) below 2^32 - 1. *)
Definition arrayIndex (key : string) : option N :=
  match key with
  | EmptyString => None
  | String c r =>
      if Ascii.eqb c "0" && negb (String.eqb r EmptyString) then None
      else match decimalValue key 0 with
           | Some n => if n <? 4294967295 then Some n else None
           | None => None
           end
  end.

(** A new key [key] is enumerated before the key [k] already there: it is
    an array index and [k] is a larger one or none. *)
Definition comesBefore (key k : string) : bool :=
  match arrayIndex key, arrayIndex k with
  | Some n, Some n' => n <? n'
  | Some _, None => true
  | None, _ => false
  end.

(** The definition of an own property, as by an object literal, a spread or
    an assignment that finds no setter: an existing property keeps its
    place, a new one takes its place in the enumeration order. *)
Fixpoint prop_set {A} (key : string) (x : A) (o : list (string * A))
  : list (string * A) :=
  match o with
  | [] => [(key, x)]
  | (k, y) :: r =>
      if String.eqb k key then (k, x) :: r
      else if comesBefore key k then (key, x) :: (k, y) :: r
      else (k, y) :: prop_set key x r
  end.

(** The assignment [o[key] = x] on a plain object.  The key [__proto__]
    reaches the setter of [Object.prototype], which creates no own property;
    every other key is defined on the object ([Object.prototype] has data
    properties only besides). *)
Definition prop_assign {A} (key : string) (x : A) (o : list (string * A))
  : list (string * A) :=
  if String.eqb key "__proto__" then o else prop_set key x o.

Definition Object_keys {A} (o : list (string * A)) : list string := o.*1.

(** [new Set(items)], in insertion order. *)
Definition newSet (items : list string) : list string :=
  foldl (λ seen k, if bool_decide (k ∈ seen) then seen else seen ++ [k])
        [] items.

(** The names of the members of [Object.prototype].  Each is a function or
    an object, so it reads as true. *)
Definition objectPrototypeKeys : list string :=
  ["constructor"; "__defineGetter__"; "__defineSetter__"; "hasOwnProperty";
   "__lookupGetter__"; "__lookupSetter__"; "isPrototypeOf";
   "propertyIsEnumerable"; "toString"; "valueOf"; "__proto__";
   "toLocaleString"]%string.

(** Truthiness of [transientMetadata[key]], [transientMetadata] being a
    plain object: the value of its own property when it has one of that
    name, and otherwise the member of [Object.prototype] of that name, when
    there is one. *)
Definition isTransient (transientMetadata : list (string * bool))
    (key : string) : bool :=
  match prop_get key transientMetadata with
  | Some marked => marked
  | None => bool_decide (key ∈ objectPrototypeKeys)
  end.

(** The loop over the keys of [getFormatedMetadataJSON]. *)
Definition filterMetadata (transientMetadata : list (string * bool))
    (metadata : JSProps) : JSProps :=
  foldl (λ filteredMetadata key,
           if negb (isTransient transientMetadata key)
           then prop_assign key (default JUndefined (prop_get key metadata))
                            filteredMetadata
           else filteredMetadata)
        [] (newSet (Object_keys metadata)).

(** The object literal [{ language, ...filteredMetadata }]. *)
Definition snapshotObject (language : option string)
    (filteredMetadata : JSProps) : JSProps :=
  foldl (λ o kv, prop_set kv.1 kv.2 o)
        [("language"%string, from_option JString JUndefined language)]
        filteredMetadata.

Definition getFormatedMetadataJSON `{Host}
    (documentTextModel : option NotebookTextModel)
    (metadata : JSProps) (language : option string) : string :=
  let filteredMetadata :=
    match documentTextModel with
    | Some doc =>
        filterMetadata (transientMetadata (transientOptions doc)) metadata
    | None => metadata
    end in
  let content := JSON_stringify (JObject (snapshotObject language filteredMetadata)) in
  let edits := format content in
  let metadataSource := applyEdits content edits in
  metadataSource.

(** ** The side-by-side view model *)

Module SideBySide.

Record t : Type := mk {
  base : CellDiffViewModelBase;
  documentTextModel : NotebookTextModel;
  original : NotebookCellTextModel;
  modified : NotebookCellTextModel;
  type : DiffType;
  _originalOutputCollection : list (option N);
  _originalOutputsTop : option PrefixSumComputer.t;
  _modifiedOutputCollection : list (option N);
  _modifiedOutputsTop : option PrefixSumComputer.t
}.

Definition with_base (b : CellDiffViewModelBase) (v : t) : t :=
  mk b (documentTextModel v) (original v) (modified v) (type v)
     (_originalOutputCollection v) (_originalOutputsTop v)
     (_modifiedOutputCollection v) (_modifiedOutputsTop v).

Definition with_originalOutputCollection (c : list (option N)) (v : t) : t :=
  mk (base v) (documentTextModel v) (original v) (modified v) (type v)
     c (_originalOutputsTop v)
     (_modifiedOutputCollection v) (_modifiedOutputsTop v).

Definition with_originalOutputsTop (p : option PrefixSumComputer.t) (v : t)
  : t :=
  mk (base v) (documentTextModel v) (original v) (modified v) (type v)
     (_originalOutputCollection v) p
     (_modifiedOutputCollection v) (_modifiedOutputsTop v).

Definition with_modifiedOutputCollection (c : list (option N)) (v : t) : t :=
  mk (base v) (documentTextModel v) (original v) (modified v) (type v)
     (_originalOutputCollection v) (_originalOutputsTop v)
     c (_modifiedOutputsTop v).

Definition with_modifiedOutputsTop (p : option PrefixSumComputer.t) (v : t)
  : t :=
  mk (base v) (documentTextModel v) (original v) (modified v) (type v)
     (_originalOutputCollection v) (_originalOutputsTop v)
     (_modifiedOutputCollection v) p.

Definition is_modified (ty : DiffType) : bool :=
  match ty with Modified => true | _ => false end.

Definition checkIfOutputsModified `{Host} (v : t) : bool :=
  negb (transientOutputs (transientOptions (documentTextModel v)))
  && is_modified (type v)
  && negb (hash (JArray (outputs (original v)))
           =? hash (JArray (outputs (modified v))))%Z.

Definition checkMetadataIfModified `{Host} (v : t) : bool :=
  negb (hash (JString (getFormatedMetadataJSON
                         (Some (documentTextModel v))
                         (default [] (metadata (original v)))
                         (Some (language (original v)))))
        =? hash (JString (getFormatedMetadataJSON
                            (Some (documentTextModel v))
                            (default [] (metadata (modified v)))
                            (Some (language (modified v))))))%Z.

Definition with_foldingStates (m o : PropertyFoldingState)
    (b : CellDiffViewModelBase) : CellDiffViewModelBase :=
  mkBase m o (_layoutInfoEmitter b) (_layoutInfo b).

Definition new `{Host} (documentTextModel : NotebookTextModel)
    (original modified : NotebookCellTextModel) (type : DiffType) : t :=
  let v := mk newBase documentTextModel original modified type
              [] None [] None in
  let v := with_base (with_foldingStates Collapsed Collapsed (base v)) v in
  let v := if checkMetadataIfModified v
           then with_base (with_foldingStates Expanded
                             (outputFoldingState (base v)) (base v)) v
           else v in
  let v := if checkIfOutputsModified v
           then with_base (with_foldingStates
                             (metadataFoldingState (base v)) Expanded
                             (base v)) v
           else v in
  let v := with_originalOutputCollection
             (replicate (length (outputs original)) None) v in
  with_modifiedOutputCollection
    (replicate (length (outputs modified)) None) v.

Definition ensureOriginalOutputsTop : M t unit :=
  top <- gets _originalOutputsTop ;;
  match top with
  | Some _ => ret tt
  | None =>
      collection <- gets _originalOutputCollection ;;
      modify (with_originalOutputsTop
                (Some (PrefixSumComputer.mk (copyToUint32Array collection))))
  end.

Definition ensureModifiedOutputsTop : M t unit :=
  top <- gets _modifiedOutputsTop ;;
  match top with
  | Some _ => ret tt
  | None =>
      collection <- gets _modifiedOutputCollection ;;
      modify (with_modifiedOutputsTop
                (Some (PrefixSumComputer.mk (copyToUint32Array collection))))
  end.

Definition ensureOutputsTop : M t unit :=
  ensureOriginalOutputsTop ;;
  ensureModifiedOutputsTop.

Definition totalOrZero (top : option PrefixSumComputer.t) : N :=
  match top with
  | Some p => PrefixSumComputer.getTotalValue p
  | None => 0
  end.

Definition getOutputTotalHeight : M t N :=
  ensureOutputsTop ;;
  originalTop <- gets _originalOutputsTop ;;
  modifiedTop <- gets _modifiedOutputsTop ;;
  ret (N.max (totalOrZero originalTop) (totalOrZero modifiedTop)).

Definition layoutChange : M t unit :=
  ensureOutputsTop ;;
  folding <- gets (λ v, outputFoldingState (base v)) ;;
  outputHeight <- match folding with
                  | Collapsed => ret 0
                  | Expanded => getOutputTotalHeight
                  end ;;
  modify (λ v, with_base (with_layoutInfo
    (let l := _layoutInfo (base v) in
     mkLayoutInfo (width l) (editorHeight l) (editorMargin l)
       (metadataStatusHeight l) (metadataHeight l) (outputStatusHeight l)
       outputHeight (bodyMargin l)) (base v)) v) ;;
  modify (λ v, with_base (fire LayoutChangeEvent.empty (base v)) v).

Definition outOfRange : exn := Error "Output index out of range!".

Definition updateOutputHeight (original : bool) (index : nat) (height : N)
  : M t unit :=
  if original then
    collection <- gets _originalOutputCollection ;;
    if (length collection <=? index)%nat then throw outOfRange
    else
      ensureOriginalOutputsTop ;;
      ensureModifiedOutputsTop ;;
      modify (λ v, with_originalOutputCollection
                     (<[index := Some height]> (_originalOutputCollection v))
                     v) ;;
      top <- gets _originalOutputsTop ;;
      p <- deref top ;;
      let '(changed, p') := PrefixSumComputer.changeValue p index height in
      modify (with_originalOutputsTop (Some p')) ;;
      if changed then layoutChange else ret tt
  else
    collection <- gets _modifiedOutputCollection ;;
    if (length collection <=? index)%nat then throw outOfRange
    else
      ensureOriginalOutputsTop ;;
      ensureModifiedOutputsTop ;;
      modify (λ v, with_modifiedOutputCollection
                     (<[index := Some height]> (_modifiedOutputCollection v))
                     v) ;;
      top <- gets _modifiedOutputsTop ;;
      p <- deref top ;;
      let '(changed, p') := PrefixSumComputer.changeValue p index height in
      modify (with_modifiedOutputsTop (Some p')) ;;
      if changed then layoutChange else ret tt.

Definition getOutputOffsetInContainer (original : bool) (index : nat)
  : M t N :=
  ensureOutputsTop ;;
  if original then
    collection <- gets _originalOutputCollection ;;
    if (length collection <=? index)%nat then throw outOfRange
    else
      top <- gets _originalOutputsTop ;;
      p <- deref top ;;
      ret (PrefixSumComputer.getAccumulatedValue p (Z.of_nat index - 1))
  else
    collection <- gets _modifiedOutputCollection ;;
    if (length collection <=? index)%nat then throw outOfRange
    else
      top <- gets _modifiedOutputsTop ;;
      p <- deref top ;;
      ret (PrefixSumComputer.getAccumulatedValue p (Z.of_nat index - 1)).

(** The calls a client can make, and a client that makes a list of them
    one after the other, going on to the next call also when one threw. *)
Inductive call : Type :=
| Inherited (c : BaseCall)
| UpdateOutputHeight (original : bool) (index : nat) (height : N)
| GetOutputOffsetInContainer (original : bool) (index : nat)
| GetOutputTotalHeight
| LayoutChange
| EnsureOriginalOutputsTop
| EnsureModifiedOutputsTop
| EnsureOutputsTop.

Definition liftBase {A} (m : M CellDiffViewModelBase A) : M t A :=
  λ v, let '(r, b) := m (base v) in (r, with_base b v).

Definition perform (c : call) (v : t) : t :=
  match c with
  | Inherited c => after (liftBase (baseCall c)) v
  | UpdateOutputHeight o index height => after (updateOutputHeight o index height) v
  | GetOutputOffsetInContainer o index => after (getOutputOffsetInContainer o index) v
  | GetOutputTotalHeight => after getOutputTotalHeight v
  | LayoutChange => after layoutChange v
  | EnsureOriginalOutputsTop => after ensureOriginalOutputsTop v
  | EnsureModifiedOutputsTop => after ensureModifiedOutputsTop v
  | EnsureOutputsTop => after ensureOutputsTop v
  end.

Definition performAll (cs : list call) (v : t) : t := foldl (λ v c, perform c v) v cs.

Definition outcome (c : call) (v : t) : completion unit :=
  match c with
  | Inherited c => result (liftBase (baseCall c)) v
  | UpdateOutputHeight o index height => result (updateOutputHeight o index height) v
  | GetOutputOffsetInContainer o index =>
      match result (getOutputOffsetInContainer o index) v with
      | Normal _ => Normal tt
      | Throw e => Throw e
      end
  | GetOutputTotalHeight =>
      match result getOutputTotalHeight v with
      | Normal _ => Normal tt
      | Throw e => Throw e
      end
  | LayoutChange => result layoutChange v
  | EnsureOriginalOutputsTop => result ensureOriginalOutputsTop v
  | EnsureModifiedOutputsTop => result ensureModifiedOutputsTop v
  | EnsureOutputsTop => result ensureOutputsTop v
  end.

(** The states a client can bring a view model to. *)
Definition reachable `{Host} (v : t) : Prop :=
  ∃ doc o m ty cs, v = performAll cs (new doc o m ty).

(** The collection and the tracker of one side. *)
Definition collectionOf (original : bool) (v : t) : list (option N) :=
  if original then _originalOutputCollection v
  else _modifiedOutputCollection v.

Definition topOf (original : bool) (v : t) : option PrefixSumComputer.t :=
  if original then _originalOutputsTop v else _modifiedOutputsTop v.

(** The view model with both trackers ensured and [height] stored at
    [index] on one side, in the collection and in the tracker. *)
Definition stored (original : bool) (index : nat) (height : N) (v : t) : t :=
  let po := ensuredTop (_originalOutputCollection v) (_originalOutputsTop v) in
  let pm := ensuredTop (_modifiedOutputCollection v) (_modifiedOutputsTop v) in
  if original then
    mk (base v) (documentTextModel v) (SideBySide.original v) (modified v)
       (type v)
       (<[index := Some height]> (_originalOutputCollection v))
       (Some (PrefixSumComputer.mk
                (<[index := height]> (PrefixSumComputer.values po))))
       (_modifiedOutputCollection v) (Some pm)
  else
    mk (base v) (documentTextModel v) (SideBySide.original v) (modified v)
       (type v)
       (_originalOutputCollection v) (Some po)
       (<[index := Some height]> (_modifiedOutputCollection v))
       (Some (PrefixSumComputer.mk
                (<[index := height]> (PrefixSumComputer.values pm)))).

End SideBySide.

#[export] Instance SideBySide_view_model `{Host}
  : CellDiffViewModel SideBySide.t := {
  super := SideBySide.base;
  with_super := SideBySide.with_base;
  checkIfOutputsModified := SideBySide.checkIfOutputsModified;
  checkMetadataIfModified := SideBySide.checkMetadataIfModified;
  ensureOutputsTop := SideBySide.ensureOutputsTop;
  layoutChange := SideBySide.layoutChange
}.

(** ** Vocabulary of the properties *)

(** The height an entry of an output collection stands for, an entry never
    set counting as 0. *)
Definition heightOf (entry : option N) : N := default 0 entry.

Definition heights (collection : list (option N)) : list N :=
  heightOf <$> collection.

(** The height most recently set at position [j] by the calls [cs] of a
    single-side view model, [d] when none of them set it. *)
Fixpoint lastSet (cs : list SingleSide.call) (j : nat) (d : N) : N :=
  match cs with
  | [] => d
  | SingleSide.UpdateOutputHeight i h :: r =>
      lastSet r j (if (i =? j)%nat then h else d)
  | _ :: r => lastSet r j d
  end.

(** A tracker agrees with its backing collection: when present it holds the
    heights of the collection, and it is absent only while no height has been
    set. *)
Definition synced (collection : list (option N))
    (top : option PrefixSumComputer.t) : Prop :=
  match top with
  | Some p => PrefixSumComputer.values p = heights collection
  | None => Forall (λ entry, entry = None) collection
  end.

(** The part of [synced] that the specification words: absent, or holding
    the heights of the collection. *)
Definition absentOrExact (collection : list (option N))
    (top : option PrefixSumComputer.t) : Prop :=
  top = None ∨ ∃ p, top = Some p ∧ PrefixSumComputer.values p = heights collection.

(** The sum of the eight fields of a layout record. *)
Definition sumOfAllFields (l : LayoutInfo) : N :=
  width l + editorHeight l + editorMargin l + metadataStatusHeight l
  + metadataHeight l + outputStatusHeight l + outputHeight l + bodyMargin l.

(** The five flags of a descriptor, in the order outer width, editor height,
    metadata editor, output editor, output view. *)
Definition flagsOf (e : LayoutChangeEvent.t) : list bool :=
  [LayoutChangeEvent.flagged LayoutChangeEvent.outerWidth e;
   LayoutChangeEvent.flagged LayoutChangeEvent.editorHeight e;
   LayoutChangeEvent.flagged LayoutChangeEvent.metadataEditor e;
   LayoutChangeEvent.flagged LayoutChangeEvent.outputEditor e;
   LayoutChangeEvent.flagged LayoutChangeEvent.outputView e].

(** A method completes normally, having fired exactly one event, with the
    flags [fs], after all the events fired before. *)
Definition firesOnce (m : M CellDiffViewModelBase unit)
    (b : CellDiffViewModelBase) (fs : list bool) : Prop :=
  result m b = Normal tt
  ∧ ∃ e, _layoutInfoEmitter (after m b) = _layoutInfoEmitter b ++ [e]
         ∧ flagsOf e = fs.

(** The heights after the calls [cs], replayed on a list of heights. *)
Definition heightsAfter (cs : list SingleSide.call) (hs : list N) : list N :=
  foldl (λ hs c, match c with
                 | SingleSide.UpdateOutputHeight i h => <[i := h]> hs
                 | _ => hs
                 end) hs cs.

(** A host for running examples: a serializer that writes keys and strings
    without quotes and numbers as a mark, a hash by length, and a formatter
    that proposes no edit. *)
Fixpoint exampleStringify (x : JSValue) : string :=
  match x with
  | JUndefined => "undefined"
  | JNull => "null"
  | JBool b => if b then "true" else "false"
  | JNumber _ => "#"
  | JString s => s
  | JArray items =>
      "[" +:+ String.concat "," (List.map exampleStringify items) +:+ "]"
  | JObject props =>
      "{" +:+ String.concat ","
                (List.map (λ kv, kv.1 +:+ ":" +:+ exampleStringify kv.2) props)
          +:+ "}"
  end.

Definition exampleHost : Host := {|
  hash := λ x, Z.of_nat (String.length (exampleStringify x));
  JSON_stringify := exampleStringify;
  Edit := unit;
  format := λ _, [];
  applyEdits := λ content _, content
|}.

(** ** Vocabulary of the further properties *)

(** The eight fields of a layout record, in the order of its declaration. *)
Definition fieldsOf (l : LayoutInfo) : list N :=
  [width l; editorHeight l; editorMargin l; metadataStatusHeight l;
   metadataHeight l; outputStatusHeight l; outputHeight l; bodyMargin l].

(** The height most recently set at position [j] on one side of a
    side-by-side view model by the calls [cs], [d] when none of them set
    it. *)
Fixpoint lastSetOn (side : bool) (cs : list SideBySide.call) (j : nat) (d : N)
  : N :=
  match cs with
  | [] => d
  | SideBySide.UpdateOutputHeight o i h :: r =>
      lastSetOn side r j
        (if bool_decide (o = side) && (i =? j)%nat then h else d)
  | _ :: r => lastSetOn side r j d
  end.

(** The heights of one side after the calls [cs], replayed on a list of
    heights. *)
Definition heightsAfterOn (side : bool) (cs : list SideBySide.call)
    (hs : list N) : list N :=
  foldl (λ hs c, match c with
                 | SideBySide.UpdateOutputHeight o i h =>
                     if bool_decide (o = side) then <[i := h]> hs else hs
                 | _ => hs
                 end) hs cs.

(** The loop keeps the field of this name: the lookup of the name in the
    policy is not true, and the name is not [__proto__], which an assignment
    does not create. *)
Definition keptKey (transientMetadata : list (string * bool)) (key : string)
  : bool :=
  negb (isTransient transientMetadata key)
  && negb (String.eqb key "__proto__").

(** The fields of a metadata object that the loop keeps, in their order. *)
Definition keptFields (transientMetadata : list (string * bool))
    (cellMetadata : JSProps) : JSProps :=
  List.filter (λ kv, keptKey transientMetadata kv.1) cellMetadata.

(** The key is an array index, which an object enumerates before its other
    keys. *)
Definition isArrayIndex (key : string) : bool :=
  match arrayIndex key with
  | Some _ => true
  | None => false
  end.

(** The keys are distinct and in the order JavaScript enumerates them: no
    key comes before one that precedes it in the list. *)
Fixpoint orderedKeys (keys : list string) : Prop :=
  match keys with
  | [] => True
  | k :: r => Forall (λ k', k' ≠ k ∧ comesBefore k' k = false) r
              ∧ orderedKeys r
  end.

(** A property list that stands for an object. *)
Definition wellFormed {A} (o : list (string * A)) : Prop :=
  orderedKeys (Object_keys o).

(** The three fields of a layout record that no method assigns anew. *)
Definition fixedFields (b : CellDiffViewModelBase) : N * N * N :=
  (width (_layoutInfo b), metadataStatusHeight (_layoutInfo b),
   bodyMargin (_layoutInfo b)).

(** The base state after [layoutChange] has found the total [total]: the
    output height of the layout record recomputed and the event fired. *)
Definition relaidOut (total : N) (b : CellDiffViewModelBase)
  : CellDiffViewModelBase :=
  fire LayoutChangeEvent.empty
    (with_layoutInfo
       (let l := _layoutInfo b in
        mkLayoutInfo (width l) (editorHeight l) (editorMargin l)
          (metadataStatusHeight l) (metadataHeight l) (outputStatusHeight l)
          (match outputFoldingState b with
           | Collapsed => 0
           | Expanded => total
           end)
          (bodyMargin l)) b).

(** * Properties *)

(** ** Sums and typed-array copies *)

Lemma sumN_app (l k : list N) : sumN (l ++ k) = sumN l + sumN k.
Proof. induction l as [|x l IH]; simpl; [done|]. rewrite IH. lia. Qed.

Lemma sumN_insert (l : list N) (i : nat) (x y : N) :
  l !! i = Some y → sumN (<[i := x]> l) + y = sumN l + x.
Proof.
  revert i. induction l as [|z l IH]; intros [|i] Hi; simplify_eq/=.
  - lia.
  - specialize (IH _ Hi). lia.
Qed.

Lemma copy_loop_length (c : list (option N)) (k : nat) (l : list N) :
  length (foldl (λ values i, <[i := toUint32Element (c !!! i)]> values)
                l (seq 0 k)) = length l.
Proof.
  induction k as [|k IH]; [done|].
  by rewrite seq_S, foldl_snoc, length_insert.
Qed.

Lemma copy_loop_lookup (c : list (option N)) (k j : nat) :
  (k ≤ length c)%nat →
  (j < length c)%nat →
  foldl (λ values i, <[i := toUint32Element (c !!! i)]> values)
        (newUint32Array (length c)) (seq 0 k) !! j
  = Some (if decide (j < k)%nat then toUint32Element (c !!! j) else 0).
Proof.
  intros Hk Hj. induction k as [|k IH].
  - simpl. unfold newUint32Array. by rewrite lookup_replicate_2.
  - rewrite seq_S, foldl_snoc. simpl.
    destruct (decide (j = k)) as [->|Hne].
    + rewrite list_lookup_insert_eq.
      * by rewrite decide_True by lia.
      * rewrite copy_loop_length. unfold newUint32Array.
        by rewrite length_replicate.
    + rewrite list_lookup_insert_ne by done.
      rewrite IH by lia. repeat case_decide; try lia; done.
Qed.

(** The copy loop stores the converted entry at every position. *)
Lemma copyToUint32Array_fmap (c : list (option N)) :
  copyToUint32Array c = toUint32Element <$> c.
Proof.
  apply list_eq_same_length with (length c).
  - by rewrite length_fmap.
  - unfold copyToUint32Array, newUint32Array.
    by rewrite copy_loop_length, length_replicate.
  - intros j x y Hj Hx Hy. unfold copyToUint32Array in Hx.
    rewrite copy_loop_lookup in Hx by lia.
    rewrite decide_True in Hx by done.
    rewrite list_lookup_fmap in Hy.
    destruct (lookup_lt_is_Some_2 c j Hj) as [e He].
    rewrite (list_lookup_total_correct _ _ _ He) in Hx.
    rewrite He in Hy. simpl in Hy. congruence.
Qed.

(** While nothing has been set the copy is the list of heights. *)
Lemma copyToUint32Array_holes (c : list (option N)) :
  Forall (λ entry, entry = None) c → copyToUint32Array c = heights c.
Proof.
  intros Hc. rewrite copyToUint32Array_fmap. unfold heights.
  induction Hc as [|e c -> _ IH]; [done|]. by rewrite !fmap_cons, IH.
Qed.

Lemma heights_insert (c : list (option N)) (i : nat) (h : N) :
  heights (<[i := Some h]> c) = <[i := h]> (heights c).
Proof. unfold heights. by rewrite list_fmap_insert. Qed.

Lemma heights_length (c : list (option N)) : length (heights c) = length c.
Proof. unfold heights. by rewrite length_fmap. Qed.

Lemma heights_lookup (c : list (option N)) (i : nat) :
  (i < length c)%nat → heights c !! i = Some (heightOf (c !!! i)).
Proof.
  intros Hi. unfold heights. rewrite list_lookup_fmap.
  destruct (lookup_lt_is_Some_2 c i Hi) as [e He].
  by rewrite He, (list_lookup_total_correct _ _ _ He).
Qed.

(** ** The tracker *)

(** Changing one size changes the total exactly when the size differs from
    the one held at that position. *)
Lemma changeValue_flag (p : PrefixSumComputer.t) (i : nat) (h old : N) :
  PrefixSumComputer.values p !! i = Some old →
  (PrefixSumComputer.changeValue p i h).1 = negb (h =? old).
Proof.
  intros Hi.
  unfold PrefixSumComputer.changeValue, PrefixSumComputer.getTotalValue.
  simpl. pose proof (sumN_insert _ _ h _ Hi) as Hs. f_equal.
  destruct (N.eqb_spec h old),
    (N.eqb_spec (sumN (<[i:=h]> (PrefixSumComputer.values p)))
                (sumN (PrefixSumComputer.values p)));
    try done; lia.
Qed.

(** ** The layout record *)

(** C7: each of the five layout setters stores the new value in its field and
    fires exactly one layout-change event.  The descriptor of the event flags
    output editor and output view for [outputHeight], editor height for
    [editorHeight], metadata editor for [metadataHeight], and no sub-region
    for [outputStatusHeight] and [editorMargin]; no setter flags outer
    width. *)
Theorem setters_fire_once (b : CellDiffViewModelBase) (height : N) :
  (firesOnce (set_outputHeight height) b [false; false; false; true; true]
   ∧ get_outputHeight (after (set_outputHeight height) b) = height)
  ∧ (firesOnce (set_outputStatusHeight height) b
       [false; false; false; false; false]
     ∧ get_outputStatusHeight (after (set_outputStatusHeight height) b)
       = height)
  ∧ (firesOnce (set_editorHeight height) b [false; true; false; false; false]
     ∧ get_editorHeight (after (set_editorHeight height) b) = height)
  ∧ (firesOnce (set_editorMargin height) b [false; false; false; false; false]
     ∧ get_editorMargin (after (set_editorMargin height) b) = height)
  ∧ (firesOnce (set_metadataHeight height) b
       [false; false; true; false; false]
     ∧ get_metadataHeight (after (set_metadataHeight height) b) = height).
Proof.
  unfold firesOnce.
  repeat split; try reflexivity; eexists; split; reflexivity.
Qed.

(** ** The single-side view model, call by call *)

Ltac run := unfold bind, ret, gets, modify, throw, deref, result, after.

Ltac step_single :=
  unfold SingleSide.perform, SingleSide.outcome,
    SingleSide.updateOutputHeight, SingleSide.getOutputOffsetInContainer,
    SingleSide.layoutChange, SingleSide.getOutputTotalHeight,
    SingleSide.ensureOutputsTop, SingleSide.liftBase,
    PrefixSumComputer.changeValue;
  run; simpl;
  repeat (case_match; simplify_eq/=); try reflexivity.

Lemma single_perform_collection (c : SingleSide.call) (v : SingleSide.t) :
  SingleSide._outputCollection (SingleSide.perform c v)
  = match c with
    | SingleSide.UpdateOutputHeight i h =>
        if (length (SingleSide._outputCollection v) <=? i)%nat
        then SingleSide._outputCollection v
        else <[i := Some h]> (SingleSide._outputCollection v)
    | _ => SingleSide._outputCollection v
    end.
Proof. destruct v as [b d o m ty cl top]. destruct c; step_single. Qed.

Lemma single_perform_top (c : SingleSide.call) (v : SingleSide.t) :
  SingleSide._outputsTop (SingleSide.perform c v)
  = let p := ensuredTop (SingleSide._outputCollection v)
                        (SingleSide._outputsTop v) in
    match c with
    | SingleSide.Inherited _ => SingleSide._outputsTop v
    | SingleSide.UpdateOutputHeight i h =>
        if (length (SingleSide._outputCollection v) <=? i)%nat
        then SingleSide._outputsTop v
        else Some (PrefixSumComputer.mk (<[i := h]> (PrefixSumComputer.values p)))
    | _ => Some p
    end.
Proof. destruct v as [b d o m ty cl top]. destruct c; step_single. Qed.

(** What an agreeing tracker holds once ensured. *)
Lemma ensuredTop_synced (cl : list (option N))
    (top : option PrefixSumComputer.t) :
  synced cl top → PrefixSumComputer.values (ensuredTop cl top) = heights cl.
Proof.
  destruct top as [p|]; simpl; [done|]. apply copyToUint32Array_holes.
Qed.

Lemma single_perform_synced (c : SingleSide.call) (v : SingleSide.t) :
  synced (SingleSide._outputCollection v) (SingleSide._outputsTop v) →
  synced (SingleSide._outputCollection (SingleSide.perform c v))
         (SingleSide._outputsTop (SingleSide.perform c v)).
Proof.
  intros Hs. pose proof (ensuredTop_synced _ _ Hs) as He.
  rewrite single_perform_collection, single_perform_top.
  destruct c; simpl; try done.
  case_match; [done|]. simpl. by rewrite He, heights_insert.
Qed.

Lemma single_perform_heights (c : SingleSide.call) (v : SingleSide.t) :
  heights (SingleSide._outputCollection (SingleSide.perform c v))
  = heightsAfter [c] (heights (SingleSide._outputCollection v)).
Proof.
  rewrite single_perform_collection. destruct c; simpl; try done.
  case_match; [|by rewrite heights_insert].
  rewrite list_insert_ge; [done|].
  rewrite heights_length. by apply Nat.leb_le.
Qed.

Lemma single_performAll_synced (cs : list SingleSide.call) (v : SingleSide.t) :
  synced (SingleSide._outputCollection v) (SingleSide._outputsTop v) →
  synced (SingleSide._outputCollection (SingleSide.performAll cs v))
         (SingleSide._outputsTop (SingleSide.performAll cs v)).
Proof.
  revert v. induction cs as [|c cs IH]; intros v Hs; [done|].
  simpl. apply IH. by apply single_perform_synced.
Qed.

Lemma single_performAll_heights (cs : list SingleSide.call) (v : SingleSide.t) :
  heights (SingleSide._outputCollection (SingleSide.performAll cs v))
  = heightsAfter cs (heights (SingleSide._outputCollection v)).
Proof.
  revert v. induction cs as [|c cs IH]; intros v; [done|].
  simpl. rewrite IH. by rewrite single_perform_heights.
Qed.

Lemma heightsAfter_length (cs : list SingleSide.call) (hs : list N) :
  length (heightsAfter cs hs) = length hs.
Proof.
  revert hs. induction cs as [|c cs IH]; intros hs; [done|].
  change (heightsAfter (c :: cs) hs) with (heightsAfter cs (heightsAfter [c] hs)).
  rewrite IH. destruct c; simpl; try done. by rewrite length_insert.
Qed.

(** Replaying the calls leaves at each position the height set last. *)
Lemma heightsAfter_lookup (cs : list SingleSide.call) (hs : list N)
    (j : nat) (d : N) :
  hs !! j = Some d → heightsAfter cs hs !! j = Some (lastSet cs j d).
Proof.
  revert hs d. induction cs as [|c cs IH]; intros hs d Hj; [done|].
  destruct c as [| i h | | | |]; simpl; try (by apply IH).
  apply IH. destruct (Nat.eqb_spec i j) as [->|Hne].
  - apply list_lookup_insert_eq. by eapply lookup_lt_Some.
  - by rewrite list_lookup_insert_ne.
Qed.

Lemma single_new_synced doc o m ty (v0 : SingleSide.t) :
  SingleSide.new doc o m ty = Normal v0 →
  synced (SingleSide._outputCollection v0) (SingleSide._outputsTop v0)
  ∧ heights (SingleSide._outputCollection v0)
    = replicate (length (SingleSide._outputCollection v0)) 0.
Proof.
  unfold SingleSide.new. intros Hn.
  assert (∃ n, SingleSide._outputCollection v0 = replicate n None
               ∧ SingleSide._outputsTop v0 = None) as (n & Hc & Ht).
  { repeat case_match; simplify_eq/=; eauto. }
  rewrite Hc, Ht. split.
  - simpl. apply Forall_forall. intros e He.
    by apply elem_of_replicate in He as [? _].
  - unfold heights. by rewrite fmap_replicate, length_replicate.
Qed.

Lemma single_reachable_synced (v : SingleSide.t) :
  SingleSide.reachable v →
  synced (SingleSide._outputCollection v) (SingleSide._outputsTop v).
Proof.
  intros (doc & o & m & ty & v0 & cs & Hn & ->).
  apply single_performAll_synced. by apply (single_new_synced _ _ _ _ _ Hn).
Qed.

Lemma single_offset_in_range (v : SingleSide.t) (i : nat) :
  (i < length (SingleSide._outputCollection v))%nat →
  result (SingleSide.getOutputOffsetInContainer i) v
  = Normal (PrefixSumComputer.getAccumulatedValue
              (ensuredTop (SingleSide._outputCollection v)
                          (SingleSide._outputsTop v))
              (Z.of_nat i - 1)).
Proof.
  intros Hi. apply Nat.leb_gt in Hi.
  destruct v as [b d o m ty cl [p|]];
    unfold SingleSide.getOutputOffsetInContainer, SingleSide.ensureOutputsTop;
    run; simpl in *; by rewrite Hi.
Qed.

Lemma single_total (v : SingleSide.t) :
  result SingleSide.getOutputTotalHeight v
  = Normal (PrefixSumComputer.getTotalValue
              (ensuredTop (SingleSide._outputCollection v)
                          (SingleSide._outputsTop v))).
Proof. destruct v as [b d o m ty cl [p|]]; reflexivity. Qed.

Lemma take_heightsAfter (cs : list SingleSide.call) (n i : nat) :
  (i ≤ n)%nat →
  take i (heightsAfter cs (replicate n 0)) = (λ j, lastSet cs j 0) <$> seq 0 i.
Proof.
  intros Hi. apply list_eq_same_length with i.
  - by rewrite length_fmap, length_seq.
  - rewrite length_take, heightsAfter_length, length_replicate. lia.
  - intros j x y Hj Hx Hy.
    rewrite lookup_take_lt in Hx by done.
    rewrite (heightsAfter_lookup cs _ j 0) in Hx
      by (apply lookup_replicate_2; lia).
    rewrite list_lookup_fmap, lookup_seq_lt in Hy by done.
    simpl in Hy. congruence.
Qed.

(** C1: on a single-side view model, after construction and any calls [cs]
    of its methods (among them any [updateOutputHeight] calls with valid
    indices), [getOutputOffsetInContainer(i)] at a valid index [i] returns
    the sum over the positions [0 .. i-1] of the height most recently set
    there, a position never set counting as 0; at index 0 this is 0. *)
Theorem offset_is_sum_of_latest_heights
    (doc : NotebookTextModel) (o m : option NotebookCellTextModel)
    (ty : DiffType) (v0 : SingleSide.t) (cs : list SingleSide.call)
    (i : nat) :
  SingleSide.new doc o m ty = Normal v0 →
  (i < length (SingleSide._outputCollection v0))%nat →
  result (SingleSide.getOutputOffsetInContainer i)
         (SingleSide.performAll cs v0)
  = Normal (sumN ((λ j, lastSet cs j 0) <$> seq 0 i))
  ∧ (i = 0%nat →
     result (SingleSide.getOutputOffsetInContainer i)
            (SingleSide.performAll cs v0) = Normal 0).
Proof.
  intros Hnew Hi.
  destruct (single_new_synced _ _ _ _ _ Hnew) as [Hs0 Hh0].
  pose proof (single_performAll_synced cs v0 Hs0) as Hs.
  pose proof (single_performAll_heights cs v0) as Hh.
  rewrite Hh0 in Hh.
  assert (Hlen : length (SingleSide._outputCollection
                           (SingleSide.performAll cs v0))
                 = length (SingleSide._outputCollection v0)).
  { rewrite <- (heights_length (SingleSide._outputCollection
                                  (SingleSide.performAll cs v0))), Hh.
    by rewrite heightsAfter_length, length_replicate. }
  assert (Hres : result (SingleSide.getOutputOffsetInContainer i)
                        (SingleSide.performAll cs v0)
                 = Normal (sumN ((λ j, lastSet cs j 0) <$> seq 0 i))).
  { rewrite single_offset_in_range by lia.
    unfold PrefixSumComputer.getAccumulatedValue.
    rewrite (ensuredTop_synced _ _ Hs), Hh.
    replace (Z.to_nat (Z.of_nat i - 1 + 1)) with i by lia.
    by rewrite take_heightsAfter by lia. }
  split; [done|]. intros ->. by rewrite Hres.
Qed.

(** C1, at a concrete view model: three outputs, heights 5 and 7 set at
    positions 0 and 1, then 2 at position 0; the offset of output 2 is 9. *)
Lemma offset_is_sum_of_latest_heights_witness :
  let cell := mkCell [JNull; JNull; JNull] None "python" in
  let doc := mkNotebook (mkTransientOptions false []) in
  let v0 := SingleSide.mk newBase doc (Some cell) None Delete
              [None; None; None] None in
  let cs := [SingleSide.UpdateOutputHeight 0 5;
             SingleSide.UpdateOutputHeight 1 7;
             SingleSide.UpdateOutputHeight 0 2] in
  result (SingleSide.getOutputOffsetInContainer 2)
         (SingleSide.performAll cs v0) = Normal 9.
Proof.
  intros cell doc v0 cs.
  apply (offset_is_sum_of_latest_heights doc (Some cell) None Delete v0 cs 2).
  - reflexivity.
  - simpl. lia.
Defined.

(** ** The side-by-side view model, call by call *)

Ltac step_side :=
  unfold SideBySide.collectionOf, SideBySide.topOf,
    SideBySide.perform, SideBySide.outcome,
    SideBySide.updateOutputHeight, SideBySide.getOutputOffsetInContainer,
    SideBySide.layoutChange, SideBySide.getOutputTotalHeight,
    SideBySide.ensureOutputsTop, SideBySide.ensureOriginalOutputsTop,
    SideBySide.ensureModifiedOutputsTop, SideBySide.liftBase,
    PrefixSumComputer.changeValue;
  run; simpl;
  repeat (case_match; simplify_eq/=); try reflexivity.

Lemma side_perform_collection (side : bool) (c : SideBySide.call)
    (v : SideBySide.t) :
  SideBySide.collectionOf side (SideBySide.perform c v)
  = match c with
    | SideBySide.UpdateOutputHeight o i h =>
        if bool_decide (o = side)
        then if (length (SideBySide.collectionOf side v) <=? i)%nat
             then SideBySide.collectionOf side v
             else <[i := Some h]> (SideBySide.collectionOf side v)
        else SideBySide.collectionOf side v
    | _ => SideBySide.collectionOf side v
    end.
Proof.
  destruct v as [b d o m ty co to cm tm].
  destruct c as [| [] | [] | | | | |], side; step_side.
Qed.

Lemma side_perform_top (side : bool) (c : SideBySide.call)
    (v : SideBySide.t) :
  SideBySide.topOf side (SideBySide.perform c v)
  = let p := ensuredTop (SideBySide.collectionOf side v)
                        (SideBySide.topOf side v) in
    match c with
    | SideBySide.Inherited _ => SideBySide.topOf side v
    | SideBySide.UpdateOutputHeight o i h =>
        if (length (SideBySide.collectionOf o v) <=? i)%nat
        then SideBySide.topOf side v
        else if bool_decide (o = side)
             then Some (PrefixSumComputer.mk
                          (<[i := h]> (PrefixSumComputer.values p)))
             else Some p
    | SideBySide.EnsureOriginalOutputsTop =>
        if side then Some p else SideBySide.topOf side v
    | SideBySide.EnsureModifiedOutputsTop =>
        if side then SideBySide.topOf side v else Some p
    | _ => Some p
    end.
Proof.
  destruct v as [b d o m ty co to cm tm].
  destruct c as [| [] | [] | | | | |], side; step_side.
Qed.

Lemma side_perform_synced (side : bool) (c : SideBySide.call)
    (v : SideBySide.t) :
  synced (SideBySide.collectionOf side v) (SideBySide.topOf side v) →
  synced (SideBySide.collectionOf side (SideBySide.perform c v))
         (SideBySide.topOf side (SideBySide.perform c v)).
Proof.
  intros Hs. pose proof (ensuredTop_synced _ _ Hs) as He.
  rewrite side_perform_collection, side_perform_top.
  destruct c as [| o i h | | | | | |]; simpl; try done.
  - destruct (bool_decide_reflect (o = side)) as [->|Hne].
    + case_match; [done|]. simpl. by rewrite He, heights_insert.
    + case_match; done.
  - by destruct side.
  - by destruct side.
Qed.

Lemma side_performAll_synced (side : bool) (cs : list SideBySide.call)
    (v : SideBySide.t) :
  synced (SideBySide.collectionOf side v) (SideBySide.topOf side v) →
  synced (SideBySide.collectionOf side (SideBySide.performAll cs v))
         (SideBySide.topOf side (SideBySide.performAll cs v)).
Proof.
  revert v. induction cs as [|c cs IH]; intros v Hs; [done|].
  simpl. apply IH. by apply side_perform_synced.
Qed.

Lemma side_new_synced `{Host} (side : bool) doc o m ty :
  synced (SideBySide.collectionOf side (SideBySide.new doc o m ty))
         (SideBySide.topOf side (SideBySide.new doc o m ty)).
Proof.
  assert (∃ n, SideBySide.collectionOf side (SideBySide.new doc o m ty)
               = replicate n None
               ∧ SideBySide.topOf side (SideBySide.new doc o m ty) = None)
    as (n & Hc & Ht).
  { unfold SideBySide.new. destruct side; simpl;
      repeat case_match; simpl; eauto. }
  rewrite Hc, Ht. simpl. apply Forall_forall. intros e He.
  by apply elem_of_replicate in He as [? _].
Qed.

Lemma side_reachable_synced `{Host} (side : bool) (v : SideBySide.t) :
  SideBySide.reachable v →
  synced (SideBySide.collectionOf side v) (SideBySide.topOf side v).
Proof.
  intros (doc & o & m & ty & cs & ->).
  apply side_performAll_synced, side_new_synced.
Qed.

Lemma side_total (v : SideBySide.t) :
  result SideBySide.getOutputTotalHeight v
  = Normal (N.max
      (PrefixSumComputer.getTotalValue
         (ensuredTop (SideBySide.collectionOf true v)
                     (SideBySide.topOf true v)))
      (PrefixSumComputer.getTotalValue
         (ensuredTop (SideBySide.collectionOf false v)
                     (SideBySide.topOf false v)))).
Proof. destruct v as [b d o m ty co [p|] cm [q|]]; reflexivity. Qed.

(** ** What an update does *)

Lemma single_layoutChange (v : SingleSide.t) :
  result SingleSide.layoutChange v = Normal tt
  ∧ _layoutInfoEmitter (SingleSide.base (after SingleSide.layoutChange v))
    = _layoutInfoEmitter (SingleSide.base v) ++ [LayoutChangeEvent.empty]
  ∧ get_outputHeight (SingleSide.base (after SingleSide.layoutChange v))
    = match outputFoldingState (SingleSide.base v) with
      | Collapsed => 0
      | Expanded =>
          PrefixSumComputer.getTotalValue
            (ensuredTop (SingleSide._outputCollection v)
                        (SingleSide._outputsTop v))
      end.
Proof.
  destruct v as [[mf [] em l] d o m ty cl [p|]]; repeat split; reflexivity.
Qed.

Lemma single_update_in_range (v : SingleSide.t) (i : nat) (h : N) :
  (i < length (SingleSide._outputCollection v))%nat →
  SingleSide.updateOutputHeight i h v
  = if (PrefixSumComputer.changeValue
          (ensuredTop (SingleSide._outputCollection v)
                      (SingleSide._outputsTop v)) i h).1
    then SingleSide.layoutChange (SingleSide.stored i h v)
    else (Normal tt, SingleSide.stored i h v).
Proof.
  intros Hi. apply Nat.leb_gt in Hi.
  destruct v as [b d o m ty cl [p|]];
    unfold SingleSide.updateOutputHeight, SingleSide.ensureOutputsTop,
      SingleSide.stored, PrefixSumComputer.changeValue;
    run; simpl in *; rewrite Hi; simpl; by case_match.
Qed.

Lemma single_update_out_of_range (v : SingleSide.t) (i : nat) (h : N) :
  (length (SingleSide._outputCollection v) ≤ i)%nat →
  SingleSide.updateOutputHeight i h v = (Throw SingleSide.outOfRange, v).
Proof.
  intros Hi. apply Nat.leb_le in Hi.
  unfold SingleSide.updateOutputHeight. run. by rewrite Hi.
Qed.

Lemma single_offset_out_of_range (v : SingleSide.t) (i : nat) :
  (length (SingleSide._outputCollection v) ≤ i)%nat →
  result (SingleSide.getOutputOffsetInContainer i) v
  = Throw SingleSide.outOfRange.
Proof.
  intros Hi. apply Nat.leb_le in Hi.
  destruct v as [b d o m ty cl [p|]];
    unfold SingleSide.getOutputOffsetInContainer, SingleSide.ensureOutputsTop;
    run; simpl in *; by rewrite Hi.
Qed.

Lemma side_layoutChange (v : SideBySide.t) :
  result SideBySide.layoutChange v = Normal tt
  ∧ _layoutInfoEmitter (SideBySide.base (after SideBySide.layoutChange v))
    = _layoutInfoEmitter (SideBySide.base v) ++ [LayoutChangeEvent.empty]
  ∧ get_outputHeight (SideBySide.base (after SideBySide.layoutChange v))
    = match outputFoldingState (SideBySide.base v) with
      | Collapsed => 0
      | Expanded =>
          N.max
            (PrefixSumComputer.getTotalValue
               (ensuredTop (SideBySide.collectionOf true v)
                           (SideBySide.topOf true v)))
            (PrefixSumComputer.getTotalValue
               (ensuredTop (SideBySide.collectionOf false v)
                           (SideBySide.topOf false v)))
      end.
Proof.
  destruct v as [[mf [] em l] d o m ty co [p|] cm [q|]];
    repeat split; reflexivity.
Qed.

Lemma side_update_in_range (v : SideBySide.t) (side : bool) (i : nat) (h : N) :
  (i < length (SideBySide.collectionOf side v))%nat →
  SideBySide.updateOutputHeight side i h v
  = if (PrefixSumComputer.changeValue
          (ensuredTop (SideBySide.collectionOf side v)
                      (SideBySide.topOf side v)) i h).1
    then SideBySide.layoutChange (SideBySide.stored side i h v)
    else (Normal tt, SideBySide.stored side i h v).
Proof.
  intros Hi. apply Nat.leb_gt in Hi.
  destruct v as [b d o m ty co [p|] cm [q|]], side;
    unfold SideBySide.updateOutputHeight, SideBySide.ensureOriginalOutputsTop,
      SideBySide.ensureModifiedOutputsTop, SideBySide.stored,
      PrefixSumComputer.changeValue;
    run; simpl in *; rewrite Hi; simpl; by case_match.
Qed.

Lemma side_update_out_of_range (v : SideBySide.t) (side : bool) (i : nat)
    (h : N) :
  (length (SideBySide.collectionOf side v) ≤ i)%nat →
  SideBySide.updateOutputHeight side i h v = (Throw SideBySide.outOfRange, v).
Proof.
  intros Hi. apply Nat.leb_le in Hi.
  unfold SideBySide.updateOutputHeight. destruct side; run; simpl in *;
    by rewrite Hi.
Qed.

Lemma side_offset_out_of_range (v : SideBySide.t) (side : bool) (i : nat) :
  (length (SideBySide.collectionOf side v) ≤ i)%nat →
  result (SideBySide.getOutputOffsetInContainer side i) v
  = Throw SideBySide.outOfRange.
Proof.
  intros Hi. apply Nat.leb_le in Hi.
  destruct v as [b d o m ty co [p|] cm [q|]], side;
    unfold SideBySide.getOutputOffsetInContainer, SideBySide.ensureOutputsTop,
      SideBySide.ensureOriginalOutputsTop, SideBySide.ensureModifiedOutputsTop;
    run; simpl in *; by rewrite Hi.
Qed.

(** ** Errors *)

Lemma baseCall_normal (c : BaseCall) (b : CellDiffViewModelBase) :
  (baseCall c b).1 = Normal tt.
Proof. by destruct c. Qed.

Lemma single_outcome_error (c : SingleSide.call) (v : SingleSide.t) (e : exn) :
  SingleSide.outcome c v = Throw e → e = SingleSide.outOfRange.
Proof.
  destruct v as [b d o m ty cl top]. destruct c as [c| | | | |].
  - unfold SingleSide.outcome, SingleSide.liftBase, result. simpl.
    pose proof (baseCall_normal c b) as Hn.
    destruct (baseCall c b) as [r b']. simpl in *. by subst.
  - step_single; intros; by simplify_eq.
  - step_single; intros; by simplify_eq.
  - step_single; intros; by simplify_eq.
  - step_single; intros; by simplify_eq.
  - step_single; intros; by simplify_eq.
Qed.

Lemma side_outcome_error (c : SideBySide.call) (v : SideBySide.t) (e : exn) :
  SideBySide.outcome c v = Throw e → e = SideBySide.outOfRange.
Proof.
  destruct v as [b d o m ty co to cm tm].
  destruct c as [c | [] | [] | | | | |];
    try (step_side; intros; by simplify_eq).
  unfold SideBySide.outcome, SideBySide.liftBase, result. simpl.
  pose proof (baseCall_normal c b) as Hn.
  destruct (baseCall c b) as [r b']. simpl in *. by subst.
Qed.

(** C2: on both view models, [updateOutputHeight] and
    [getOutputOffsetInContainer] called with an index at or beyond the length
    of the output collection concerned throw the error
    'Output index out of range!'; and whatever method a client calls on a
    view model, in whatever state, this error is the only one thrown. *)
Theorem out_of_range_is_the_only_error
    (vs : SingleSide.t) (vd : SideBySide.t) (side : bool) (i j : nat)
    (h : N) :
  (length (SingleSide._outputCollection vs) ≤ i)%nat →
  (length (SideBySide.collectionOf side vd) ≤ j)%nat →
  (result (SingleSide.updateOutputHeight i h) vs
   = Throw (Error "Output index out of range!")
   ∧ result (SingleSide.getOutputOffsetInContainer i) vs
     = Throw (Error "Output index out of range!"))
  ∧ (result (SideBySide.updateOutputHeight side j h) vd
     = Throw (Error "Output index out of range!")
     ∧ result (SideBySide.getOutputOffsetInContainer side j) vd
       = Throw (Error "Output index out of range!"))
  ∧ (∀ c e, SingleSide.outcome c vs = Throw e →
            e = Error "Output index out of range!")
  ∧ (∀ c e, SideBySide.outcome c vd = Throw e →
            e = Error "Output index out of range!").
Proof.
  intros Hi Hj. repeat split.
  - unfold result. by rewrite single_update_out_of_range.
  - by apply single_offset_out_of_range.
  - unfold result. by rewrite side_update_out_of_range.
  - by apply side_offset_out_of_range.
  - intros c e. apply single_outcome_error.
  - intros c e. apply side_outcome_error.
Qed.

(** C2, at concrete view models: index 2 on a single-side view model with
    two outputs, index 1 on the modified side of a side-by-side view model
    whose modified cell has one output. *)
Lemma out_of_range_is_the_only_error_witness :
  let doc := mkNotebook (mkTransientOptions false []) in
  let vs := SingleSide.mk newBase doc None
              (Some (mkCell [JNull; JNull] None "python")) Insert
              [None; None] None in
  let vd := SideBySide.new (H := exampleHost) doc
              (mkCell [JNull; JNull] None "python")
              (mkCell [JNull] None "python") Modified in
  result (SingleSide.updateOutputHeight 2 10) vs
  = Throw (Error "Output index out of range!")
  ∧ result (SideBySide.getOutputOffsetInContainer false 1) vd
    = Throw (Error "Output index out of range!").
Proof.
  intros doc vs vd.
  destruct (out_of_range_is_the_only_error vs vd false 2 1 10)
    as ((Hu & _) & (_ & Hg) & _).
  - simpl. lia.
  - simpl. lia.
  - split; [exact Hu | exact Hg].
Defined.

(** C10: on both view models, [updateOutputHeight] called with an index at
    or beyond the length of the output collection throws and leaves the view
    model as it was: the output-height collections, the trackers and the
    layout record are those of before the call. *)
Theorem out_of_range_update_changes_nothing
    (vs : SingleSide.t) (vd : SideBySide.t) (side : bool) (i j : nat)
    (h : N) :
  (length (SingleSide._outputCollection vs) ≤ i)%nat →
  (length (SideBySide.collectionOf side vd) ≤ j)%nat →
  SingleSide.updateOutputHeight i h vs
  = (Throw (Error "Output index out of range!"), vs)
  ∧ SideBySide.updateOutputHeight side j h vd
    = (Throw (Error "Output index out of range!"), vd).
Proof.
  intros Hi Hj. split.
  - by apply single_update_out_of_range.
  - by apply side_update_out_of_range.
Qed.

(** C10, at concrete view models in which heights have been set before. *)
Lemma out_of_range_update_changes_nothing_witness :
  let doc := mkNotebook (mkTransientOptions false []) in
  let vs := SingleSide.performAll [SingleSide.UpdateOutputHeight 0 4]
              (SingleSide.mk newBase doc None
                 (Some (mkCell [JNull; JNull] None "python")) Insert
                 [None; None] None) in
  let vd := SideBySide.performAll [SideBySide.UpdateOutputHeight true 1 6]
              (SideBySide.new (H := exampleHost) doc
                 (mkCell [JNull; JNull] None "python")
                 (mkCell [JNull] None "python") Modified) in
  after (SingleSide.updateOutputHeight 2 10) vs = vs
  ∧ after (SideBySide.updateOutputHeight true 2 10) vd = vd.
Proof.
  intros doc vs vd.
  destruct (out_of_range_update_changes_nothing vs vd true 2 2 10)
    as (Hs & Hd).
  - vm_compute. lia.
  - vm_compute. lia.
  - unfold after. by rewrite Hs, Hd.
Defined.

(** ** The trackers and their collections *)

Lemma synced_absentOrExact (cl : list (option N))
    (top : option PrefixSumComputer.t) :
  synced cl top → absentOrExact cl top.
Proof.
  destruct top as [p|]; intros Hs; [right; by exists p | by left].
Qed.

Lemma single_reachable_perform (c : SingleSide.call) (v : SingleSide.t) :
  SingleSide.reachable v → SingleSide.reachable (SingleSide.perform c v).
Proof.
  intros (doc & o & m & ty & v0 & cs & Hn & ->).
  exists doc, o, m, ty, v0, (cs ++ [c]). split; [done|].
  unfold SingleSide.performAll. by rewrite foldl_snoc.
Qed.

Lemma side_reachable_perform `{Host} (c : SideBySide.call) (v : SideBySide.t) :
  SideBySide.reachable v → SideBySide.reachable (SideBySide.perform c v).
Proof.
  intros (doc & o & m & ty & cs & ->).
  exists doc, o, m, ty, (cs ++ [c]).
  unfold SideBySide.performAll. by rewrite foldl_snoc.
Qed.

(** C8: in every state a client can bring a view model to, each tracker
    ([_outputsTop], [_originalOutputsTop], [_modifiedOutputsTop]) is absent
    or holds exactly the heights of its collection, entries never set as 0,
    and this still holds after any further call; a tracker is absent after
    construction, its [ensure...OutputsTop] method leaves it present and
    holding those heights, keeping the tracker there was; and no call
    completes by the [TypeError] of a member access on an absent tracker. *)
Theorem trackers_absent_or_exact `{Host}
    (vs : SingleSide.t) (vd : SideBySide.t) :
  SingleSide.reachable vs →
  SideBySide.reachable vd →
  (absentOrExact (SingleSide._outputCollection vs) (SingleSide._outputsTop vs)
   ∧ absentOrExact (SideBySide._originalOutputCollection vd)
                   (SideBySide._originalOutputsTop vd)
   ∧ absentOrExact (SideBySide._modifiedOutputCollection vd)
                   (SideBySide._modifiedOutputsTop vd))
  ∧ (∀ c, absentOrExact
            (SingleSide._outputCollection (SingleSide.perform c vs))
            (SingleSide._outputsTop (SingleSide.perform c vs)))
  ∧ (∀ c, absentOrExact
            (SideBySide._originalOutputCollection (SideBySide.perform c vd))
            (SideBySide._originalOutputsTop (SideBySide.perform c vd))
          ∧ absentOrExact
              (SideBySide._modifiedOutputCollection (SideBySide.perform c vd))
              (SideBySide._modifiedOutputsTop (SideBySide.perform c vd)))
  ∧ (∀ doc o m ty v0, SingleSide.new doc o m ty = Normal v0 →
                      SingleSide._outputsTop v0 = None)
  ∧ (∀ doc o m ty,
       SideBySide._originalOutputsTop (SideBySide.new doc o m ty) = None
       ∧ SideBySide._modifiedOutputsTop (SideBySide.new doc o m ty) = None)
  ∧ (∃ p, SingleSide._outputsTop (after SingleSide.ensureOutputsTop vs)
          = Some p
          ∧ PrefixSumComputer.values p
            = heights (SingleSide._outputCollection vs)
          ∧ ∀ q, SingleSide._outputsTop vs = Some q → p = q)
  ∧ (∃ p, SideBySide._originalOutputsTop
            (after SideBySide.ensureOriginalOutputsTop vd) = Some p
          ∧ PrefixSumComputer.values p
            = heights (SideBySide._originalOutputCollection vd)
          ∧ ∀ q, SideBySide._originalOutputsTop vd = Some q → p = q)
  ∧ (∃ p, SideBySide._modifiedOutputsTop
            (after SideBySide.ensureModifiedOutputsTop vd) = Some p
          ∧ PrefixSumComputer.values p
            = heights (SideBySide._modifiedOutputCollection vd)
          ∧ ∀ q, SideBySide._modifiedOutputsTop vd = Some q → p = q)
  ∧ (∀ c, SingleSide.outcome c vs ≠ Throw TypeError)
  ∧ (∀ c, SideBySide.outcome c vd ≠ Throw TypeError).
Proof.
  intros Hvs Hvd.
  pose proof (single_reachable_synced vs Hvs) as Hs.
  pose proof (side_reachable_synced true vd Hvd) as Ho.
  pose proof (side_reachable_synced false vd Hvd) as Hm.
  split; [|split; [|split; [|split; [|split; [|split;
    [|split; [|split; [|split]]]]]]]].
  - repeat split; by apply synced_absentOrExact.
  - intros c. apply synced_absentOrExact, single_reachable_synced.
    by apply single_reachable_perform.
  - intros c. pose proof (side_reachable_perform c vd Hvd) as Hr.
    split; apply synced_absentOrExact.
    + apply (side_reachable_synced true _ Hr).
    + apply (side_reachable_synced false _ Hr).
  - unfold SingleSide.new. intros doc o m ty v0 Hn.
    repeat case_match; by simplify_eq/=.
  - intros doc o m ty. unfold SideBySide.new.
    split; repeat case_match; done.
  - exists (ensuredTop (SingleSide._outputCollection vs)
                       (SingleSide._outputsTop vs)).
    split; [|split].
    + by destruct vs as [b d o m ty cl [p|]].
    + by apply ensuredTop_synced.
    + intros q Hq. by rewrite Hq.
  - exists (ensuredTop (SideBySide._originalOutputCollection vd)
                       (SideBySide._originalOutputsTop vd)).
    split; [|split].
    + by destruct vd as [b d o m ty co [p|] cm tm].
    + by apply (ensuredTop_synced _ _ Ho).
    + intros q Hq. by rewrite Hq.
  - exists (ensuredTop (SideBySide._modifiedOutputCollection vd)
                       (SideBySide._modifiedOutputsTop vd)).
    split; [|split].
    + by destruct vd as [b d o m ty co to cm [p|]].
    + by apply (ensuredTop_synced _ _ Hm).
    + intros q Hq. by rewrite Hq.
  - intros c Hc. by apply single_outcome_error in Hc.
  - intros c Hc. by apply side_outcome_error in Hc.
Qed.

(** C8, at concrete view models: a single-side one after an update and a
    side-by-side one after an update of its original side only. *)
Lemma trackers_absent_or_exact_witness :
  let doc := mkNotebook (mkTransientOptions false []) in
  let vs := SingleSide.performAll [SingleSide.UpdateOutputHeight 1 4]
              (SingleSide.mk newBase doc None
                 (Some (mkCell [JNull; JNull] None "python")) Insert
                 [None; None] None) in
  let vd := SideBySide.performAll [SideBySide.UpdateOutputHeight true 1 6]
              (SideBySide.new (H := exampleHost) doc
                 (mkCell [JNull; JNull] None "python")
                 (mkCell [JNull] None "python") Modified) in
  absentOrExact (SingleSide._outputCollection vs) (SingleSide._outputsTop vs)
  ∧ absentOrExact (SideBySide._originalOutputCollection vd)
                  (SideBySide._originalOutputsTop vd)
  ∧ absentOrExact (SideBySide._modifiedOutputCollection vd)
                  (SideBySide._modifiedOutputsTop vd).
Proof.
  intros doc vs vd.
  apply (trackers_absent_or_exact (H := exampleHost) vs vd).
  - eexists doc, None, (Some (mkCell [JNull; JNull] None "python")), Insert,
      _, [SingleSide.UpdateOutputHeight 1 4].
    split; reflexivity.
  - eexists doc, (mkCell [JNull; JNull] None "python"),
      (mkCell [JNull] None "python"), Modified,
      [SideBySide.UpdateOutputHeight true 1 6].
    reflexivity.
Defined.

(** ** Total heights *)

Lemma single_total_reachable (v : SingleSide.t) :
  SingleSide.reachable v →
  result SingleSide.getOutputTotalHeight v
  = Normal (sumN (heights (SingleSide._outputCollection v))).
Proof.
  intros Hv. rewrite single_total. unfold PrefixSumComputer.getTotalValue.
  by rewrite (ensuredTop_synced _ _ (single_reachable_synced v Hv)).
Qed.

Lemma side_total_reachable `{Host} (v : SideBySide.t) :
  SideBySide.reachable v →
  result SideBySide.getOutputTotalHeight v
  = Normal (N.max (sumN (heights (SideBySide._originalOutputCollection v)))
                  (sumN (heights (SideBySide._modifiedOutputCollection v)))).
Proof.
  intros Hv. rewrite side_total. unfold PrefixSumComputer.getTotalValue.
  rewrite (ensuredTop_synced _ _ (side_reachable_synced true v Hv)).
  by rewrite (ensuredTop_synced _ _ (side_reachable_synced false v Hv)).
Qed.

(** C3: on a side-by-side view model, after an [updateOutputHeight] on
    either side, [getOutputTotalHeight()] returns the larger of the sum of
    the heights of the original side and the sum of the heights of the
    modified side; and when the update changed a height, the output height
    of the layout record is that maximum while the outputs are expanded
    (and 0 while they are collapsed). *)
Theorem side_total_is_max_after_update `{Host}
    (v : SideBySide.t) (side : bool) (i : nat) (h : N) :
  SideBySide.reachable v →
  let v' := after (SideBySide.updateOutputHeight side i h) v in
  let largest :=
    N.max (sumN (heights (SideBySide._originalOutputCollection v')))
          (sumN (heights (SideBySide._modifiedOutputCollection v'))) in
  result SideBySide.getOutputTotalHeight v' = Normal largest
  ∧ ((i < length (SideBySide.collectionOf side v))%nat →
     heightOf (SideBySide.collectionOf side v !!! i) ≠ h →
     get_outputHeight (SideBySide.base v')
     = match outputFoldingState (SideBySide.base v) with
       | Expanded => largest
       | Collapsed => 0
       end).
Proof.
  intros Hv v' largest.
  pose proof (side_reachable_perform
                (SideBySide.UpdateOutputHeight side i h) v Hv) as Hv'.
  change (SideBySide.perform (SideBySide.UpdateOutputHeight side i h) v)
    with v' in Hv'.
  split; [by apply side_total_reachable|].
  intros Hi Hne.
  pose proof (side_reachable_synced side v Hv) as Hs.
  pose proof (ensuredTop_synced _ _ Hs) as He.
  assert (Hflag : (PrefixSumComputer.changeValue
                     (ensuredTop (SideBySide.collectionOf side v)
                                 (SideBySide.topOf side v)) i h).1 = true).
  { rewrite (changeValue_flag _ i h
               (heightOf (SideBySide.collectionOf side v !!! i))).
    - apply negb_true_iff, N.eqb_neq. congruence.
    - rewrite He. by apply heights_lookup. }
  assert (Hrun : v' = after SideBySide.layoutChange
                        (SideBySide.stored side i h v)).
  { unfold v', after. rewrite side_update_in_range by done.
    by rewrite Hflag. }
  destruct (side_layoutChange (SideBySide.stored side i h v))
    as (_ & _ & Hout).
  rewrite <- Hrun in Hout. rewrite Hout.
  assert (Hfold : outputFoldingState
                    (SideBySide.base (SideBySide.stored side i h v))
                  = outputFoldingState (SideBySide.base v))
    by (by destruct side).
  rewrite Hfold. destruct (outputFoldingState (SideBySide.base v)); [|done].
  pose proof (side_total_reachable v' Hv') as Ht.
  rewrite Hrun in Ht at 1.
  assert (Hsame : result SideBySide.getOutputTotalHeight
                    (after SideBySide.layoutChange
                       (SideBySide.stored side i h v))
                  = result SideBySide.getOutputTotalHeight
                      (SideBySide.stored side i h v)).
  { destruct v as [[mf [] em l] d o m ty co [p|] cm [q|]], side;
      reflexivity. }
  rewrite Hsame, side_total in Ht. by simplify_eq.
Qed.

(** C3, at a concrete view model with expanded outputs: heights 5 and 3 on
    the original side, then 20 on the modified side. *)
Lemma side_total_is_max_after_update_witness :
  let doc := mkNotebook (mkTransientOptions false []) in
  let v := SideBySide.performAll
             [SideBySide.Inherited (SetOutputFoldingState Expanded);
              SideBySide.UpdateOutputHeight true 0 5;
              SideBySide.UpdateOutputHeight true 1 3]
             (SideBySide.new (H := exampleHost) doc
                (mkCell [JNull; JNull] None "python")
                (mkCell [JNull] None "python") Modified) in
  let v' := after (SideBySide.updateOutputHeight false 0 20) v in
  result SideBySide.getOutputTotalHeight v' = Normal 20
  ∧ get_outputHeight (SideBySide.base v') = 20.
Proof.
  intros doc v v'.
  destruct (side_total_is_max_after_update (H := exampleHost) v false 0 20)
    as (Ht & Hl).
  - eexists doc, (mkCell [JNull; JNull] None "python"),
      (mkCell [JNull] None "python"), Modified, _. reflexivity.
  - split; [exact Ht|]. apply Hl.
    + vm_compute. lia.
    + vm_compute. discriminate.
Defined.

(** C4, as amended: on a single-side view model [getOutputTotalHeight()] is
    the sum of the heights of its output collection, entries never set as 0;
    on a side-by-side view model it is the larger of the two such sums, one
    per side's collection, not the sum of all heights. *)
Theorem total_is_sum_or_larger_sum `{Host}
    (vs : SingleSide.t) (vd : SideBySide.t) :
  SingleSide.reachable vs →
  SideBySide.reachable vd →
  result SingleSide.getOutputTotalHeight vs
  = Normal (sumN (heights (SingleSide._outputCollection vs)))
  ∧ result SideBySide.getOutputTotalHeight vd
    = Normal (N.max
                (sumN (heights (SideBySide._originalOutputCollection vd)))
                (sumN (heights (SideBySide._modifiedOutputCollection vd)))).
Proof.
  intros Hvs Hvd. split.
  - by apply single_total_reachable.
  - by apply side_total_reachable.
Qed.

(** C4 as amended, at concrete view models: heights 4 and 9 on a single-side
    view model; heights 5 and 3 on the two sides of a side-by-side one. *)
Lemma total_is_sum_or_larger_sum_witness :
  let doc := mkNotebook (mkTransientOptions false []) in
  let vs := SingleSide.performAll
              [SingleSide.UpdateOutputHeight 1 4;
               SingleSide.UpdateOutputHeight 0 9]
              (SingleSide.mk newBase doc None
                 (Some (mkCell [JNull; JNull] None "python")) Insert
                 [None; None] None) in
  let vd := SideBySide.performAll
              [SideBySide.UpdateOutputHeight true 0 5;
               SideBySide.UpdateOutputHeight false 0 3]
              (SideBySide.new (H := exampleHost) doc
                 (mkCell [JNull] None "python")
                 (mkCell [JNull] None "python") Modified) in
  result SingleSide.getOutputTotalHeight vs = Normal 13
  ∧ result SideBySide.getOutputTotalHeight vd = Normal 5.
Proof.
  intros doc vs vd.
  apply (total_is_sum_or_larger_sum (H := exampleHost) vs vd).
  - eexists doc, None, (Some (mkCell [JNull; JNull] None "python")), Insert,
      _, _. split; reflexivity.
  - eexists doc, (mkCell [JNull] None "python"),
      (mkCell [JNull] None "python"), Modified, _. reflexivity.
Defined.

(** C4, counterexample: a side-by-side view model over two cells of one
    output each, height 5 set on the original side and 3 on the modified
    side.  [getOutputTotalHeight()] returns 5; the heights of the modified
    cell's collection sum to 3 and all the heights to 8. *)
Lemma side_total_is_not_the_sum :
  let doc := mkNotebook (mkTransientOptions false []) in
  let vd := SideBySide.performAll
              [SideBySide.UpdateOutputHeight true 0 5;
               SideBySide.UpdateOutputHeight false 0 3]
              (SideBySide.new (H := exampleHost) doc
                 (mkCell [JNull] None "python")
                 (mkCell [JNull] None "python") Modified) in
  result SideBySide.getOutputTotalHeight vd = Normal 5
  ∧ sumN (heights (SideBySide._modifiedOutputCollection vd)) = 3
  ∧ sumN (heights (SideBySide._originalOutputCollection vd)
          ++ heights (SideBySide._modifiedOutputCollection vd)) = 8
  ∧ result SideBySide.getOutputTotalHeight vd
    ≠ Normal (sumN (heights (SideBySide._modifiedOutputCollection vd)))
  ∧ result SideBySide.getOutputTotalHeight vd
    ≠ Normal (sumN (heights (SideBySide._originalOutputCollection vd)
                    ++ heights (SideBySide._modifiedOutputCollection vd))).
Proof. repeat split; try reflexivity; intros Hc; by vm_compute in Hc. Qed.

(** ** Updates and notifications *)

Lemma changeValue_reports_total (p : PrefixSumComputer.t) (i : nat) (h : N) :
  (PrefixSumComputer.changeValue p i h).1 = true
  ↔ PrefixSumComputer.getTotalValue (PrefixSumComputer.changeValue p i h).2
    ≠ PrefixSumComputer.getTotalValue p.
Proof.
  unfold PrefixSumComputer.changeValue. simpl.
  rewrite negb_true_iff. apply N.eqb_neq.
Qed.

Lemma single_update_behaviour (v : SingleSide.t) (i : nat) (h : N) :
  SingleSide.reachable v →
  (i < length (SingleSide._outputCollection v))%nat →
  let old := heightOf (SingleSide._outputCollection v !!! i) in
  let v' := after (SingleSide.updateOutputHeight i h) v in
  (PrefixSumComputer.changeValue
     (ensuredTop (SingleSide._outputCollection v) (SingleSide._outputsTop v))
     i h).1 = negb (h =? old)
  ∧ result (SingleSide.updateOutputHeight i h) v = Normal tt
  ∧ (h ≠ old →
     v' = after SingleSide.layoutChange (SingleSide.stored i h v)
     ∧ _layoutInfoEmitter (SingleSide.base v')
       = _layoutInfoEmitter (SingleSide.base v) ++ [LayoutChangeEvent.empty])
  ∧ (h = old →
     v' = SingleSide.stored i h v
     ∧ _layoutInfoEmitter (SingleSide.base v')
       = _layoutInfoEmitter (SingleSide.base v)
     ∧ _layoutInfo (SingleSide.base v') = _layoutInfo (SingleSide.base v)).
Proof.
  intros Hv Hi old v'.
  pose proof (ensuredTop_synced _ _ (single_reachable_synced v Hv)) as He.
  assert (Hflag : (PrefixSumComputer.changeValue
                     (ensuredTop (SingleSide._outputCollection v)
                                 (SingleSide._outputsTop v)) i h).1
                  = negb (h =? old)).
  { apply changeValue_flag. rewrite He. by apply heights_lookup. }
  pose proof (single_update_in_range v i h Hi) as Hrun.
  rewrite Hflag in Hrun.
  destruct (single_layoutChange (SingleSide.stored i h v)) as (Hr & Hem & _).
  split; [done|]. unfold v', result, after. rewrite Hrun.
  destruct (N.eqb_spec h old) as [Heq|Hne]; simpl.
  - repeat split; done.
  - repeat split; done.
Qed.

Lemma side_update_behaviour `{Host} (v : SideBySide.t) (side : bool)
    (i : nat) (h : N) :
  SideBySide.reachable v →
  (i < length (SideBySide.collectionOf side v))%nat →
  let old := heightOf (SideBySide.collectionOf side v !!! i) in
  let v' := after (SideBySide.updateOutputHeight side i h) v in
  (PrefixSumComputer.changeValue
     (ensuredTop (SideBySide.collectionOf side v) (SideBySide.topOf side v))
     i h).1 = negb (h =? old)
  ∧ result (SideBySide.updateOutputHeight side i h) v = Normal tt
  ∧ (h ≠ old →
     v' = after SideBySide.layoutChange (SideBySide.stored side i h v)
     ∧ _layoutInfoEmitter (SideBySide.base v')
       = _layoutInfoEmitter (SideBySide.base v) ++ [LayoutChangeEvent.empty])
  ∧ (h = old →
     v' = SideBySide.stored side i h v
     ∧ _layoutInfoEmitter (SideBySide.base v')
       = _layoutInfoEmitter (SideBySide.base v)
     ∧ _layoutInfo (SideBySide.base v') = _layoutInfo (SideBySide.base v)).
Proof.
  intros Hv Hi old v'.
  pose proof (ensuredTop_synced _ _ (side_reachable_synced side v Hv)) as He.
  assert (Hflag : (PrefixSumComputer.changeValue
                     (ensuredTop (SideBySide.collectionOf side v)
                                 (SideBySide.topOf side v)) i h).1
                  = negb (h =? old)).
  { apply changeValue_flag. rewrite He. by apply heights_lookup. }
  pose proof (side_update_in_range v side i h Hi) as Hrun.
  rewrite Hflag in Hrun.
  destruct (side_layoutChange (SideBySide.stored side i h v))
    as (Hr & Hem & _).
  assert (Hbase : SideBySide.base (SideBySide.stored side i h v)
                  = SideBySide.base v) by (by destruct side).
  rewrite Hbase in Hem.
  split; [done|]. unfold v', result, after. rewrite Hrun.
  destruct (N.eqb_spec h old) as [Heq|Hne]; simpl.
  - repeat split; try done; by rewrite Hbase.
  - repeat split; done.
Qed.

(** C6: [updateOutputHeight] with a valid index, on either view model,
    changes the size in the ensured tracker, whose report is true exactly
    when its total changed, which is exactly when the new height differs
    from the height held at that index (an entry never set counting as 0).
    When it differs, the call runs [layoutChange] on the view model with the
    height stored, and exactly one event, with the empty descriptor, is
    fired; when it does not differ, [layoutChange] is not run: no event is
    fired and the layout record stays as it was. *)
Theorem update_relayouts_iff_height_differs `{Host}
    (vs : SingleSide.t) (vd : SideBySide.t) (side : bool) (i j : nat)
    (h : N) :
  SingleSide.reachable vs →
  SideBySide.reachable vd →
  (i < length (SingleSide._outputCollection vs))%nat →
  (j < length (SideBySide.collectionOf side vd))%nat →
  let olds := heightOf (SingleSide._outputCollection vs !!! i) in
  let oldd := heightOf (SideBySide.collectionOf side vd !!! j) in
  let ps := ensuredTop (SingleSide._outputCollection vs)
                       (SingleSide._outputsTop vs) in
  let pd := ensuredTop (SideBySide.collectionOf side vd)
                       (SideBySide.topOf side vd) in
  let vs' := after (SingleSide.updateOutputHeight i h) vs in
  let vd' := after (SideBySide.updateOutputHeight side j h) vd in
  (((PrefixSumComputer.changeValue ps i h).1 = true
    ↔ PrefixSumComputer.getTotalValue (PrefixSumComputer.changeValue ps i h).2
      ≠ PrefixSumComputer.getTotalValue ps)
   ∧ ((PrefixSumComputer.changeValue ps i h).1 = true ↔ h ≠ olds)
   ∧ SingleSide._outputsTop vs' = Some (PrefixSumComputer.changeValue ps i h).2
   ∧ result (SingleSide.updateOutputHeight i h) vs = Normal tt
   ∧ (h ≠ olds →
      vs' = after SingleSide.layoutChange (SingleSide.stored i h vs)
      ∧ _layoutInfoEmitter (SingleSide.base vs')
        = _layoutInfoEmitter (SingleSide.base vs) ++ [LayoutChangeEvent.empty])
   ∧ (h = olds →
      vs' = SingleSide.stored i h vs
      ∧ _layoutInfoEmitter (SingleSide.base vs')
        = _layoutInfoEmitter (SingleSide.base vs)
      ∧ _layoutInfo (SingleSide.base vs') = _layoutInfo (SingleSide.base vs)))
  ∧ (((PrefixSumComputer.changeValue pd j h).1 = true
      ↔ PrefixSumComputer.getTotalValue
          (PrefixSumComputer.changeValue pd j h).2
        ≠ PrefixSumComputer.getTotalValue pd)
     ∧ ((PrefixSumComputer.changeValue pd j h).1 = true ↔ h ≠ oldd)
     ∧ SideBySide.topOf side vd'
       = Some (PrefixSumComputer.changeValue pd j h).2
     ∧ result (SideBySide.updateOutputHeight side j h) vd = Normal tt
     ∧ (h ≠ oldd →
        vd' = after SideBySide.layoutChange (SideBySide.stored side j h vd)
        ∧ _layoutInfoEmitter (SideBySide.base vd')
          = _layoutInfoEmitter (SideBySide.base vd)
            ++ [LayoutChangeEvent.empty])
     ∧ (h = oldd →
        vd' = SideBySide.stored side j h vd
        ∧ _layoutInfoEmitter (SideBySide.base vd')
          = _layoutInfoEmitter (SideBySide.base vd)
        ∧ _layoutInfo (SideBySide.base vd')
          = _layoutInfo (SideBySide.base vd))).
Proof.
  intros Hvs Hvd Hi Hj olds oldd ps pd vs' vd'.
  destruct (single_update_behaviour vs i h Hvs Hi) as (Hfs & Hrs & Hds & Hss).
  destruct (side_update_behaviour vd side j h Hvd Hj)
    as (Hfd & Hrd & Hdd & Hsd).
  split.
  - split; [apply changeValue_reports_total|].
    split.
    { fold ps olds in Hfs. rewrite Hfs, negb_true_iff. apply N.eqb_neq. }
    split.
    { pose proof (single_perform_top (SingleSide.UpdateOutputHeight i h) vs)
        as Ht. simpl in Ht.
      apply Nat.leb_gt in Hi. rewrite Hi in Ht. exact Ht. }
    done.
  - split; [apply changeValue_reports_total|].
    split.
    { fold pd oldd in Hfd. rewrite Hfd, negb_true_iff. apply N.eqb_neq. }
    split.
    { pose proof (side_perform_top side
                    (SideBySide.UpdateOutputHeight side j h) vd) as Ht.
      simpl in Ht. apply Nat.leb_gt in Hj. rewrite Hj in Ht.
      rewrite bool_decide_eq_true_2 in Ht by done. exact Ht. }
    done.
Qed.

(** C6, at concrete view models: height 7 set where 7 is held on a
    single-side view model fires nothing; height 7 set where 6 is held on
    the original side of a side-by-side one fires one event. *)
Lemma update_relayouts_iff_height_differs_witness :
  let doc := mkNotebook (mkTransientOptions false []) in
  let vs := SingleSide.performAll [SingleSide.UpdateOutputHeight 1 7]
              (SingleSide.mk newBase doc None
                 (Some (mkCell [JNull; JNull] None "python")) Insert
                 [None; None] None) in
  let vd := SideBySide.performAll [SideBySide.UpdateOutputHeight true 1 6]
              (SideBySide.new (H := exampleHost) doc
                 (mkCell [JNull; JNull] None "python")
                 (mkCell [JNull] None "python") Modified) in
  _layoutInfoEmitter
    (SingleSide.base (after (SingleSide.updateOutputHeight 1 7) vs))
  = _layoutInfoEmitter (SingleSide.base vs)
  ∧ _layoutInfoEmitter
      (SideBySide.base (after (SideBySide.updateOutputHeight true 1 7) vd))
    = _layoutInfoEmitter (SideBySide.base vd) ++ [LayoutChangeEvent.empty].
Proof.
  intros doc vs vd.
  destruct (update_relayouts_iff_height_differs (H := exampleHost)
              vs vd true 1 1 7)
    as ((_ & _ & _ & _ & _ & Hsame) & (_ & _ & _ & _ & Hdiff & _)).
  - eexists doc, None, (Some (mkCell [JNull; JNull] None "python")), Insert,
      _, _. split; reflexivity.
  - eexists doc, (mkCell [JNull; JNull] None "python"),
      (mkCell [JNull] None "python"), Modified, _. reflexivity.
  - vm_compute. lia.
  - vm_compute. lia.
  - split.
    + by apply Hsame.
    + apply Hdiff. vm_compute. discriminate.
Defined.

(** ** The metadata snapshot *)

Lemma side_new_readonly `{Host} doc o m ty :
  SideBySide.documentTextModel (SideBySide.new doc o m ty) = doc
  ∧ SideBySide.original (SideBySide.new doc o m ty) = o
  ∧ SideBySide.modified (SideBySide.new doc o m ty) = m
  ∧ SideBySide.type (SideBySide.new doc o m ty) = ty.
Proof. unfold SideBySide.new. repeat split; repeat case_match; done. Qed.

(** C9: [getFormatedMetadataJSON] at two inputs where the snapshot lacks
    what it is specified to include, the language tag or a field not marked
    transient, under a policy that marks nothing transient and whatever the
    host's serializer, formatter and hash.  A cell whose
    metadata has a field [language] with the value x, and the language tag
    python: the object serialized holds x under [language] and the tag
    nowhere, so the snapshot is the one made with the tag julia, and
    [checkMetadataIfModified] answers false for two such cells, one in
    python and one in julia.  A cell whose metadata has the fields
    [constructor] and [editable]: the lookup of [constructor] in the policy
    finds the member of [Object.prototype], which reads as true, the field
    is left out, and the snapshot is the one of a cell that has the field
    [editable] only. *)
Theorem metadata_snapshot_at_failing_inputs :
  let doc := mkNotebook (mkTransientOptions false []) in
  let named := [("language"%string, JString "x")] in
  let inherited := [("constructor"%string, JNumber 1);
                    ("editable"%string, JBool true)] in
  (snapshotObject (Some "python"%string) (filterMetadata [] named)
   = [("language"%string, JString "x")]
   ∧ (∀ H : Host,
        getFormatedMetadataJSON (Some doc) named (Some "python"%string)
        = getFormatedMetadataJSON (Some doc) named (Some "julia"%string))
   ∧ (∀ H : Host,
        SideBySide.checkMetadataIfModified
          (SideBySide.new doc (mkCell [] (Some named) "python")
             (mkCell [] (Some named) "julia") Modified) = false))
  ∧ (isTransient [] "constructor" = true
     ∧ filterMetadata [] inherited = [("editable"%string, JBool true)]
     ∧ snapshotObject (Some "python"%string) (filterMetadata [] inherited)
       = [("language"%string, JString "python");
          ("editable"%string, JBool true)]
     ∧ (∀ H : Host,
          getFormatedMetadataJSON (Some doc) inherited (Some "python"%string)
          = getFormatedMetadataJSON (Some doc)
              [("editable"%string, JBool true)] (Some "python"%string))).
Proof.
  intros doc named inherited. split; [|repeat split; reflexivity].
  split; [reflexivity|]. split; [reflexivity|]. intros H.
  unfold SideBySide.checkMetadataIfModified.
  destruct (side_new_readonly doc (mkCell [] (Some named) "python")
              (mkCell [] (Some named) "julia") Modified)
    as (-> & -> & -> & _).
  apply negb_false_iff, Z.eqb_eq. reflexivity.
Qed.

(** * Further properties *)

(** ** Layout setters and the total height *)

(** X1: a layout setter replaces its own field of the layout record and no
    other (the fields in the order width, editorHeight, editorMargin,
    metadataStatusHeight, metadataHeight, outputStatusHeight, outputHeight,
    bodyMargin), leaves both folding states as they are, and so moves
    [totalHeight] by exactly the change of that field. *)
Theorem setter_replaces_one_field (b : CellDiffViewModelBase) (h : N) :
  (fieldsOf (_layoutInfo (after (set_outputHeight h) b))
   = <[6%nat := h]> (fieldsOf (_layoutInfo b))
   ∧ totalHeight (after (set_outputHeight h) b) + get_outputHeight b
     = totalHeight b + h)
  ∧ (fieldsOf (_layoutInfo (after (set_outputStatusHeight h) b))
     = <[5%nat := h]> (fieldsOf (_layoutInfo b))
     ∧ totalHeight (after (set_outputStatusHeight h) b)
       + get_outputStatusHeight b
       = totalHeight b + h)
  ∧ (fieldsOf (_layoutInfo (after (set_editorHeight h) b))
     = <[1%nat := h]> (fieldsOf (_layoutInfo b))
     ∧ totalHeight (after (set_editorHeight h) b) + get_editorHeight b
       = totalHeight b + h)
  ∧ (fieldsOf (_layoutInfo (after (set_editorMargin h) b))
     = <[2%nat := h]> (fieldsOf (_layoutInfo b))
     ∧ totalHeight (after (set_editorMargin h) b) + get_editorMargin b
       = totalHeight b + h)
  ∧ (fieldsOf (_layoutInfo (after (set_metadataHeight h) b))
     = <[4%nat := h]> (fieldsOf (_layoutInfo b))
     ∧ totalHeight (after (set_metadataHeight h) b) + get_metadataHeight b
       = totalHeight b + h)
  ∧ (∀ c, metadataFoldingState (after (baseCall c) b)
          = match c with
            | SetMetadataFoldingState f => f
            | _ => metadataFoldingState b
            end
          ∧ outputFoldingState (after (baseCall c) b)
            = match c with
              | SetOutputFoldingState f => f
              | _ => outputFoldingState b
              end).
Proof.
  destruct b as [mf fo em [w eh emg msh mh osh oh bm]].
  unfold totalHeight, get_outputHeight, get_outputStatusHeight,
    get_editorHeight, get_editorMargin, get_metadataHeight.
  repeat split; simpl; try lia; by destruct c.
Qed.

(** ** What no call changes *)

Lemma baseCall_fixedFields (c : BaseCall) (b : CellDiffViewModelBase) :
  fixedFields (after (baseCall c) b) = fixedFields b.
Proof. by destruct c. Qed.

Lemma single_perform_fixedFields (c : SingleSide.call) (v : SingleSide.t) :
  fixedFields (SingleSide.base (SingleSide.perform c v))
  = fixedFields (SingleSide.base v).
Proof.
  destruct v as [b d o m ty cl top]. destruct c as [c| | | | |].
  - unfold SingleSide.perform, SingleSide.liftBase, after. simpl.
    pose proof (baseCall_fixedFields c b) as Hb. unfold after in Hb.
    by destruct (baseCall c b).
  - step_single.
  - step_single.
  - step_single.
  - step_single.
  - step_single.
Qed.

Lemma side_perform_fixedFields (c : SideBySide.call) (v : SideBySide.t) :
  fixedFields (SideBySide.base (SideBySide.perform c v))
  = fixedFields (SideBySide.base v).
Proof.
  destruct v as [b d o m ty co to cm tm].
  destruct c as [c | [] | [] | | | | |];
    [ unfold SideBySide.perform, SideBySide.liftBase, after; simpl;
      pose proof (baseCall_fixedFields c b) as Hb; unfold after in Hb;
      by destruct (baseCall c b)
    | step_side .. ].
Qed.

Lemma single_new_base doc o m ty (v0 : SingleSide.t) :
  SingleSide.new doc o m ty = Normal v0 → SingleSide.base v0 = newBase.
Proof.
  unfold SingleSide.new. intros Hn. repeat case_match; by simplify_eq/=.
Qed.

Lemma side_new_layout `{Host} doc o m ty :
  _layoutInfo (SideBySide.base (SideBySide.new doc o m ty))
  = initialLayoutInfo
  ∧ _layoutInfoEmitter (SideBySide.base (SideBySide.new doc o m ty)) = [].
Proof. unfold SideBySide.new. split; repeat case_match; done. Qed.

(** X2: in every state a client can bring a view model to, the layout
    record has width 0, metadataStatusHeight 25 and bodyMargin 32, the values
    the constructor gave them; there [totalHeight] is the sum of all eight
    fields of the record. *)
Theorem fixed_fields_keep_their_initial_values `{Host}
    (vs : SingleSide.t) (vd : SideBySide.t) :
  SingleSide.reachable vs →
  SideBySide.reachable vd →
  (fixedFields (SingleSide.base vs) = (0, 25, 32)
   ∧ totalHeight (SingleSide.base vs)
     = sumOfAllFields (_layoutInfo (SingleSide.base vs)))
  ∧ (fixedFields (SideBySide.base vd) = (0, 25, 32)
     ∧ totalHeight (SideBySide.base vd)
       = sumOfAllFields (_layoutInfo (SideBySide.base vd))).
Proof.
  intros (doc & o & m & ty & v0 & cs & Hn & ->)
         (doc' & o' & m' & ty' & cs' & ->).
  assert (Hs : fixedFields (SingleSide.base (SingleSide.performAll cs v0))
               = (0, 25, 32)).
  { apply single_new_base in Hn.
    assert (H0 : fixedFields (SingleSide.base v0) = (0, 25, 32))
      by (by rewrite Hn).
    clear Hn. revert v0 H0. induction cs as [|c cs IH]; intros v0 H0; [done|].
    simpl. apply IH. by rewrite single_perform_fixedFields. }
  assert (Hd : fixedFields
                 (SideBySide.base
                    (SideBySide.performAll cs' (SideBySide.new doc' o' m' ty')))
               = (0, 25, 32)).
  { assert (H0 : fixedFields (SideBySide.base (SideBySide.new doc' o' m' ty'))
                 = (0, 25, 32)).
    { unfold fixedFields. by rewrite (proj1 (side_new_layout _ _ _ _)). }
    revert H0. generalize (SideBySide.new doc' o' m' ty').
    induction cs' as [|c cs' IH]; intros w0 H0; [done|].
    simpl. apply IH. by rewrite side_perform_fixedFields. }
  split; (split; [done|]).
  - unfold fixedFields in Hs. unfold totalHeight, sumOfAllFields.
    simplify_eq. lia.
  - unfold fixedFields in Hd. unfold totalHeight, sumOfAllFields.
    simplify_eq. lia.
Qed.

(** X2, at concrete view models whose heights have been set. *)
Lemma fixed_fields_keep_their_initial_values_witness :
  let doc := mkNotebook (mkTransientOptions false []) in
  let vs := SingleSide.performAll
              [SingleSide.Inherited (SetEditorHeight 40);
               SingleSide.UpdateOutputHeight 1 4]
              (SingleSide.mk newBase doc None
                 (Some (mkCell [JNull; JNull] None "python")) Insert
                 [None; None] None) in
  let vd := SideBySide.performAll
              [SideBySide.Inherited (SetOutputFoldingState Expanded);
               SideBySide.UpdateOutputHeight true 1 6]
              (SideBySide.new (H := exampleHost) doc
                 (mkCell [JNull; JNull] None "python")
                 (mkCell [JNull] None "python") Modified) in
  totalHeight (SingleSide.base vs)
  = sumOfAllFields (_layoutInfo (SingleSide.base vs))
  ∧ totalHeight (SideBySide.base vd)
    = sumOfAllFields (_layoutInfo (SideBySide.base vd)).
Proof.
  intros doc vs vd.
  destruct (fixed_fields_keep_their_initial_values (H := exampleHost) vs vd)
    as ((_ & Hs) & (_ & Hd)).
  - eexists doc, None, (Some (mkCell [JNull; JNull] None "python")), Insert,
      _, _. split; reflexivity.
  - eexists doc, (mkCell [JNull; JNull] None "python"),
      (mkCell [JNull] None "python"), Modified, _. reflexivity.
  - split; [exact Hs | exact Hd].
Defined.

Lemma single_reachable_ind (P : SingleSide.t → Prop) :
  (∀ doc o m ty v0, SingleSide.new doc o m ty = Normal v0 → P v0) →
  (∀ c v, P v → P (SingleSide.perform c v)) →
  ∀ v, SingleSide.reachable v → P v.
Proof.
  intros Hnew Hstep v (doc & o & m & ty & v0 & cs & Hn & ->).
  specialize (Hnew _ _ _ _ _ Hn). clear Hn. revert v0 Hnew.
  induction cs as [|c cs IH]; intros v0 H0; [done|].
  simpl. by apply IH, Hstep.
Qed.

Lemma side_reachable_ind `{Host} (P : SideBySide.t → Prop) :
  (∀ doc o m ty, P (SideBySide.new doc o m ty)) →
  (∀ c v, P v → P (SideBySide.perform c v)) →
  ∀ v, SideBySide.reachable v → P v.
Proof.
  intros Hnew Hstep v (doc & o & m & ty & cs & ->).
  specialize (Hnew doc o m ty). revert Hnew.
  generalize (SideBySide.new doc o m ty).
  induction cs as [|c cs IH]; intros v0 H0; [done|].
  simpl. by apply IH, Hstep.
Qed.

Lemma single_reachable_fixedFields (v : SingleSide.t) :
  SingleSide.reachable v → fixedFields (SingleSide.base v) = (0, 25, 32).
Proof.
  revert v. apply single_reachable_ind.
  - intros doc o m ty v0 Hn. by rewrite (single_new_base _ _ _ _ _ Hn).
  - intros c v IH. by rewrite single_perform_fixedFields.
Qed.

Lemma side_reachable_fixedFields `{Host} (v : SideBySide.t) :
  SideBySide.reachable v → fixedFields (SideBySide.base v) = (0, 25, 32).
Proof.
  revert v. apply side_reachable_ind.
  - intros doc o m ty. unfold fixedFields.
    by rewrite (proj1 (side_new_layout _ _ _ _)).
  - intros c v IH. by rewrite side_perform_fixedFields.
Qed.

(** C5: in every state a client can bring a view model to, single-side or
    side-by-side, the [totalHeight] getter returns the sum of all the fields
    of the layout record.  (The getter adds seven of the eight fields; the
    eighth, width, is 0 in all these states.) *)
Theorem totalHeight_is_sum_of_all_fields `{Host}
    (vs : SingleSide.t) (vd : SideBySide.t) :
  SingleSide.reachable vs →
  SideBySide.reachable vd →
  totalHeight (SingleSide.base vs)
  = sumOfAllFields (_layoutInfo (SingleSide.base vs))
  ∧ totalHeight (SideBySide.base vd)
    = sumOfAllFields (_layoutInfo (SideBySide.base vd)).
Proof.
  intros Hvs Hvd.
  pose proof (single_reachable_fixedFields vs Hvs) as Hs.
  pose proof (side_reachable_fixedFields vd Hvd) as Hd.
  unfold fixedFields in Hs, Hd. unfold totalHeight, sumOfAllFields.
  simplify_eq. split; lia.
Qed.

(** C5, at concrete view models after setters, updates of heights and a
    recomputation of the layout. *)
Lemma totalHeight_is_sum_of_all_fields_witness :
  let doc := mkNotebook (mkTransientOptions false []) in
  let vs := SingleSide.performAll
              [SingleSide.Inherited (SetEditorHeight 40);
               SingleSide.Inherited (SetMetadataHeight 12);
               SingleSide.Inherited (SetOutputFoldingState Expanded);
               SingleSide.UpdateOutputHeight 1 4]
              (SingleSide.mk newBase doc None
                 (Some (mkCell [JNull; JNull] None "python")) Insert
                 [None; None] None) in
  let vd := SideBySide.performAll
              [SideBySide.Inherited (SetOutputFoldingState Expanded);
               SideBySide.UpdateOutputHeight true 1 6;
               SideBySide.Inherited (SetEditorMargin 8);
               SideBySide.LayoutChange]
              (SideBySide.new (H := exampleHost) doc
                 (mkCell [JNull; JNull] None "python")
                 (mkCell [JNull] None "python") Modified) in
  totalHeight (SingleSide.base vs)
  = sumOfAllFields (_layoutInfo (SingleSide.base vs))
  ∧ totalHeight (SideBySide.base vd)
    = sumOfAllFields (_layoutInfo (SideBySide.base vd)).
Proof.
  intros doc vs vd.
  apply (totalHeight_is_sum_of_all_fields (H := exampleHost) vs vd).
  - eexists doc, None, (Some (mkCell [JNull; JNull] None "python")), Insert,
      _, _. split; reflexivity.
  - eexists doc, (mkCell [JNull; JNull] None "python"),
      (mkCell [JNull] None "python"), Modified, _. reflexivity.
Defined.

Lemma single_perform_readonly (c : SingleSide.call) (v : SingleSide.t) :
  SingleSide.documentTextModel (SingleSide.perform c v)
  = SingleSide.documentTextModel v
  ∧ SingleSide.original (SingleSide.perform c v) = SingleSide.original v
  ∧ SingleSide.modified (SingleSide.perform c v) = SingleSide.modified v
  ∧ SingleSide.type (SingleSide.perform c v) = SingleSide.type v
  ∧ length (SingleSide._outputCollection (SingleSide.perform c v))
    = length (SingleSide._outputCollection v).
Proof.
  split; [|split; [|split; [|split]]].
  - destruct v as [b d o m ty cl top]. destruct c; step_single.
  - destruct v as [b d o m ty cl top]. destruct c; step_single.
  - destruct v as [b d o m ty cl top]. destruct c; step_single.
  - destruct v as [b d o m ty cl top]. destruct c; step_single.
  - rewrite single_perform_collection. destruct c; try done.
    case_match; [done|]. by rewrite length_insert.
Qed.

Lemma side_perform_readonly (c : SideBySide.call) (v : SideBySide.t) :
  SideBySide.documentTextModel (SideBySide.perform c v)
  = SideBySide.documentTextModel v
  ∧ SideBySide.original (SideBySide.perform c v) = SideBySide.original v
  ∧ SideBySide.modified (SideBySide.perform c v) = SideBySide.modified v
  ∧ SideBySide.type (SideBySide.perform c v) = SideBySide.type v
  ∧ ∀ side, length (SideBySide.collectionOf side (SideBySide.perform c v))
            = length (SideBySide.collectionOf side v).
Proof.
  split; [|split; [|split; [|split]]].
  - destruct v as [b d o m ty co to cm tm].
    destruct c as [| [] | [] | | | | |]; step_side.
  - destruct v as [b d o m ty co to cm tm].
    destruct c as [| [] | [] | | | | |]; step_side.
  - destruct v as [b d o m ty co to cm tm].
    destruct c as [| [] | [] | | | | |]; step_side.
  - destruct v as [b d o m ty co to cm tm].
    destruct c as [| [] | [] | | | | |]; step_side.
  - intros side. rewrite side_perform_collection. destruct c; try done.
    repeat case_match; try done. by rewrite length_insert.
Qed.

(** X3: the output collections are never resized.  In every state a client
    can bring a view model to, the collection of a single-side view model
    has one entry per output of its original cell, or of its modified cell
    when there is no original one, and the two collections of a side-by-side
    view model have one entry per output of the original and of the modified
    cell. *)
Theorem collections_have_one_entry_per_output `{Host}
    (vs : SingleSide.t) (vd : SideBySide.t) :
  SingleSide.reachable vs →
  SideBySide.reachable vd →
  length (SingleSide._outputCollection vs)
  = match SingleSide.original vs, SingleSide.modified vs with
    | Some o, _ => length (outputs o)
    | None, Some m => length (outputs m)
    | None, None => 0%nat
    end
  ∧ is_Some (match SingleSide.original vs with
             | Some o => Some o
             | None => SingleSide.modified vs
             end)
  ∧ length (SideBySide._originalOutputCollection vd)
    = length (outputs (SideBySide.original vd))
  ∧ length (SideBySide._modifiedOutputCollection vd)
    = length (outputs (SideBySide.modified vd)).
Proof.
  intros Hvs Hvd.
  assert (Hs : length (SingleSide._outputCollection vs)
               = match SingleSide.original vs, SingleSide.modified vs with
                 | Some o, _ => length (outputs o)
                 | None, Some m => length (outputs m)
                 | None, None => 0%nat
                 end
               ∧ is_Some (match SingleSide.original vs with
                          | Some o => Some o
                          | None => SingleSide.modified vs
                          end)).
  { revert vs Hvs. apply single_reachable_ind.
    - unfold SingleSide.new. intros doc o m ty v0 Hn.
      repeat case_match; simplify_eq/=; by rewrite length_replicate.
    - intros c v IH.
      destruct (single_perform_readonly c v) as (_ & -> & -> & _ & ->).
      exact IH. }
  assert (Hd : length (SideBySide._originalOutputCollection vd)
               = length (outputs (SideBySide.original vd))
               ∧ length (SideBySide._modifiedOutputCollection vd)
                 = length (outputs (SideBySide.modified vd))).
  { revert vd Hvd. apply side_reachable_ind.
    - intros doc o m ty. unfold SideBySide.new.
      split; repeat case_match; simpl; by rewrite length_replicate.
    - intros c v IH.
      destruct (side_perform_readonly c v) as (_ & Ho & Hm & _ & Hl).
      pose proof (Hl true) as Ht. pose proof (Hl false) as Hf.
      unfold SideBySide.collectionOf in Ht, Hf.
      by rewrite Ho, Hm, Ht, Hf. }
  destruct Hs as [? ?], Hd as [? ?]. done.
Qed.

(** X3, at concrete view models after an update. *)
Lemma collections_have_one_entry_per_output_witness :
  let doc := mkNotebook (mkTransientOptions false []) in
  let vs := SingleSide.performAll [SingleSide.UpdateOutputHeight 1 4]
              (SingleSide.mk newBase doc None
                 (Some (mkCell [JNull; JNull] None "python")) Insert
                 [None; None] None) in
  let vd := SideBySide.performAll [SideBySide.UpdateOutputHeight true 1 6]
              (SideBySide.new (H := exampleHost) doc
                 (mkCell [JNull; JNull] None "python")
                 (mkCell [JNull] None "python") Modified) in
  length (SingleSide._outputCollection vs) = 2%nat
  ∧ length (SideBySide._modifiedOutputCollection vd) = 1%nat.
Proof.
  intros doc vs vd.
  destruct (collections_have_one_entry_per_output (H := exampleHost) vs vd)
    as (Hs & _ & _ & Hm).
  - eexists doc, None, (Some (mkCell [JNull; JNull] None "python")), Insert,
      _, _. split; reflexivity.
  - eexists doc, (mkCell [JNull; JNull] None "python"),
      (mkCell [JNull] None "python"), Modified, _. reflexivity.
  - split; [exact Hs | exact Hm].
Defined.

(** X4: an output collection is written by [updateOutputHeight] alone, and
    only at the index given when that index is in range: after any call, in
    any state, every other entry of every collection is the entry of before.
    And no call removes a tracker that is present. *)
Theorem only_update_writes_the_collection
    (vs : SingleSide.t) (vd : SideBySide.t)
    (cs : SingleSide.call) (cd : SideBySide.call) (side : bool) (j : nat) :
  SingleSide._outputCollection (SingleSide.perform cs vs) !! j
  = match cs with
    | SingleSide.UpdateOutputHeight i h =>
        if decide (i = j ∧ (j < length (SingleSide._outputCollection vs))%nat)
        then Some (Some h)
        else SingleSide._outputCollection vs !! j
    | _ => SingleSide._outputCollection vs !! j
    end
  ∧ SideBySide.collectionOf side (SideBySide.perform cd vd) !! j
    = match cd with
      | SideBySide.UpdateOutputHeight o i h =>
          if decide (o = side ∧ i = j
                     ∧ (j < length (SideBySide.collectionOf side vd))%nat)
          then Some (Some h)
          else SideBySide.collectionOf side vd !! j
      | _ => SideBySide.collectionOf side vd !! j
      end
  ∧ (is_Some (SingleSide._outputsTop vs) →
     is_Some (SingleSide._outputsTop (SingleSide.perform cs vs)))
  ∧ (is_Some (SideBySide.topOf side vd) →
     is_Some (SideBySide.topOf side (SideBySide.perform cd vd))).
Proof.
  split; [|split; [|split]].
  - rewrite single_perform_collection. destruct cs as [| i h | | | |]; try done.
    destruct (Nat.leb_spec (length (SingleSide._outputCollection vs)) i)
      as [Hge|Hlt].
    + rewrite decide_False; [done|]. lia.
    + destruct (decide (i = j)) as [->|Hne].
      * rewrite decide_True by done. by apply list_lookup_insert_eq.
      * rewrite decide_False by (by intros [? _]).
        by apply list_lookup_insert_ne.
  - rewrite side_perform_collection.
    destruct cd as [| o i h | | | | | |]; try done.
    destruct (bool_decide_reflect (o = side)) as [->|Hno].
    + destruct (Nat.leb_spec (length (SideBySide.collectionOf side vd)) i)
        as [Hge|Hlt].
      * rewrite decide_False; [done|]. lia.
      * destruct (decide (i = j)) as [->|Hne].
        -- rewrite decide_True by done. by apply list_lookup_insert_eq.
        -- rewrite decide_False by (by intros (_ & ? & _)).
           by apply list_lookup_insert_ne.
    + rewrite decide_False; [done|]. by intros [? _].
  - intros [p Hp]. rewrite single_perform_top, Hp. simpl.
    destruct cs; try done. by case_match.
  - intros [p Hp]. rewrite side_perform_top, Hp. simpl.
    destruct cd; try done; try (by destruct side).
    repeat case_match; done.
Qed.

(** X4, at a concrete view model: an update at index 1 leaves entry 0. *)
Lemma only_update_writes_the_collection_witness :
  let doc := mkNotebook (mkTransientOptions false []) in
  let vs := SingleSide.performAll [SingleSide.UpdateOutputHeight 0 4]
              (SingleSide.mk newBase doc None
                 (Some (mkCell [JNull; JNull] None "python")) Insert
                 [None; None] None) in
  let vd := SideBySide.new (H := exampleHost) doc
              (mkCell [JNull; JNull] None "python")
              (mkCell [JNull] None "python") Modified in
  SingleSide._outputCollection
    (SingleSide.perform (SingleSide.UpdateOutputHeight 1 9) vs) !! 0%nat
  = Some (Some 4)
  ∧ is_Some (SingleSide._outputsTop
               (SingleSide.perform SingleSide.GetOutputTotalHeight vs)).
Proof.
  intros doc vs vd.
  destruct (only_update_writes_the_collection vs vd
              (SingleSide.UpdateOutputHeight 1 9)
              SideBySide.GetOutputTotalHeight true 0) as (Hc & _ & _ & _).
  destruct (only_update_writes_the_collection vs vd
              SingleSide.GetOutputTotalHeight
              SideBySide.GetOutputTotalHeight true 0) as (_ & _ & Ht & _).
  split.
  - exact Hc.
  - apply Ht. by eexists.
Defined.

(** ** Notifications *)

Ltac close_tail :=
  first
    [ exists []; rewrite app_nil_r; repeat split;
      solve [done | simpl; lia | by left | by right]
    | eexists [_]; repeat split;
      solve [done | simpl; lia | by left | by right] ].

Lemma single_perform_events (c : SingleSide.call) (v : SingleSide.t) :
  ∃ tail,
    _layoutInfoEmitter (SingleSide.base (SingleSide.perform c v))
    = _layoutInfoEmitter (SingleSide.base v) ++ tail
    ∧ (length tail ≤ 1)%nat
    ∧ match c with
      | SingleSide.GetOutputOffsetInContainer _
      | SingleSide.GetOutputTotalHeight
      | SingleSide.EnsureOutputsTop
      | SingleSide.Inherited (SetMetadataFoldingState _)
      | SingleSide.Inherited (SetOutputFoldingState _) => tail = []
      | SingleSide.LayoutChange => tail = [LayoutChangeEvent.empty]
      | SingleSide.UpdateOutputHeight _ _ =>
          tail = [] ∨ tail = [LayoutChangeEvent.empty]
      | SingleSide.Inherited _ => length tail = 1%nat
      end.
Proof.
  destruct v as [[mf fo em l] d o m ty cl top].
  destruct c as [[]| | | | |]; step_single; close_tail.
Qed.

Lemma side_perform_events (c : SideBySide.call) (v : SideBySide.t) :
  ∃ tail,
    _layoutInfoEmitter (SideBySide.base (SideBySide.perform c v))
    = _layoutInfoEmitter (SideBySide.base v) ++ tail
    ∧ (length tail ≤ 1)%nat
    ∧ match c with
      | SideBySide.GetOutputOffsetInContainer _ _
      | SideBySide.GetOutputTotalHeight
      | SideBySide.EnsureOutputsTop
      | SideBySide.EnsureOriginalOutputsTop
      | SideBySide.EnsureModifiedOutputsTop
      | SideBySide.Inherited (SetMetadataFoldingState _)
      | SideBySide.Inherited (SetOutputFoldingState _) => tail = []
      | SideBySide.LayoutChange => tail = [LayoutChangeEvent.empty]
      | SideBySide.UpdateOutputHeight _ _ _ =>
          tail = [] ∨ tail = [LayoutChangeEvent.empty]
      | SideBySide.Inherited _ => length tail = 1%nat
      end.
Proof.
  destruct v as [[mf fo em l] d o m ty co to cm tm].
  destruct c as [[]| [] | [] | | | | |]; step_side; close_tail.
Qed.

(** X5: the events fired are never taken back and every call fires at most
    one.  The two queries, the [ensure...OutputsTop] methods and an
    assignment of a folding state fire none; [layoutChange] fires exactly one,
    with the empty descriptor; [updateOutputHeight] fires none or that one;
    a layout setter and the dispatcher's layout change fire exactly one. *)
Theorem calls_fire_at_most_one_event
    (vs : SingleSide.t) (vd : SideBySide.t)
    (cs : SingleSide.call) (cd : SideBySide.call) :
  (∃ tail,
     _layoutInfoEmitter (SingleSide.base (SingleSide.perform cs vs))
     = _layoutInfoEmitter (SingleSide.base vs) ++ tail
     ∧ (length tail ≤ 1)%nat
     ∧ match cs with
       | SingleSide.GetOutputOffsetInContainer _
       | SingleSide.GetOutputTotalHeight
       | SingleSide.EnsureOutputsTop
       | SingleSide.Inherited (SetMetadataFoldingState _)
       | SingleSide.Inherited (SetOutputFoldingState _) => tail = []
       | SingleSide.LayoutChange => tail = [LayoutChangeEvent.empty]
       | SingleSide.UpdateOutputHeight _ _ =>
           tail = [] ∨ tail = [LayoutChangeEvent.empty]
       | SingleSide.Inherited _ => length tail = 1%nat
       end)
  ∧ (∃ tail,
       _layoutInfoEmitter (SideBySide.base (SideBySide.perform cd vd))
       = _layoutInfoEmitter (SideBySide.base vd) ++ tail
       ∧ (length tail ≤ 1)%nat
       ∧ match cd with
         | SideBySide.GetOutputOffsetInContainer _ _
         | SideBySide.GetOutputTotalHeight
         | SideBySide.EnsureOutputsTop
         | SideBySide.EnsureOriginalOutputsTop
         | SideBySide.EnsureModifiedOutputsTop
         | SideBySide.Inherited (SetMetadataFoldingState _)
         | SideBySide.Inherited (SetOutputFoldingState _) => tail = []
         | SideBySide.LayoutChange => tail = [LayoutChangeEvent.empty]
         | SideBySide.UpdateOutputHeight _ _ _ =>
             tail = [] ∨ tail = [LayoutChangeEvent.empty]
         | SideBySide.Inherited _ => length tail = 1%nat
         end).
Proof.
  split; [apply single_perform_events | apply side_perform_events].
Qed.

(** ** Queries and the construction of trackers *)

(** X6: the two queries change a view model no more than
    [ensureOutputsTop] does, also when [getOutputOffsetInContainer] throws:
    the collections, the layout record, the folding states and the events
    fired are those of before, and only absent trackers are constructed.
    Asking again gives the same answer. *)
Theorem queries_only_ensure_trackers
    (vs : SingleSide.t) (vd : SideBySide.t) (side : bool) (i : nat) :
  (after (SingleSide.getOutputOffsetInContainer i) vs
   = after SingleSide.ensureOutputsTop vs
   ∧ after SingleSide.getOutputTotalHeight vs
     = after SingleSide.ensureOutputsTop vs
   ∧ SingleSide.base (after SingleSide.ensureOutputsTop vs)
     = SingleSide.base vs
   ∧ SingleSide._outputCollection (after SingleSide.ensureOutputsTop vs)
     = SingleSide._outputCollection vs
   ∧ result (SingleSide.getOutputOffsetInContainer i)
       (after SingleSide.ensureOutputsTop vs)
     = result (SingleSide.getOutputOffsetInContainer i) vs
   ∧ result SingleSide.getOutputTotalHeight
       (after SingleSide.ensureOutputsTop vs)
     = result SingleSide.getOutputTotalHeight vs)
  ∧ (after (SideBySide.getOutputOffsetInContainer side i) vd
     = after SideBySide.ensureOutputsTop vd
     ∧ after SideBySide.getOutputTotalHeight vd
       = after SideBySide.ensureOutputsTop vd
     ∧ SideBySide.base (after SideBySide.ensureOutputsTop vd)
       = SideBySide.base vd
     ∧ SideBySide._originalOutputCollection
         (after SideBySide.ensureOutputsTop vd)
       = SideBySide._originalOutputCollection vd
     ∧ SideBySide._modifiedOutputCollection
         (after SideBySide.ensureOutputsTop vd)
       = SideBySide._modifiedOutputCollection vd
     ∧ result (SideBySide.getOutputOffsetInContainer side i)
         (after SideBySide.ensureOutputsTop vd)
       = result (SideBySide.getOutputOffsetInContainer side i) vd
     ∧ result SideBySide.getOutputTotalHeight
         (after SideBySide.ensureOutputsTop vd)
       = result SideBySide.getOutputTotalHeight vd).
Proof.
  split.
  - destruct vs as [b d o m ty cl [p|]];
      unfold SingleSide.getOutputOffsetInContainer,
        SingleSide.getOutputTotalHeight, SingleSide.ensureOutputsTop;
      run; simpl; destruct (length cl <=? i)%nat; repeat split; reflexivity.
  - destruct vd as [b d o m ty co [p|] cm [q|]], side;
      unfold SideBySide.getOutputOffsetInContainer,
        SideBySide.getOutputTotalHeight, SideBySide.ensureOutputsTop,
        SideBySide.ensureOriginalOutputsTop,
        SideBySide.ensureModifiedOutputsTop;
      run; simpl;
      destruct (length co <=? i)%nat, (length cm <=? i)%nat;
      repeat split; reflexivity.
Qed.

(** X7: an [ensure...OutputsTop] method that finds its tracker absent
    constructs it over a copy of the collection in which an entry never set
    is 0 and a height is reduced modulo 2^32, whatever the collection holds;
    when every height is below 2^32 the tracker holds the heights
    themselves. *)
Theorem ensure_copies_the_collection
    (vs : SingleSide.t) (vd : SideBySide.t) :
  SingleSide._outputsTop vs = None →
  SideBySide._originalOutputsTop vd = None →
  SideBySide._modifiedOutputsTop vd = None →
  SingleSide._outputsTop (after SingleSide.ensureOutputsTop vs)
  = Some (PrefixSumComputer.mk
            (toUint32Element <$> SingleSide._outputCollection vs))
  ∧ SideBySide._originalOutputsTop
      (after SideBySide.ensureOriginalOutputsTop vd)
    = Some (PrefixSumComputer.mk
              (toUint32Element <$> SideBySide._originalOutputCollection vd))
  ∧ SideBySide._modifiedOutputsTop
      (after SideBySide.ensureModifiedOutputsTop vd)
    = Some (PrefixSumComputer.mk
              (toUint32Element <$> SideBySide._modifiedOutputCollection vd))
  ∧ ∀ collection : list (option N),
      Forall (λ entry, heightOf entry < UINT32) collection →
      toUint32Element <$> collection = heights collection.
Proof.
  intros Hs Ho Hm. split; [|split; [|split]].
  - destruct vs as [b d o m ty cl top]. simpl in Hs. subst top.
    unfold SingleSide.ensureOutputsTop. run. simpl.
    by rewrite copyToUint32Array_fmap.
  - destruct vd as [b d o m ty co to cm tm]. simpl in Ho. subst to.
    unfold SideBySide.ensureOriginalOutputsTop. run. simpl.
    by rewrite copyToUint32Array_fmap.
  - destruct vd as [b d o m ty co to cm tm]. simpl in Hm. subst tm.
    unfold SideBySide.ensureModifiedOutputsTop. run. simpl.
    by rewrite copyToUint32Array_fmap.
  - intros collection Hc. unfold heights.
    induction Hc as [|e c He _ IH]; [done|].
    rewrite !fmap_cons, IH. f_equal.
    destruct e as [h|]; [|done]. simpl in *. by apply N.mod_small.
Qed.

(** X7, at view models whose trackers are absent while heights are held:
    the height 2^32 + 5 is copied as 5 and the entry never set as 0. *)
Lemma ensure_copies_the_collection_witness :
  let doc := mkNotebook (mkTransientOptions false []) in
  let cell := mkCell [JNull; JNull] None "python" in
  let vs := SingleSide.mk newBase doc (Some cell) None Delete
              [Some 4294967301; None] None in
  let vd := SideBySide.mk newBase doc cell cell Unchanged
              [Some 7; None] None [None; Some 9] None in
  SingleSide._outputsTop (after SingleSide.ensureOutputsTop vs)
  = Some (PrefixSumComputer.mk [5; 0])
  ∧ SideBySide._modifiedOutputsTop
      (after SideBySide.ensureModifiedOutputsTop vd)
    = Some (PrefixSumComputer.mk [0; 9]).
Proof.
  intros doc cell vs vd.
  destruct (ensure_copies_the_collection vs vd) as (Hs & _ & Hm & _);
    try reflexivity.
  split; [exact Hs | exact Hm].
Defined.

(** ** Offsets *)

Lemma side_perform_heights (side : bool) (c : SideBySide.call)
    (v : SideBySide.t) :
  heights (SideBySide.collectionOf side (SideBySide.perform c v))
  = heightsAfterOn side [c] (heights (SideBySide.collectionOf side v)).
Proof.
  rewrite side_perform_collection. destruct c as [| o i h | | | | | |];
    simpl; try done.
  case_bool_decide; [|done].
  case_match; [|by rewrite heights_insert].
  rewrite list_insert_ge; [done|].
  rewrite heights_length. by apply Nat.leb_le.
Qed.

Lemma side_performAll_heights (side : bool) (cs : list SideBySide.call)
    (v : SideBySide.t) :
  heights (SideBySide.collectionOf side (SideBySide.performAll cs v))
  = heightsAfterOn side cs (heights (SideBySide.collectionOf side v)).
Proof.
  revert v. induction cs as [|c cs IH]; intros v; [done|].
  simpl. rewrite IH. by rewrite side_perform_heights.
Qed.

Lemma heightsAfterOn_length (side : bool) (cs : list SideBySide.call)
    (hs : list N) :
  length (heightsAfterOn side cs hs) = length hs.
Proof.
  revert hs. induction cs as [|c cs IH]; intros hs; [done|].
  change (heightsAfterOn side (c :: cs) hs)
    with (heightsAfterOn side cs (heightsAfterOn side [c] hs)).
  rewrite IH. destruct c; simpl; try done.
  case_bool_decide; [|done]. by rewrite length_insert.
Qed.

Lemma heightsAfterOn_lookup (side : bool) (cs : list SideBySide.call)
    (hs : list N) (j : nat) (d : N) :
  hs !! j = Some d →
  heightsAfterOn side cs hs !! j = Some (lastSetOn side cs j d).
Proof.
  revert hs d. induction cs as [|c cs IH]; intros hs d Hj; [done|].
  destruct c as [| o i h | | | | | |]; simpl; try (by apply IH).
  apply IH. case_bool_decide; simpl; [|done].
  destruct (Nat.eqb_spec i j) as [->|Hne].
  - apply list_lookup_insert_eq. by eapply lookup_lt_Some.
  - by rewrite list_lookup_insert_ne.
Qed.

Lemma take_heightsAfterOn (side : bool) (cs : list SideBySide.call)
    (n i : nat) :
  (i ≤ n)%nat →
  take i (heightsAfterOn side cs (replicate n 0))
  = (λ j, lastSetOn side cs j 0) <$> seq 0 i.
Proof.
  intros Hi. apply list_eq_same_length with i.
  - by rewrite length_fmap, length_seq.
  - rewrite length_take, heightsAfterOn_length, length_replicate. lia.
  - intros j x y Hj Hx Hy.
    rewrite lookup_take_lt in Hx by done.
    rewrite (heightsAfterOn_lookup side cs _ j 0) in Hx
      by (apply lookup_replicate_2; lia).
    rewrite list_lookup_fmap, lookup_seq_lt in Hy by done.
    simpl in Hy. congruence.
Qed.

Lemma side_offset_in_range (v : SideBySide.t) (side : bool) (i : nat) :
  (i < length (SideBySide.collectionOf side v))%nat →
  result (SideBySide.getOutputOffsetInContainer side i) v
  = Normal (PrefixSumComputer.getAccumulatedValue
              (ensuredTop (SideBySide.collectionOf side v)
                          (SideBySide.topOf side v))
              (Z.of_nat i - 1)).
Proof.
  intros Hi. apply Nat.leb_gt in Hi.
  destruct v as [b d o m ty co [p|] cm [q|]], side;
    unfold SideBySide.getOutputOffsetInContainer, SideBySide.ensureOutputsTop,
      SideBySide.ensureOriginalOutputsTop, SideBySide.ensureModifiedOutputsTop;
    run; simpl in *; by rewrite Hi.
Qed.

Lemma side_new_collection `{Host} (side : bool) doc o m ty :
  SideBySide.collectionOf side (SideBySide.new doc o m ty)
  = replicate (length (outputs (if side then o else m))) None.
Proof. unfold SideBySide.new. destruct side; repeat case_match; done. Qed.

(** X8: on a side-by-side view model, after construction and any calls [cs]
    of its methods, [getOutputOffsetInContainer] on one side at an index of
    that side's cell returns the sum over the positions before the index of
    the height most recently set there on that side, a position never set
    counting as 0; what was set on the other side does not count. *)
Theorem side_offset_is_sum_of_latest_heights `{Host}
    (doc : NotebookTextModel) (o m : NotebookCellTextModel) (ty : DiffType)
    (cs : list SideBySide.call) (side : bool) (i : nat) :
  (i < length (outputs (if side then o else m)))%nat →
  result (SideBySide.getOutputOffsetInContainer side i)
         (SideBySide.performAll cs (SideBySide.new doc o m ty))
  = Normal (sumN ((λ j, lastSetOn side cs j 0) <$> seq 0 i)).
Proof.
  intros Hi.
  set (v0 := SideBySide.new doc o m ty).
  set (v := SideBySide.performAll cs v0).
  pose proof (side_performAll_synced side cs v0 (side_new_synced side _ _ _ _))
    as Hs. fold v in Hs.
  pose proof (side_performAll_heights side cs v0) as Hh. fold v in Hh.
  unfold v0 in Hh. rewrite side_new_collection in Hh.
  unfold heights at 2 in Hh. rewrite fmap_replicate in Hh. simpl in Hh.
  assert (Hlen : length (SideBySide.collectionOf side v)
                 = length (outputs (if side then o else m))).
  { rewrite <- (heights_length (SideBySide.collectionOf side v)), Hh.
    by rewrite heightsAfterOn_length, length_replicate. }
  rewrite side_offset_in_range by lia.
  unfold PrefixSumComputer.getAccumulatedValue.
  rewrite (ensuredTop_synced _ _ Hs), Hh.
  replace (Z.to_nat (Z.of_nat i - 1 + 1)) with i by lia.
  by rewrite take_heightsAfterOn by lia.
Qed.

(** X8, at a concrete view model: heights 5 and 7 set on the original side,
    30 on the modified side, then 2 at position 0 of the original side; the
    offset of original output 2 is 9. *)
Lemma side_offset_is_sum_of_latest_heights_witness :
  let doc := mkNotebook (mkTransientOptions false []) in
  let o := mkCell [JNull; JNull; JNull] None "python" in
  let m := mkCell [JNull] None "python" in
  let cs := [SideBySide.UpdateOutputHeight true 0 5;
             SideBySide.UpdateOutputHeight true 1 7;
             SideBySide.UpdateOutputHeight false 0 30;
             SideBySide.UpdateOutputHeight true 0 2] in
  result (SideBySide.getOutputOffsetInContainer true 2)
         (SideBySide.performAll cs
            (SideBySide.new (H := exampleHost) doc o m Modified))
  = Normal 9.
Proof.
  intros doc o m cs.
  apply (side_offset_is_sum_of_latest_heights (H := exampleHost)
           doc o m Modified cs true 2).
  simpl. lia.
Defined.

(** X9: the two sides of a side-by-side view model do not touch each other:
    an [updateOutputHeight] on one side, valid or not and in whatever state,
    leaves the collection of the other side as it was and changes no answer
    of [getOutputOffsetInContainer] on the other side. *)
Theorem update_leaves_other_side
    (v : SideBySide.t) (side : bool) (i k : nat) (h : N) :
  let v' := after (SideBySide.updateOutputHeight side i h) v in
  SideBySide.collectionOf (negb side) v'
  = SideBySide.collectionOf (negb side) v
  ∧ result (SideBySide.getOutputOffsetInContainer (negb side) k) v'
    = result (SideBySide.getOutputOffsetInContainer (negb side) k) v.
Proof.
  intros v'. unfold v'.
  pose proof (side_perform_collection (negb side)
                (SideBySide.UpdateOutputHeight side i h) v) as Hc.
  pose proof (side_perform_top (negb side)
                (SideBySide.UpdateOutputHeight side i h) v) as Ht.
  simpl in Hc, Ht.
  rewrite bool_decide_eq_false_2 in Hc, Ht by (by destruct side).
  split; [exact Hc|].
  destruct (decide (k < length (SideBySide.collectionOf (negb side) v))%nat)
    as [Hk|Hk].
  - rewrite !side_offset_in_range by (by rewrite ?Hc).
    rewrite Hc, Ht. case_match; [done|].
    by destruct (SideBySide.topOf (negb side) v).
  - by rewrite !side_offset_out_of_range by (rewrite ?Hc; lia).
Qed.

Lemma sumN_take_S (l : list N) (i : nat) (x : N) :
  l !! i = Some x → sumN (take (S i) l) = sumN (take i l) + x.
Proof.
  intros Hi. rewrite (take_S_r _ _ _ Hi), sumN_app. simpl. lia.
Qed.

Lemma sumN_take_le (l : list N) (i : nat) : sumN (take i l) ≤ sumN l.
Proof.
  rewrite <- (take_drop i l) at 2. rewrite sumN_app. lia.
Qed.

(** X10: in every state a client can bring a view model to, the offsets run
    up by the heights: at a valid index the offset of the next output is the
    offset of this one plus the height held here (an entry never set as 0),
    and the offset of an output plus its height is at most what
    [getOutputTotalHeight] returns, on a single-side view model and on either
    side of a side-by-side one. *)
Theorem offsets_accumulate_heights `{Host}
    (vs : SingleSide.t) (vd : SideBySide.t) (side : bool) (i j : nat) :
  SingleSide.reachable vs →
  SideBySide.reachable vd →
  (i < length (SingleSide._outputCollection vs))%nat →
  (j < length (SideBySide.collectionOf side vd))%nat →
  (∃ a t,
     result (SingleSide.getOutputOffsetInContainer i) vs = Normal a
     ∧ result SingleSide.getOutputTotalHeight vs = Normal t
     ∧ a + heightOf (SingleSide._outputCollection vs !!! i) ≤ t
     ∧ ((S i < length (SingleSide._outputCollection vs))%nat →
        result (SingleSide.getOutputOffsetInContainer (S i)) vs
        = Normal (a + heightOf (SingleSide._outputCollection vs !!! i))))
  ∧ (∃ a t,
       result (SideBySide.getOutputOffsetInContainer side j) vd = Normal a
       ∧ result SideBySide.getOutputTotalHeight vd = Normal t
       ∧ a + heightOf (SideBySide.collectionOf side vd !!! j) ≤ t
       ∧ ((S j < length (SideBySide.collectionOf side vd))%nat →
          result (SideBySide.getOutputOffsetInContainer side (S j)) vd
          = Normal (a + heightOf (SideBySide.collectionOf side vd !!! j)))).
Proof.
  intros Hvs Hvd Hi Hj. split.
  - pose proof (ensuredTop_synced _ _ (single_reachable_synced vs Hvs)) as He.
    pose proof (heights_lookup _ _ Hi) as Hl.
    eexists _, _. split; [by apply single_offset_in_range|].
    split; [by apply single_total_reachable|].
    unfold PrefixSumComputer.getAccumulatedValue. rewrite He.
    replace (Z.to_nat (Z.of_nat i - 1 + 1)) with i by lia.
    split.
    + rewrite <- (sumN_take_S _ _ _ Hl). apply sumN_take_le.
    + intros HS. rewrite single_offset_in_range by done.
      unfold PrefixSumComputer.getAccumulatedValue. rewrite He.
      replace (Z.to_nat (Z.of_nat (S i) - 1 + 1)) with (S i) by lia.
      by rewrite (sumN_take_S _ _ _ Hl).
  - pose proof (ensuredTop_synced _ _ (side_reachable_synced side vd Hvd))
      as He.
    pose proof (heights_lookup _ _ Hj) as Hl.
    eexists _, _. split; [by apply side_offset_in_range|].
    split; [by apply side_total_reachable|].
    unfold PrefixSumComputer.getAccumulatedValue. rewrite He.
    replace (Z.to_nat (Z.of_nat j - 1 + 1)) with j by lia.
    split.
    + rewrite <- (sumN_take_S _ _ _ Hl).
      pose proof (sumN_take_le (heights (SideBySide.collectionOf side vd))
                    (S j)) as Hle.
      destruct side; simpl in *; lia.
    + intros HS. rewrite side_offset_in_range by done.
      unfold PrefixSumComputer.getAccumulatedValue. rewrite He.
      replace (Z.to_nat (Z.of_nat (S j) - 1 + 1)) with (S j) by lia.
      by rewrite (sumN_take_S _ _ _ Hl).
Qed.

(** X10, at concrete view models. *)
Lemma offsets_accumulate_heights_witness :
  let doc := mkNotebook (mkTransientOptions false []) in
  let vs := SingleSide.performAll
              [SingleSide.UpdateOutputHeight 0 4;
               SingleSide.UpdateOutputHeight 1 9]
              (SingleSide.mk newBase doc None
                 (Some (mkCell [JNull; JNull; JNull] None "python")) Insert
                 [None; None; None] None) in
  let vd := SideBySide.performAll [SideBySide.UpdateOutputHeight true 1 6]
              (SideBySide.new (H := exampleHost) doc
                 (mkCell [JNull; JNull] None "python")
                 (mkCell [JNull] None "python") Modified) in
  ∃ a, result (SingleSide.getOutputOffsetInContainer 1) vs = Normal a
       ∧ result (SingleSide.getOutputOffsetInContainer 2) vs
         = Normal (a + 9).
Proof.
  intros doc vs vd.
  destruct (offsets_accumulate_heights (H := exampleHost) vs vd true 1 1)
    as ((a & t & Ha & _ & _ & Hnext) & _).
  - eexists doc, None, (Some (mkCell [JNull; JNull; JNull] None "python")),
      Insert, _, _. split; reflexivity.
  - eexists doc, (mkCell [JNull; JNull] None "python"),
      (mkCell [JNull] None "python"), Modified, _. reflexivity.
  - vm_compute. lia.
  - vm_compute. lia.
  - exists a. split; [exact Ha|]. apply Hnext. vm_compute. lia.
Defined.

(** X11: no index is valid for a cell without outputs.  On a view model
    whose output collection is empty, [updateOutputHeight] and
    [getOutputOffsetInContainer] throw 'Output index out of range!' at every
    index, index 0 included, and [getOutputTotalHeight] of a single-side view
    model returns 0; on a side-by-side view model with both collections
    empty it returns 0 as well. *)
Theorem empty_collection_has_no_valid_index `{Host}
    (vs : SingleSide.t) (vd : SideBySide.t) (side : bool) (i : nat) (h : N) :
  SingleSide.reachable vs →
  SideBySide.reachable vd →
  SingleSide._outputCollection vs = [] →
  SideBySide.collectionOf side vd = [] →
  (result (SingleSide.updateOutputHeight i h) vs
   = Throw (Error "Output index out of range!")
   ∧ result (SingleSide.getOutputOffsetInContainer i) vs
     = Throw (Error "Output index out of range!")
   ∧ result SingleSide.getOutputTotalHeight vs = Normal 0)
  ∧ (result (SideBySide.updateOutputHeight side i h) vd
     = Throw (Error "Output index out of range!")
     ∧ result (SideBySide.getOutputOffsetInContainer side i) vd
       = Throw (Error "Output index out of range!")
     ∧ (SideBySide.collectionOf (negb side) vd = [] →
        result SideBySide.getOutputTotalHeight vd = Normal 0)).
Proof.
  intros Hvs Hvd Hs Hd. split; [split; [|split]|split; [|split]].
  - unfold result. rewrite single_update_out_of_range; [done|].
    rewrite Hs. simpl. lia.
  - apply single_offset_out_of_range. rewrite Hs. simpl. lia.
  - rewrite single_total_reachable by done. by rewrite Hs.
  - unfold result. rewrite side_update_out_of_range; [done|].
    rewrite Hd. simpl. lia.
  - apply side_offset_out_of_range. rewrite Hd. simpl. lia.
  - intros Hd'. rewrite side_total_reachable by done.
    destruct side; simpl in *; by rewrite Hd, Hd'.
Qed.

(** X11, at view models of cells without outputs. *)
Lemma empty_collection_has_no_valid_index_witness :
  let doc := mkNotebook (mkTransientOptions false []) in
  let vs := SingleSide.mk newBase doc None
              (Some (mkCell [] None "python")) Insert [] None in
  let vd := SideBySide.new (H := exampleHost) doc
              (mkCell [] None "python") (mkCell [] None "python")
              Unchanged in
  result (SingleSide.getOutputOffsetInContainer 0) vs
  = Throw (Error "Output index out of range!")
  ∧ result SideBySide.getOutputTotalHeight vd = Normal 0.
Proof.
  intros doc vs vd.
  destruct (empty_collection_has_no_valid_index (H := exampleHost)
              vs vd true 0 1) as ((_ & Ho & _) & (_ & _ & Ht)).
  - eexists doc, None, (Some (mkCell [] None "python")), Insert, _, [].
    split; reflexivity.
  - eexists doc, (mkCell [] None "python"), (mkCell [] None "python"),
      Unchanged, []. reflexivity.
  - reflexivity.
  - reflexivity.
  - split; [exact Ho | by apply Ht].
Defined.

(** ** How updates compose *)

Lemma single_update_again (v : SingleSide.t) (i : nat) (h : N) :
  SingleSide.updateOutputHeight i h
    (after (SingleSide.updateOutputHeight i h) v)
  = (result (SingleSide.updateOutputHeight i h) v,
     after (SingleSide.updateOutputHeight i h) v).
Proof.
  destruct (decide (i < length (SingleSide._outputCollection v))%nat)
    as [Hi|Hi].
  2:{ pose proof (single_update_out_of_range v i h ltac:(lia)) as Hu.
      unfold result, after. rewrite Hu. simpl. by rewrite Hu. }
  pose proof (single_perform_collection
                (SingleSide.UpdateOutputHeight i h) v) as Hc.
  pose proof (single_perform_top (SingleSide.UpdateOutputHeight i h) v) as Ht.
  simpl in Hc, Ht. pose proof Hi as Hb. apply Nat.leb_gt in Hb.
  rewrite Hb in Hc, Ht.
  assert (Hr : result (SingleSide.updateOutputHeight i h) v = Normal tt).
  { unfold result. rewrite single_update_in_range by done.
    case_match; [|done].
    by destruct (single_layoutChange (SingleSide.stored i h v)) as [? _]. }
  rewrite Hr.
  destruct (after (SingleSide.updateOutputHeight i h) v)
    as [b d o m ty cl top] eqn:Hv. simpl in Hc, Ht. subst cl top.
  rewrite single_update_in_range by (simpl; by rewrite length_insert).
  unfold PrefixSumComputer.changeValue, SingleSide.stored. simpl.
  rewrite !list_insert_insert_eq. by rewrite N.eqb_refl.
Qed.

Lemma side_update_again (v : SideBySide.t) (side : bool) (i : nat) (h : N) :
  SideBySide.updateOutputHeight side i h
    (after (SideBySide.updateOutputHeight side i h) v)
  = (result (SideBySide.updateOutputHeight side i h) v,
     after (SideBySide.updateOutputHeight side i h) v).
Proof.
  destruct (decide (i < length (SideBySide.collectionOf side v))%nat)
    as [Hi|Hi].
  2:{ pose proof (side_update_out_of_range v side i h ltac:(lia)) as Hu.
      unfold result, after. rewrite Hu. simpl. by rewrite Hu. }
  pose proof (side_perform_collection side
                (SideBySide.UpdateOutputHeight side i h) v) as Hc.
  pose proof (side_perform_collection (negb side)
                (SideBySide.UpdateOutputHeight side i h) v) as Hc'.
  pose proof (side_perform_top side
                (SideBySide.UpdateOutputHeight side i h) v) as Ht.
  pose proof (side_perform_top (negb side)
                (SideBySide.UpdateOutputHeight side i h) v) as Ht'.
  simpl in Hc, Hc', Ht, Ht'. pose proof Hi as Hb. apply Nat.leb_gt in Hb.
  rewrite Hb in Hc, Ht, Ht'.
  rewrite bool_decide_eq_true_2 in Hc, Ht by done.
  rewrite bool_decide_eq_false_2 in Hc', Ht' by (by destruct side).
  assert (Hr : result (SideBySide.updateOutputHeight side i h) v = Normal tt).
  { unfold result. rewrite side_update_in_range by done.
    case_match; [|done].
    by destruct (side_layoutChange (SideBySide.stored side i h v)) as [? _]. }
  rewrite Hr.
  destruct (after (SideBySide.updateOutputHeight side i h) v)
    as [b d o m ty co to cm tm] eqn:Hv.
  rewrite side_update_in_range
    by (rewrite Hc; by rewrite length_insert).
  destruct side; simpl in Hc, Hc', Ht, Ht'; subst;
    unfold PrefixSumComputer.changeValue, SideBySide.stored; simpl;
    rewrite !list_insert_insert_eq; by rewrite N.eqb_refl.
Qed.

(** X12: setting the same height at the same index twice in a row is the
    same as setting it once, on both view models, in whatever state and for
    whatever index: the second [updateOutputHeight] completes as the first
    did and leaves the whole view model, the events fired included, as the
    first left it. *)
Theorem repeated_update_changes_nothing
    (vs : SingleSide.t) (vd : SideBySide.t) (side : bool) (i j : nat)
    (h k : N) :
  SingleSide.updateOutputHeight i h
    (after (SingleSide.updateOutputHeight i h) vs)
  = (result (SingleSide.updateOutputHeight i h) vs,
     after (SingleSide.updateOutputHeight i h) vs)
  ∧ SideBySide.updateOutputHeight side j k
      (after (SideBySide.updateOutputHeight side j k) vd)
    = (result (SideBySide.updateOutputHeight side j k) vd,
       after (SideBySide.updateOutputHeight side j k) vd).
Proof. split; [apply single_update_again | apply side_update_again]. Qed.

Lemma single_update_explicit (v : SingleSide.t) (i : nat) (h : N) :
  SingleSide.reachable v →
  (i < length (SingleSide._outputCollection v))%nat →
  after (SingleSide.updateOutputHeight i h) v
  = SingleSide.mk
      (if h =? heightOf (SingleSide._outputCollection v !!! i)
       then SingleSide.base v
       else relaidOut
              (sumN (<[i := h]> (heights (SingleSide._outputCollection v))))
              (SingleSide.base v))
      (SingleSide.documentTextModel v) (SingleSide.original v)
      (SingleSide.modified v) (SingleSide.type v)
      (<[i := Some h]> (SingleSide._outputCollection v))
      (Some (PrefixSumComputer.mk
               (<[i := h]> (heights (SingleSide._outputCollection v))))).
Proof.
  intros Hv Hi.
  pose proof (ensuredTop_synced _ _ (single_reachable_synced v Hv)) as He.
  destruct (single_update_behaviour v i h Hv Hi) as (Hf & _).
  unfold after. rewrite single_update_in_range by done. rewrite Hf.
  unfold SingleSide.stored. rewrite He.
  destruct (h =? heightOf (SingleSide._outputCollection v !!! i)); simpl;
    [done|].
  destruct v as [[mf [] em l] d o m ty cl [p|]]; reflexivity.
Qed.

(** X13: on a single-side view model in a state a client can bring it to,
    two [updateOutputHeight] calls at different valid indices commute: in
    either order they leave the same view model, with the same heights, the
    same tracker, the same layout record and the same events fired. *)
Theorem updates_at_different_indices_commute
    (v : SingleSide.t) (i j : nat) (h k : N) :
  SingleSide.reachable v →
  (i < length (SingleSide._outputCollection v))%nat →
  (j < length (SingleSide._outputCollection v))%nat →
  i ≠ j →
  after (SingleSide.updateOutputHeight j k)
        (after (SingleSide.updateOutputHeight i h) v)
  = after (SingleSide.updateOutputHeight i h)
          (after (SingleSide.updateOutputHeight j k) v).
Proof.
  intros Hv Hi Hj Hne.
  pose proof (single_reachable_perform
                (SingleSide.UpdateOutputHeight i h) v Hv) as Hvi.
  pose proof (single_reachable_perform
                (SingleSide.UpdateOutputHeight j k) v Hv) as Hvj.
  change (SingleSide.perform (SingleSide.UpdateOutputHeight i h) v)
    with (after (SingleSide.updateOutputHeight i h) v) in Hvi.
  change (SingleSide.perform (SingleSide.UpdateOutputHeight j k) v)
    with (after (SingleSide.updateOutputHeight j k) v) in Hvj.
  pose proof (single_update_explicit v i h Hv Hi) as Ei.
  pose proof (single_update_explicit v j k Hv Hj) as Ej.
  rewrite (single_update_explicit _ j k Hvi)
    by (rewrite Ei; simpl; by rewrite length_insert).
  rewrite (single_update_explicit _ i h Hvj)
    by (rewrite Ej; simpl; by rewrite length_insert).
  rewrite Ei, Ej. simpl.
  rewrite !heights_insert.
  rewrite !(list_insert_insert_ne _ i j) by done.
  rewrite !list_lookup_total_insert_ne by done.
  f_equal.
  pose proof (heights_lookup _ _ Hi) as Hli.
  pose proof (heights_lookup _ _ Hj) as Hlj.
  destruct (N.eqb_spec h (heightOf (SingleSide._outputCollection v !!! i)))
    as [Hh|Hh],
    (N.eqb_spec k (heightOf (SingleSide._outputCollection v !!! j)))
    as [Hk|Hk]; try done.
  - subst h. by rewrite (list_insert_id _ i _ Hli).
  - subst k. rewrite (list_insert_insert_ne (heights _) j i) by done.
    by rewrite (list_insert_id _ j _ Hlj).
Qed.

(** X13, at a concrete view model with expanded outputs. *)
Lemma updates_at_different_indices_commute_witness :
  let doc := mkNotebook (mkTransientOptions false []) in
  let v := SingleSide.performAll
             [SingleSide.Inherited (SetOutputFoldingState Expanded);
              SingleSide.UpdateOutputHeight 0 4]
             (SingleSide.mk newBase doc None
                (Some (mkCell [JNull; JNull] None "python")) Insert
                [None; None] None) in
  after (SingleSide.updateOutputHeight 1 9)
        (after (SingleSide.updateOutputHeight 0 4) v)
  = after (SingleSide.updateOutputHeight 0 4)
          (after (SingleSide.updateOutputHeight 1 9) v).
Proof.
  intros doc v.
  apply (updates_at_different_indices_commute v 0 1 4 9).
  - eexists doc, None, (Some (mkCell [JNull; JNull] None "python")), Insert,
      _, _. split; reflexivity.
  - vm_compute. lia.
  - vm_compute. lia.
  - discriminate.
Defined.

Lemma ensuredTop_eq_mk (cl : list (option N))
    (top : option PrefixSumComputer.t) (hs : list N) :
  PrefixSumComputer.values (ensuredTop cl top) = hs →
  ensuredTop cl top = PrefixSumComputer.mk hs.
Proof. intros <-. by destruct (ensuredTop cl top). Qed.

Lemma side_update_explicit `{Host} (v : SideBySide.t) (side : bool)
    (i : nat) (h : N) :
  SideBySide.reachable v →
  (i < length (SideBySide.collectionOf side v))%nat →
  let ho := heights (SideBySide._originalOutputCollection v) in
  let hm := heights (SideBySide._modifiedOutputCollection v) in
  after (SideBySide.updateOutputHeight side i h) v
  = if side then
      SideBySide.mk
        (if h =? heightOf (SideBySide._originalOutputCollection v !!! i)
         then SideBySide.base v
         else relaidOut (N.max (sumN (<[i := h]> ho)) (sumN hm))
                        (SideBySide.base v))
        (SideBySide.documentTextModel v) (SideBySide.original v)
        (SideBySide.modified v) (SideBySide.type v)
        (<[i := Some h]> (SideBySide._originalOutputCollection v))
        (Some (PrefixSumComputer.mk (<[i := h]> ho)))
        (SideBySide._modifiedOutputCollection v)
        (Some (PrefixSumComputer.mk hm))
    else
      SideBySide.mk
        (if h =? heightOf (SideBySide._modifiedOutputCollection v !!! i)
         then SideBySide.base v
         else relaidOut (N.max (sumN ho) (sumN (<[i := h]> hm)))
                        (SideBySide.base v))
        (SideBySide.documentTextModel v) (SideBySide.original v)
        (SideBySide.modified v) (SideBySide.type v)
        (SideBySide._originalOutputCollection v)
        (Some (PrefixSumComputer.mk ho))
        (<[i := Some h]> (SideBySide._modifiedOutputCollection v))
        (Some (PrefixSumComputer.mk (<[i := h]> hm))).
Proof.
  intros Hv Hi ho hm.
  pose proof (ensuredTop_synced _ _ (side_reachable_synced true v Hv)) as Heo.
  pose proof (ensuredTop_synced _ _ (side_reachable_synced false v Hv))
    as Hem.
  destruct (side_update_behaviour v side i h Hv Hi) as (Hf & _).
  unfold after. rewrite side_update_in_range by done. rewrite Hf.
  unfold SideBySide.stored. simpl in Heo, Hem.
  destruct side; simpl.
  - destruct (h =? heightOf (SideBySide._originalOutputCollection v !!! i));
      simpl.
    + by rewrite Heo, (ensuredTop_eq_mk _ _ _ Hem).
    + rewrite Heo, (ensuredTop_eq_mk _ _ _ Hem).
      destruct v as [[mf [] em l] d o m ty co [p|] cm [q|]]; reflexivity.
  - destruct (h =? heightOf (SideBySide._modifiedOutputCollection v !!! i));
      simpl.
    + by rewrite Hem, (ensuredTop_eq_mk _ _ _ Heo).
    + rewrite Hem, (ensuredTop_eq_mk _ _ _ Heo).
      destruct v as [[mf [] em l] d o m ty co [p|] cm [q|]]; reflexivity.
Qed.

(** X14: on a side-by-side view model in a state a client can bring it to,
    an [updateOutputHeight] on the original side and one on the modified
    side, at valid indices, commute: in either order they leave the same
    view model, layout record and events fired included. *)
Theorem updates_on_opposite_sides_commute `{Host}
    (v : SideBySide.t) (i j : nat) (h k : N) :
  SideBySide.reachable v →
  (i < length (SideBySide._originalOutputCollection v))%nat →
  (j < length (SideBySide._modifiedOutputCollection v))%nat →
  after (SideBySide.updateOutputHeight false j k)
        (after (SideBySide.updateOutputHeight true i h) v)
  = after (SideBySide.updateOutputHeight true i h)
          (after (SideBySide.updateOutputHeight false j k) v).
Proof.
  intros Hv Hi Hj.
  pose proof (side_reachable_perform
                (SideBySide.UpdateOutputHeight true i h) v Hv) as Hvi.
  pose proof (side_reachable_perform
                (SideBySide.UpdateOutputHeight false j k) v Hv) as Hvj.
  change (SideBySide.perform (SideBySide.UpdateOutputHeight true i h) v)
    with (after (SideBySide.updateOutputHeight true i h) v) in Hvi.
  change (SideBySide.perform (SideBySide.UpdateOutputHeight false j k) v)
    with (after (SideBySide.updateOutputHeight false j k) v) in Hvj.
  pose proof (side_update_explicit v true i h Hv Hi) as Ei.
  pose proof (side_update_explicit v false j k Hv Hj) as Ej.
  cbv beta iota zeta in Ei, Ej.
  assert (Hj' : (j < length (SideBySide.collectionOf false
                   (after (SideBySide.updateOutputHeight true i h) v)))%nat)
    by (by rewrite Ei).
  assert (Hi' : (i < length (SideBySide.collectionOf true
                   (after (SideBySide.updateOutputHeight false j k) v)))%nat)
    by (by rewrite Ej).
  pose proof (side_update_explicit _ false j k Hvi Hj') as Eij.
  pose proof (side_update_explicit _ true i h Hvj Hi') as Eji.
  cbv beta iota zeta in Eij, Eji.
  rewrite Eij, Eji, Ei, Ej. simpl. rewrite !heights_insert. f_equal.
  pose proof (heights_lookup _ _ Hi) as Hli.
  pose proof (heights_lookup _ _ Hj) as Hlj.
  destruct (N.eqb_spec h
              (heightOf (SideBySide._originalOutputCollection v !!! i)))
    as [Hh|Hh],
    (N.eqb_spec k
       (heightOf (SideBySide._modifiedOutputCollection v !!! j)))
    as [Hk|Hk]; try done.
  - subst h. by rewrite (list_insert_id _ i _ Hli).
  - subst k. by rewrite (list_insert_id _ j _ Hlj).
Qed.

(** X14, at a concrete view model with expanded outputs. *)
Lemma updates_on_opposite_sides_commute_witness :
  let doc := mkNotebook (mkTransientOptions false []) in
  let v := SideBySide.performAll
             [SideBySide.Inherited (SetOutputFoldingState Expanded);
              SideBySide.UpdateOutputHeight true 0 5]
             (SideBySide.new (H := exampleHost) doc
                (mkCell [JNull; JNull] None "python")
                (mkCell [JNull] None "python") Modified) in
  after (SideBySide.updateOutputHeight false 0 20)
        (after (SideBySide.updateOutputHeight true 1 3) v)
  = after (SideBySide.updateOutputHeight true 1 3)
          (after (SideBySide.updateOutputHeight false 0 20) v).
Proof.
  intros doc v.
  apply (updates_on_opposite_sides_commute (H := exampleHost) v 1 0 3 20).
  - eexists doc, (mkCell [JNull; JNull] None "python"),
      (mkCell [JNull] None "python"), Modified, _. reflexivity.
  - vm_compute. lia.
  - vm_compute. lia.
Defined.

(** ** Recomputing the layout *)

Lemma single_layoutChange_base (v : SingleSide.t) :
  SingleSide.base (after SingleSide.layoutChange v)
  = relaidOut (PrefixSumComputer.getTotalValue
                 (ensuredTop (SingleSide._outputCollection v)
                             (SingleSide._outputsTop v)))
              (SingleSide.base v).
Proof. destruct v as [[mf [] em l] d o m ty cl [p|]]; reflexivity. Qed.

Lemma side_layoutChange_base (v : SideBySide.t) :
  SideBySide.base (after SideBySide.layoutChange v)
  = relaidOut (N.max
                 (PrefixSumComputer.getTotalValue
                    (ensuredTop (SideBySide._originalOutputCollection v)
                                (SideBySide._originalOutputsTop v)))
                 (PrefixSumComputer.getTotalValue
                    (ensuredTop (SideBySide._modifiedOutputCollection v)
                                (SideBySide._modifiedOutputsTop v))))
              (SideBySide.base v).
Proof.
  destruct v as [[mf [] em l] d o m ty co [p|] cm [q|]]; reflexivity.
Qed.

Lemma relaidOut_fields (t : N) (b : CellDiffViewModelBase) :
  fieldsOf (_layoutInfo (relaidOut t b))
  = <[6%nat := match outputFoldingState b with
               | Collapsed => 0
               | Expanded => t
               end]> (fieldsOf (_layoutInfo b))
  ∧ outputFoldingState (relaidOut t b) = outputFoldingState b
  ∧ metadataFoldingState (relaidOut t b) = metadataFoldingState b.
Proof. by destruct b as [mf fo em [w eh emg msh mh osh oh bm]]. Qed.

(** X15: in a state a client can bring a view model to, [layoutChange]
    assigns one field of the layout record, outputHeight: 0 while the outputs
    are collapsed, and while they are expanded the sum of the heights of a
    single-side view model or the larger of the two sums of a side-by-side
    one.  The seven other fields and the folding states stay, so
    [totalHeight] moves by the change of outputHeight, and a second
    [layoutChange] finds nothing to change in the layout record. *)
Theorem layoutChange_recomputes_output_height `{Host}
    (vs : SingleSide.t) (vd : SideBySide.t) :
  SingleSide.reachable vs →
  SideBySide.reachable vd →
  let xs := match outputFoldingState (SingleSide.base vs) with
            | Collapsed => 0
            | Expanded => sumN (heights (SingleSide._outputCollection vs))
            end in
  let xd := match outputFoldingState (SideBySide.base vd) with
            | Collapsed => 0
            | Expanded =>
                N.max (sumN (heights (SideBySide._originalOutputCollection vd)))
                      (sumN (heights (SideBySide._modifiedOutputCollection vd)))
            end in
  let vs' := after SingleSide.layoutChange vs in
  let vd' := after SideBySide.layoutChange vd in
  (fieldsOf (_layoutInfo (SingleSide.base vs'))
   = <[6%nat := xs]> (fieldsOf (_layoutInfo (SingleSide.base vs)))
   ∧ outputFoldingState (SingleSide.base vs')
     = outputFoldingState (SingleSide.base vs)
   ∧ totalHeight (SingleSide.base vs') + get_outputHeight (SingleSide.base vs)
     = totalHeight (SingleSide.base vs) + xs
   ∧ _layoutInfo (SingleSide.base (after SingleSide.layoutChange vs'))
     = _layoutInfo (SingleSide.base vs'))
  ∧ (fieldsOf (_layoutInfo (SideBySide.base vd'))
     = <[6%nat := xd]> (fieldsOf (_layoutInfo (SideBySide.base vd)))
     ∧ outputFoldingState (SideBySide.base vd')
       = outputFoldingState (SideBySide.base vd)
     ∧ totalHeight (SideBySide.base vd')
       + get_outputHeight (SideBySide.base vd)
       = totalHeight (SideBySide.base vd) + xd
     ∧ _layoutInfo (SideBySide.base (after SideBySide.layoutChange vd'))
       = _layoutInfo (SideBySide.base vd')).
Proof.
  intros Hvs Hvd xs xd vs' vd'.
  pose proof (ensuredTop_synced _ _ (single_reachable_synced vs Hvs)) as Hs.
  pose proof (ensuredTop_synced _ _ (side_reachable_synced true vd Hvd))
    as Ho.
  pose proof (ensuredTop_synced _ _ (side_reachable_synced false vd Hvd))
    as Hm.
  simpl in Ho, Hm.
  split.
  - assert (Hb : SingleSide.base vs'
                 = relaidOut (sumN (heights (SingleSide._outputCollection vs)))
                             (SingleSide.base vs)).
    { unfold vs'. rewrite single_layoutChange_base.
      unfold PrefixSumComputer.getTotalValue. by rewrite Hs. }
    destruct (relaidOut_fields
                (sumN (heights (SingleSide._outputCollection vs)))
                (SingleSide.base vs)) as (Hf & Hfo & _).
    rewrite <- Hb in Hf, Hfo. fold xs in Hf.
    split; [exact Hf|]. split; [exact Hfo|]. split.
    + unfold totalHeight, get_outputHeight.
      unfold fieldsOf in Hf. simpl in Hf. simplify_eq. lia.
    + rewrite single_layoutChange_base.
      pose proof (single_perform_collection SingleSide.LayoutChange vs) as Hc.
      pose proof (single_perform_top SingleSide.LayoutChange vs) as Ht.
      simpl in Hc, Ht. fold vs' in Hc, Ht. rewrite Hc, Ht. simpl.
      unfold PrefixSumComputer.getTotalValue at 1. rewrite Hs, Hb.
      by destruct (SingleSide.base vs) as [mf [] em l].
  - assert (Hb : SideBySide.base vd'
                 = relaidOut
                     (N.max
                        (sumN (heights
                                 (SideBySide._originalOutputCollection vd)))
                        (sumN (heights
                                 (SideBySide._modifiedOutputCollection vd))))
                     (SideBySide.base vd)).
    { unfold vd'. rewrite side_layoutChange_base.
      unfold PrefixSumComputer.getTotalValue. by rewrite Ho, Hm. }
    destruct (relaidOut_fields
                (N.max
                   (sumN (heights (SideBySide._originalOutputCollection vd)))
                   (sumN (heights (SideBySide._modifiedOutputCollection vd))))
                (SideBySide.base vd)) as (Hf & Hfo & _).
    rewrite <- Hb in Hf, Hfo. fold xd in Hf.
    split; [exact Hf|]. split; [exact Hfo|]. split.
    + unfold totalHeight, get_outputHeight.
      unfold fieldsOf in Hf. simpl in Hf. simplify_eq. lia.
    + rewrite side_layoutChange_base.
      pose proof (side_perform_collection true SideBySide.LayoutChange vd)
        as Hco.
      pose proof (side_perform_collection false SideBySide.LayoutChange vd)
        as Hcm.
      pose proof (side_perform_top true SideBySide.LayoutChange vd) as Hto.
      pose proof (side_perform_top false SideBySide.LayoutChange vd) as Htm.
      simpl in Hco, Hcm, Hto, Htm. fold vd' in Hco, Hcm, Hto, Htm.
      rewrite Hco, Hcm, Hto, Htm. simpl.
      unfold PrefixSumComputer.getTotalValue at 1 2. rewrite Ho, Hm, Hb.
      by destruct (SideBySide.base vd) as [mf [] em l].
Qed.

(** X15, at concrete view models with expanded outputs. *)
Lemma layoutChange_recomputes_output_height_witness :
  let doc := mkNotebook (mkTransientOptions false []) in
  let vs := SingleSide.performAll
              [SingleSide.UpdateOutputHeight 0 4;
               SingleSide.UpdateOutputHeight 1 9;
               SingleSide.Inherited (SetOutputFoldingState Expanded)]
              (SingleSide.mk newBase doc None
                 (Some (mkCell [JNull; JNull] None "python")) Insert
                 [None; None] None) in
  let vd := SideBySide.performAll
              [SideBySide.UpdateOutputHeight true 1 6;
               SideBySide.Inherited (SetOutputFoldingState Expanded)]
              (SideBySide.new (H := exampleHost) doc
                 (mkCell [JNull; JNull] None "python")
                 (mkCell [JNull] None "python") Modified) in
  totalHeight (SingleSide.base (after SingleSide.layoutChange vs))
  + get_outputHeight (SingleSide.base vs)
  = totalHeight (SingleSide.base vs) + 13
  ∧ totalHeight (SideBySide.base (after SideBySide.layoutChange vd))
    + get_outputHeight (SideBySide.base vd)
    = totalHeight (SideBySide.base vd) + 6.
Proof.
  intros doc vs vd.
  destruct (layoutChange_recomputes_output_height (H := exampleHost) vs vd)
    as ((_ & _ & Hs & _) & (_ & _ & Hd & _)).
  - eexists doc, None, (Some (mkCell [JNull; JNull] None "python")), Insert,
      _, _. split; reflexivity.
  - eexists doc, (mkCell [JNull; JNull] None "python"),
      (mkCell [JNull] None "python"), Modified, _. reflexivity.
  - split; [exact Hs | exact Hd].
Defined.

(** ** Construction and the change checks *)

Lemma side_checks_read_cells `{Host} (v w : SideBySide.t) :
  SideBySide.documentTextModel v = SideBySide.documentTextModel w →
  SideBySide.original v = SideBySide.original w →
  SideBySide.modified v = SideBySide.modified w →
  SideBySide.type v = SideBySide.type w →
  SideBySide.checkMetadataIfModified v = SideBySide.checkMetadataIfModified w
  ∧ SideBySide.checkIfOutputsModified v = SideBySide.checkIfOutputsModified w.
Proof.
  intros Hd Ho Hm Ht.
  unfold SideBySide.checkMetadataIfModified, SideBySide.checkIfOutputsModified.
  by rewrite Hd, Ho, Hm, Ht.
Qed.

Lemma side_new_folding `{Host} doc o m ty :
  let v0 := SideBySide.mk newBase doc o m ty [] None [] None in
  metadataFoldingState (SideBySide.base (SideBySide.new doc o m ty))
  = (if SideBySide.checkMetadataIfModified v0 then Expanded else Collapsed)
  ∧ outputFoldingState (SideBySide.base (SideBySide.new doc o m ty))
    = (if SideBySide.checkIfOutputsModified v0 then Expanded else Collapsed).
Proof.
  unfold SideBySide.new. cbv zeta.
  set (v0 := SideBySide.mk newBase doc o m ty [] None [] None).
  change (SideBySide.checkMetadataIfModified
            (SideBySide.with_base
               (SideBySide.with_foldingStates Collapsed Collapsed
                  (SideBySide.base v0)) v0))
    with (SideBySide.checkMetadataIfModified v0).
  destruct (SideBySide.checkMetadataIfModified v0); cbv iota.
  - change (SideBySide.checkIfOutputsModified
              (SideBySide.with_base
                 (SideBySide.with_foldingStates Expanded
                    (outputFoldingState
                       (SideBySide.base
                          (SideBySide.with_base
                             (SideBySide.with_foldingStates Collapsed Collapsed
                                (SideBySide.base v0)) v0)))
                    (SideBySide.base
                       (SideBySide.with_base
                          (SideBySide.with_foldingStates Collapsed Collapsed
                             (SideBySide.base v0)) v0)))
                 (SideBySide.with_base
                    (SideBySide.with_foldingStates Collapsed Collapsed
                       (SideBySide.base v0)) v0)))
      with (SideBySide.checkIfOutputsModified v0).
    destruct (SideBySide.checkIfOutputsModified v0); split; reflexivity.
  - change (SideBySide.checkIfOutputsModified
              (SideBySide.with_base
                 (SideBySide.with_foldingStates Collapsed Collapsed
                    (SideBySide.base v0)) v0))
      with (SideBySide.checkIfOutputsModified v0).
    destruct (SideBySide.checkIfOutputsModified v0); split; reflexivity.
Qed.

(** X19: a side-by-side view model is constructed with its metadata region
    expanded exactly when [checkMetadataIfModified] answers true on it and
    its output region expanded exactly when [checkIfOutputsModified] does;
    with the initial layout record, no event fired, both trackers absent and
    both collections unset.  Constructed over a cell and a copy of it, it has
    both regions collapsed, whatever the host's hash. *)
Theorem side_by_side_starts_folded_by_the_checks `{Host}
    (doc : NotebookTextModel) (o m : NotebookCellTextModel) (ty : DiffType) :
  let v := SideBySide.new doc o m ty in
  (metadataFoldingState (SideBySide.base v) = Expanded
   ↔ SideBySide.checkMetadataIfModified v = true)
  ∧ (outputFoldingState (SideBySide.base v) = Expanded
     ↔ SideBySide.checkIfOutputsModified v = true)
  ∧ _layoutInfo (SideBySide.base v) = initialLayoutInfo
  ∧ _layoutInfoEmitter (SideBySide.base v) = []
  ∧ SideBySide._originalOutputsTop v = None
  ∧ SideBySide._modifiedOutputsTop v = None
  ∧ SideBySide._originalOutputCollection v
    = replicate (length (outputs o)) None
  ∧ SideBySide._modifiedOutputCollection v
    = replicate (length (outputs m)) None
  ∧ (o = m →
     metadataFoldingState (SideBySide.base v) = Collapsed
     ∧ outputFoldingState (SideBySide.base v) = Collapsed).
Proof.
  intros v.
  set (v0 := SideBySide.mk newBase doc o m ty [] None [] None).
  destruct (side_new_readonly doc o m ty) as (Hd & Ho & Hm & Ht).
  fold v in Hd, Ho, Hm, Ht.
  destruct (side_checks_read_cells v v0) as [Hcm Hco]; try done.
  destruct (side_new_folding doc o m ty) as [Hmf Hof].
  fold v v0 in Hmf, Hof.
  rewrite Hcm, Hco, Hmf, Hof.
  split; [by destruct (SideBySide.checkMetadataIfModified v0)|].
  split; [by destruct (SideBySide.checkIfOutputsModified v0)|].
  split; [apply side_new_layout|]. split; [apply side_new_layout|].
  split; [unfold v, SideBySide.new; by repeat case_match|].
  split; [unfold v, SideBySide.new; by repeat case_match|].
  split; [apply (side_new_collection true)|].
  split; [apply (side_new_collection false)|].
  intros ->.
  unfold SideBySide.checkMetadataIfModified,
    SideBySide.checkIfOutputsModified. simpl.
  by rewrite !Z.eqb_refl, andb_false_r.
Qed.

(** X19, at a cell against a copy of itself. *)
Lemma side_by_side_starts_folded_by_the_checks_witness :
  let doc := mkNotebook (mkTransientOptions false []) in
  let cell := mkCell [JNull; JString "out"]
                (Some [("editable"%string, JBool true)]) "python" in
  let v := SideBySide.new (H := exampleHost) doc cell cell Modified in
  metadataFoldingState (SideBySide.base v) = Collapsed
  ∧ outputFoldingState (SideBySide.base v) = Collapsed.
Proof.
  intros doc cell v.
  destruct (side_by_side_starts_folded_by_the_checks (H := exampleHost)
              doc cell cell Modified) as (_ & _ & _ & _ & _ & _ & _ & _ & Hc).
  by apply Hc.
Defined.

(** X20: the change checks of a side-by-side view model read the document
    and the two cells only, so no call changes their answers;
    [checkIfOutputsModified] answers false whenever the document's outputs
    are transient, or the type is not 'modified', or the two cells have the
    same outputs, whatever the host's hash. *)
Theorem change_checks_are_fixed `{Host}
    (v : SideBySide.t) (c : SideBySide.call) :
  SideBySide.checkMetadataIfModified (SideBySide.perform c v)
  = SideBySide.checkMetadataIfModified v
  ∧ SideBySide.checkIfOutputsModified (SideBySide.perform c v)
    = SideBySide.checkIfOutputsModified v
  ∧ (transientOutputs (transientOptions (SideBySide.documentTextModel v))
     = true
     ∨ SideBySide.type v ≠ Modified
     ∨ outputs (SideBySide.original v) = outputs (SideBySide.modified v) →
     SideBySide.checkIfOutputsModified v = false).
Proof.
  destruct (side_perform_readonly c v) as (Hd & Ho & Hm & Ht & _).
  destruct (side_checks_read_cells (SideBySide.perform c v) v Hd Ho Hm Ht)
    as [HM HO].
  split; [exact HM|]. split; [exact HO|].
  unfold SideBySide.checkIfOutputsModified. intros [Htr|[Hty|Hout]].
  - by rewrite Htr.
  - destruct (SideBySide.type v); try done; by rewrite andb_false_r.
  - by rewrite Hout, Z.eqb_refl, andb_false_r.
Qed.

(** X20, at a view model of type 'unchanged' whose cells differ in their
    outputs. *)
Lemma change_checks_are_fixed_witness :
  let doc := mkNotebook (mkTransientOptions false []) in
  let v := SideBySide.new (H := exampleHost) doc
             (mkCell [JNull; JNull] None "python")
             (mkCell [JNull] None "python") Unchanged in
  SideBySide.checkIfOutputsModified (H := exampleHost) v = false.
Proof.
  intros doc v.
  destruct (change_checks_are_fixed (H := exampleHost) v
              SideBySide.GetOutputTotalHeight) as (_ & _ & Hf).
  apply Hf. right. left. discriminate.
Defined.

(** X21: the constructor of the single-side view model completes by a
    [TypeError] exactly when neither cell is given, whatever the type.
    Otherwise it gives a view model with both regions collapsed, the initial
    layout record, no event fired, no tracker, and a collection of entries
    never set: one per output of the original cell when there is one, also
    for an entry of type 'insert' whose [cellTextModel] is the modified cell,
    and one per output of the modified cell only when there is no original
    one. *)
Theorem single_side_construction
    (doc : NotebookTextModel) (o m : option NotebookCellTextModel)
    (ty : DiffType) :
  (SingleSide.new doc o m ty = Throw TypeError ↔ o = None ∧ m = None)
  ∧ ∀ v, SingleSide.new doc o m ty = Normal v →
         SingleSide.base v = newBase
         ∧ metadataFoldingState (SingleSide.base v) = Collapsed
         ∧ outputFoldingState (SingleSide.base v) = Collapsed
         ∧ SingleSide._outputsTop v = None
         ∧ SingleSide._outputCollection v
           = replicate
               (match o, m with
                | Some cell, _ => length (outputs cell)
                | None, Some cell => length (outputs cell)
                | None, None => 0%nat
                end) None
         ∧ SingleSide.cellTextModel v
           = match ty with Insert => m | _ => o end.
Proof.
  unfold SingleSide.new. split.
  - destruct o, m; split; try done; by intros [? ?].
  - intros v Hv. destruct o, m; simplify_eq/=; by destruct ty.
Qed.

(** X21, at the construction of an entry of type 'insert' given both
    cells. *)
Lemma single_side_construction_witness :
  let doc := mkNotebook (mkTransientOptions false []) in
  let o := mkCell [JNull; JNull; JNull] None "python" in
  let m := mkCell [JNull] None "python" in
  let v := SingleSide.mk newBase doc (Some o) (Some m) Insert
             [None; None; None] None in
  SingleSide.new doc (Some o) (Some m) Insert = Normal v
  ∧ length (SingleSide._outputCollection v) = 3%nat
  ∧ SingleSide.cellTextModel v = Some m.
Proof.
  intros doc o m v.
  destruct (single_side_construction doc (Some o) (Some m) Insert)
    as [_ Hn].
  destruct (Hn v eq_refl) as (_ & _ & _ & _ & Hc & Ht).
  split; [reflexivity|]. split; [by rewrite Hc|exact Ht].
Defined.

(** ** Totals and the layout record after updates *)

Lemma take_all_heightsAfter (cs : list SingleSide.call) (n : nat) :
  heightsAfter cs (replicate n 0) = (λ j, lastSet cs j 0) <$> seq 0 n.
Proof.
  rewrite <- (take_heightsAfter cs n n) by lia.
  rewrite take_ge; [done|].
  by rewrite heightsAfter_length, length_replicate.
Qed.

Lemma take_all_heightsAfterOn (side : bool) (cs : list SideBySide.call)
    (n : nat) :
  heightsAfterOn side cs (replicate n 0)
  = (λ j, lastSetOn side cs j 0) <$> seq 0 n.
Proof.
  rewrite <- (take_heightsAfterOn side cs n n) by lia.
  rewrite take_ge; [done|].
  by rewrite heightsAfterOn_length, length_replicate.
Qed.

(** X22: after construction and any calls [cs], [getOutputTotalHeight()] of
    a single-side view model is the sum, over all the outputs of its cell,
    of the height most recently set for each (0 for one never set); of a
    side-by-side view model it is the larger of the two such sums, each side
    counting only what was set on it. *)
Theorem total_is_sum_of_latest_heights `{Host}
    (doc : NotebookTextModel) (so sm : option NotebookCellTextModel)
    (o m : NotebookCellTextModel) (ty : DiffType) (v0 : SingleSide.t)
    (cs : list SingleSide.call) (cd : list SideBySide.call) :
  SingleSide.new doc so sm ty = Normal v0 →
  result SingleSide.getOutputTotalHeight (SingleSide.performAll cs v0)
  = Normal (sumN ((λ j, lastSet cs j 0)
                  <$> seq 0 (length (SingleSide._outputCollection v0))))
  ∧ result SideBySide.getOutputTotalHeight
      (SideBySide.performAll cd (SideBySide.new doc o m ty))
    = Normal (N.max
        (sumN ((λ j, lastSetOn true cd j 0) <$> seq 0 (length (outputs o))))
        (sumN ((λ j, lastSetOn false cd j 0)
               <$> seq 0 (length (outputs m))))).
Proof.
  intros Hnew. split.
  - destruct (single_new_synced _ _ _ _ _ Hnew) as [Hs0 Hh0].
    rewrite single_total_reachable
      by (by exists doc, so, sm, ty, v0, cs).
    by rewrite single_performAll_heights, Hh0, take_all_heightsAfter.
  - rewrite side_total_reachable by (by exists doc, o, m, ty, cd).
    pose proof (side_performAll_heights true cd (SideBySide.new doc o m ty))
      as Ho.
    pose proof (side_performAll_heights false cd (SideBySide.new doc o m ty))
      as Hm.
    rewrite side_new_collection in Ho, Hm.
    unfold heights at 2 in Ho. unfold heights at 2 in Hm.
    rewrite fmap_replicate in Ho, Hm. simpl in Ho, Hm.
    by rewrite Ho, Hm, !take_all_heightsAfterOn.
Qed.

(** X22, at concrete view models. *)
Lemma total_is_sum_of_latest_heights_witness :
  let doc := mkNotebook (mkTransientOptions false []) in
  let cell := mkCell [JNull; JNull] None "python" in
  let v0 := SingleSide.mk newBase doc (Some cell) None Delete
              [None; None] None in
  result SingleSide.getOutputTotalHeight
    (SingleSide.performAll
       [SingleSide.UpdateOutputHeight 0 5;
        SingleSide.UpdateOutputHeight 1 7;
        SingleSide.UpdateOutputHeight 0 2] v0)
  = Normal 9.
Proof.
  intros doc cell v0.
  apply (total_is_sum_of_latest_heights (H := exampleHost) doc (Some cell)
           None cell cell Delete v0
           [SingleSide.UpdateOutputHeight 0 5;
            SingleSide.UpdateOutputHeight 1 7;
            SingleSide.UpdateOutputHeight 0 2] []).
  reflexivity.
Defined.

(** X23: on a single-side view model in a state a client can bring it to,
    an [updateOutputHeight] that changes a height leaves in the layout
    record, as outputHeight, 0 while the outputs are collapsed and the new
    sum of the heights while they are expanded, whatever a setter had put
    there before; one that does not change a height leaves outputHeight as
    it was. *)
Theorem update_sets_layout_output_height
    (v : SingleSide.t) (i : nat) (h : N) :
  SingleSide.reachable v →
  (i < length (SingleSide._outputCollection v))%nat →
  let v' := after (SingleSide.updateOutputHeight i h) v in
  get_outputHeight (SingleSide.base v')
  = if h =? heightOf (SingleSide._outputCollection v !!! i)
    then get_outputHeight (SingleSide.base v)
    else match outputFoldingState (SingleSide.base v) with
         | Collapsed => 0
         | Expanded => sumN (heights (SingleSide._outputCollection v'))
         end.
Proof.
  intros Hv Hi v'. unfold v'. rewrite single_update_explicit by done.
  simpl. rewrite heights_insert.
  destruct (h =? heightOf (SingleSide._outputCollection v !!! i)); [done|].
  by destruct (SingleSide.base v) as [mf [] em l].
Qed.

(** X23, at a concrete view model whose outputHeight a setter had put to 50
    while the outputs are collapsed. *)
Lemma update_sets_layout_output_height_witness :
  let doc := mkNotebook (mkTransientOptions false []) in
  let v := SingleSide.performAll [SingleSide.Inherited (SetOutputHeight 50)]
             (SingleSide.mk newBase doc None
                (Some (mkCell [JNull; JNull] None "python")) Insert
                [None; None] None) in
  get_outputHeight (SingleSide.base v) = 50
  ∧ get_outputHeight
      (SingleSide.base (after (SingleSide.updateOutputHeight 1 7) v)) = 0.
Proof.
  intros doc v. split; [reflexivity|].
  apply (update_sets_layout_output_height v 1 7).
  - eexists doc, None, (Some (mkCell [JNull; JNull] None "python")), Insert,
      _, _. split; reflexivity.
  - vm_compute. lia.
Defined.

(** ** The metadata filter as a filter *)

Lemma comesBefore_name (key k : string) :
  isArrayIndex key = false → comesBefore key k = false.
Proof. unfold comesBefore, isArrayIndex. by destruct (arrayIndex key). Qed.

Lemma comesBefore_index_name (key k : string) :
  isArrayIndex key = true → isArrayIndex k = false → comesBefore key k = true.
Proof.
  unfold comesBefore, isArrayIndex.
  by destruct (arrayIndex key), (arrayIndex k).
Qed.

Lemma prop_set_last {A} (key : string) (x : A) (o : list (string * A)) :
  Forall (λ e, e.1 ≠ key ∧ comesBefore key e.1 = false) o →
  prop_set key x o = o ++ [(key, x)].
Proof.
  induction 1 as [|[k y] o [Hne Hcb] _ IH]; [done|]. simpl in *.
  destruct (String.eqb_spec k key) as [?|_]; [done|].
  by rewrite Hcb, IH.
Qed.

Lemma prop_set_before {A} (key : string) (x : A)
    (pre : list (string * A)) (k : string) (y : A)
    (post : list (string * A)) :
  Forall (λ e, e.1 ≠ key ∧ comesBefore key e.1 = false) pre →
  k ≠ key →
  comesBefore key k = true →
  prop_set key x (pre ++ (k, y) :: post) = pre ++ (key, x) :: (k, y) :: post.
Proof.
  intros Hpre Hne Hcb.
  induction Hpre as [|[k' y'] pre [Hne' Hcb'] _ IH]; simpl in *.
  - destruct (String.eqb_spec k key) as [?|_]; [done|]. by rewrite Hcb.
  - destruct (String.eqb_spec k' key) as [?|_]; [done|].
    by rewrite Hcb', IH.
Qed.

Lemma orderedKeys_NoDup (keys : list string) : orderedKeys keys → NoDup keys.
Proof.
  induction keys as [|k r IH]; intros Ho; [apply NoDup_nil_2|].
  destruct Ho as [Hf Ho]. apply NoDup_cons. split; [|by apply IH].
  intros Hin. rewrite Forall_forall in Hf. by destruct (Hf k Hin) as [? _].
Qed.

Lemma Forall_List_filter {A} (P : A → Prop) (f : A → bool) (l : list A) :
  Forall P l → Forall P (List.filter f l).
Proof.
  rewrite !Forall_forall. intros HP x Hin. apply HP.
  apply list_elem_of_In, filter_In in Hin as [Hin _].
  by apply list_elem_of_In.
Qed.

Lemma NoDup_List_filter {A} (f : A → bool) (l : list A) :
  NoDup l → NoDup (List.filter f l).
Proof.
  induction 1 as [|a l Ha _ IH]; [apply NoDup_nil_2|]. simpl.
  destruct (f a); [|done]. apply NoDup_cons. split; [|done].
  intros Hin. apply list_elem_of_In, filter_In in Hin as [Hin _].
  by apply list_elem_of_In in Hin.
Qed.

Lemma orderedKeys_filter (f : string → bool) (keys : list string) :
  orderedKeys keys → orderedKeys (List.filter f keys).
Proof.
  induction keys as [|k r IH]; intros Ho; [done|].
  destruct Ho as [Hf Ho]. simpl. destruct (f k); [|by apply IH].
  split; [by apply Forall_List_filter|by apply IH].
Qed.

Lemma keys_filter {A} (f : string → bool) (o : list (string * A)) :
  Object_keys (List.filter (λ e, f e.1) o) = List.filter f (Object_keys o).
Proof.
  unfold Object_keys. induction o as [|[k y] o IH]; [done|]. simpl.
  destruct (f k); simpl; [f_equal|]; exact IH.
Qed.

Lemma newSet_from_NoDup (items seen : list string) :
  NoDup (seen ++ items) →
  foldl (λ seen k, if bool_decide (k ∈ seen) then seen else seen ++ [k])
        seen items
  = seen ++ items.
Proof.
  revert seen. induction items as [|a items IH]; intros seen Hnd; simpl.
  - by rewrite app_nil_r.
  - assert (Ha : a ∉ seen).
    { apply NoDup_app in Hnd as (_ & Hd & _). intros Hin.
      apply (Hd a Hin), list_elem_of_here. }
    rewrite bool_decide_eq_false_2 by done.
    rewrite IH; [by rewrite <- app_assoc|].
    by rewrite <- app_assoc.
Qed.

Lemma newSet_NoDup (items : list string) : NoDup items → newSet items = items.
Proof. intros Hnd. unfold newSet. by rewrite newSet_from_NoDup. Qed.

(** The loop over keys in enumeration order, from an object whose keys all
    precede them: every kept field goes to the end. *)
Lemma filter_loop_appends (tm : list (string * bool)) (cellMetadata : JSProps)
    (keys : list string) (acc : JSProps) :
  Forall (λ e, Forall (λ k, e.1 ≠ k ∧ comesBefore k e.1 = false) keys) acc →
  orderedKeys keys →
  foldl (λ filteredMetadata key,
           if negb (isTransient tm key)
           then prop_assign key
                  (default JUndefined (prop_get key cellMetadata))
                  filteredMetadata
           else filteredMetadata) acc keys
  = acc ++ List.map (λ k, (k, default JUndefined (prop_get k cellMetadata)))
             (List.filter (keptKey tm) keys).
Proof.
  revert acc. induction keys as [|a keys IH]; intros acc Hacc Ho; simpl.
  - by rewrite app_nil_r.
  - destruct Ho as [Ha Ho].
    assert (Hrest : Forall (λ e, Forall (λ k, e.1 ≠ k
                                         ∧ comesBefore k e.1 = false) keys)
                      acc).
    { eapply Forall_impl; [exact Hacc|]. intros e He.
      by apply Forall_cons in He as [_ ?]. }
    unfold keptKey, prop_assign.
    destruct (isTransient tm a); simpl; [by apply IH|].
    destruct (String.eqb a "__proto__"); simpl; [by apply IH|].
    rewrite prop_set_last.
    + rewrite IH; [by rewrite <- app_assoc| |done].
      apply Forall_app. split; [done|]. apply Forall_singleton. simpl.
      eapply Forall_impl; [exact Ha|]. intros k [Hne Hcb].
      split; [congruence|done].
    + eapply Forall_impl; [exact Hacc|]. intros e He.
      by apply Forall_cons in He as [? _].
Qed.

Lemma prop_get_own (o : JSProps) :
  NoDup (Object_keys o) →
  List.map (λ k, (k, default JUndefined (prop_get k o))) (Object_keys o) = o.
Proof.
  unfold Object_keys. induction o as [|[a x] o IH]; intros Hnd; [done|].
  rewrite fmap_cons in Hnd. apply NoDup_cons in Hnd as [Hni Hnd]. simpl in *.
  rewrite String.eqb_refl. simpl. f_equal.
  rewrite <- (IH Hnd) at 2. apply map_ext_in. intros k Hin.
  apply list_elem_of_In in Hin.
  destruct (String.eqb_spec a k) as [->|_]; [done|reflexivity].
Qed.

Lemma filter_keys_fields (tm : list (string * bool)) (o : JSProps) :
  List.map (λ k, (k, default JUndefined (prop_get k o)))
    (List.filter (keptKey tm) (Object_keys o))
  = List.filter (λ kv, keptKey tm kv.1)
      (List.map (λ k, (k, default JUndefined (prop_get k o))) (Object_keys o)).
Proof.
  generalize (Object_keys o). intros ks.
  induction ks as [|a ks IH]; [done|]. simpl.
  destruct (keptKey tm a); simpl; by rewrite IH.
Qed.

Ltac ordered_keys :=
  unfold wellFormed, Object_keys; cbn -[comesBefore];
  repeat first [ discriminate | reflexivity | split
               | apply Forall_nil_2 | apply Forall_cons_2 ].

Lemma filterMetadata_as_filter
    (tm : list (string * bool)) (cellMetadata : JSProps) :
  wellFormed cellMetadata →
  filterMetadata tm cellMetadata = keptFields tm cellMetadata.
Proof.
  intros Hwf. unfold filterMetadata, keptFields.
  pose proof (orderedKeys_NoDup _ Hwf) as Hnd.
  rewrite newSet_NoDup by done.
  rewrite filter_loop_appends; [|apply Forall_nil_2|done]. simpl.
  by rewrite filter_keys_fields, prop_get_own.
Qed.

Lemma keptFields_wellFormed
    (tm : list (string * bool)) (cellMetadata : JSProps) :
  wellFormed cellMetadata → wellFormed (keptFields tm cellMetadata).
Proof.
  unfold wellFormed, keptFields. intros Hwf.
  rewrite (keys_filter (keptKey tm)). by apply orderedKeys_filter.
Qed.

(** X16: on a metadata object, its keys distinct and in the order of
    enumeration, the loop of [getFormatedMetadataJSON] is a filter.  The
    filtered object consists of the fields that the loop keeps, with their
    values and in their order, and of nothing else; a field is kept when the
    lookup of its name in the policy is not true, names of members of
    [Object.prototype] that the policy does not define reading as true, and
    when its name is not [__proto__]. *)
Theorem filterMetadata_keeps_the_untransient_fields
    (tm : list (string * bool)) (cellMetadata : JSProps) :
  wellFormed cellMetadata →
  filterMetadata tm cellMetadata = keptFields tm cellMetadata.
Proof. apply filterMetadata_as_filter. Qed.

(** X16, at a concrete metadata object with an array index, a field marked
    transient and a field named as a member of [Object.prototype]. *)
Lemma filterMetadata_keeps_the_untransient_fields_witness :
  filterMetadata [("custom"%string, true); ("editable"%string, false)]
    [("7"%string, JNull); ("editable"%string, JBool true);
     ("custom"%string, JNull); ("toString"%string, JNumber 1);
     ("runState"%string, JNumber 2)]
  = [("7"%string, JNull); ("editable"%string, JBool true);
     ("runState"%string, JNumber 2)].
Proof.
  apply (filterMetadata_keeps_the_untransient_fields
           [("custom"%string, true); ("editable"%string, false)]
           [("7"%string, JNull); ("editable"%string, JBool true);
            ("custom"%string, JNull); ("toString"%string, JNumber 1);
            ("runState"%string, JNumber 2)]).
  ordered_keys.
Defined.

(** X17: fields that the loop leaves out do not take part in the detection
    of metadata changes.  When the metadata objects of the original and of
    the modified cell, each with its keys distinct and in the order of
    enumeration, have the same kept fields, and the two cells have the same
    language, the two snapshots are the same text and
    [checkMetadataIfModified] answers false, whatever the host's serializer,
    formatter and hash; so it does for a cell compared with a copy of
    itself. *)
Theorem transient_fields_do_not_count `{Host} (v : SideBySide.t) :
  let tm := transientMetadata
              (transientOptions (SideBySide.documentTextModel v)) in
  let mo := default [] (metadata (SideBySide.original v)) in
  let mm := default [] (metadata (SideBySide.modified v)) in
  wellFormed mo →
  wellFormed mm →
  keptFields tm mo = keptFields tm mm →
  language (SideBySide.original v) = language (SideBySide.modified v) →
  getFormatedMetadataJSON (Some (SideBySide.documentTextModel v)) mo
    (Some (language (SideBySide.original v)))
  = getFormatedMetadataJSON (Some (SideBySide.documentTextModel v)) mm
      (Some (language (SideBySide.modified v)))
  ∧ SideBySide.checkMetadataIfModified v = false.
Proof.
  intros tm mo mm Hno Hnm Hk Hl.
  assert (Hsame : getFormatedMetadataJSON
                    (Some (SideBySide.documentTextModel v)) mo
                    (Some (language (SideBySide.original v)))
                  = getFormatedMetadataJSON
                      (Some (SideBySide.documentTextModel v)) mm
                      (Some (language (SideBySide.modified v)))).
  { unfold getFormatedMetadataJSON. fold tm.
    rewrite !filterMetadata_as_filter by done.
    by rewrite Hk, Hl. }
  split; [exact Hsame|].
  unfold SideBySide.checkMetadataIfModified. fold mo mm.
  rewrite Hsame. by rewrite Z.eqb_refl.
Qed.

(** X17, at two cells that differ in a field marked transient and in a field
    named as a member of [Object.prototype]. *)
Lemma transient_fields_do_not_count_witness :
  let doc := mkNotebook (mkTransientOptions false [("runState"%string, true)]) in
  let mo := [("editable"%string, JBool true); ("runState"%string, JNumber 1)] in
  let mm := [("editable"%string, JBool true); ("runState"%string, JNumber 2);
             ("valueOf"%string, JNull)] in
  let o := mkCell [] (Some mo) "python" in
  let m := mkCell [] (Some mm) "python" in
  SideBySide.checkMetadataIfModified (H := exampleHost)
    (SideBySide.new (H := exampleHost) doc o m Modified) = false.
Proof.
  intros doc mo mm o m.
  apply (transient_fields_do_not_count (H := exampleHost)
           (SideBySide.new (H := exampleHost) doc o m Modified)).
  - change (wellFormed mo). subst mo. ordered_keys.
  - change (wellFormed mm). subst mm. ordered_keys.
  - reflexivity.
  - reflexivity.
Defined.

Lemma keys_prop_set_old_name {A} (key : string) (x : A)
    (o : list (string * A)) :
  isArrayIndex key = false →
  key ∈ Object_keys o → Object_keys (prop_set key x o) = Object_keys o.
Proof.
  intros Hname. unfold Object_keys.
  induction o as [|[k' y] o IH]; intros Hin.
  - by apply elem_of_nil in Hin.
  - simpl. destruct (String.eqb_spec k' key) as [->|Hne]; [done|].
    rewrite comesBefore_name by done.
    simpl. f_equal. apply IH.
    apply elem_of_cons in Hin as [Heq|Hin]; [|done]. simpl in Heq. by subst.
Qed.

Lemma keys_prop_set_new_name {A} (key : string) (x : A)
    (o : list (string * A)) :
  isArrayIndex key = false →
  key ∉ Object_keys o →
  Object_keys (prop_set key x o) = Object_keys o ++ [key].
Proof.
  intros Hname. unfold Object_keys.
  induction o as [|[k' y] o IH]; intros Hni; [done|].
  simpl. apply not_elem_of_cons in Hni as [Hne Hni]. simpl in Hne.
  destruct (String.eqb_spec k' key) as [->|_]; [done|].
  rewrite comesBefore_name by done.
  simpl. f_equal. by apply IH.
Qed.

(** Spreading fields whose keys are array indices into an object that has,
    after smaller indices, a key that is none: they go before that key. *)
Lemma spread_indices (fields pre : JSProps) (k : string) (y : JSValue)
    (post : JSProps) :
  Forall (λ f, isArrayIndex f.1 = true) fields →
  isArrayIndex k = false →
  orderedKeys (Object_keys fields) →
  Forall (λ e, Forall (λ f, e.1 ≠ f.1 ∧ comesBefore f.1 e.1 = false) fields)
    pre →
  foldl (λ o kv, prop_set kv.1 kv.2 o) (pre ++ (k, y) :: post) fields
  = pre ++ fields ++ (k, y) :: post.
Proof.
  intros Hidx Hk. revert pre.
  induction Hidx as [|[a x] fields Ha _ IH]; intros pre Ho Hpre; [done|].
  simpl in *. destruct Ho as [Hf Ho].
  rewrite prop_set_before.
  - replace (pre ++ (a, x) :: (k, y) :: post)
      with ((pre ++ [(a, x)]) ++ (k, y) :: post)
      by (by rewrite <- app_assoc).
    rewrite IH; [by rewrite <- app_assoc|done|].
    apply Forall_app. split.
    + eapply Forall_impl; [exact Hpre|]. intros e He.
      by apply Forall_cons in He as [_ ?].
    + apply Forall_singleton. simpl. unfold Object_keys in Hf.
      apply Forall_fmap in Hf. eapply Forall_impl; [exact Hf|].
      intros f [Hne Hcb]. simpl in *. split; [congruence|done].
  - eapply Forall_impl; [exact Hpre|]. intros e He.
    by apply Forall_cons in He as [? _].
  - intros ->. congruence.
  - by apply comesBefore_index_name.
Qed.

(** Spreading fields whose keys are no array indices: a key that the object
    has keeps its place, a new one goes to the end. *)
Lemma spread_names (fields acc : JSProps) :
  Forall (λ f, isArrayIndex f.1 = false) fields →
  NoDup (Object_keys fields) →
  Object_keys (foldl (λ o kv, prop_set kv.1 kv.2 o) acc fields)
  = Object_keys acc
    ++ List.filter (λ k, negb (bool_decide (k ∈ Object_keys acc)))
         (Object_keys fields).
Proof.
  intros Hname. revert acc.
  induction Hname as [|[a y] fields Ha _ IH]; intros acc Hnd.
  - simpl. by rewrite app_nil_r.
  - unfold Object_keys in Hnd. rewrite fmap_cons in Hnd.
    apply NoDup_cons in Hnd as [Hni Hnd]. simpl in Hni, Ha.
    simpl. rewrite (IH _ Hnd).
    destruct (bool_decide_reflect (a ∈ Object_keys acc)) as [Hin|Hno]; simpl.
    + by rewrite keys_prop_set_old_name.
    + rewrite keys_prop_set_new_name by done. rewrite <- app_assoc. simpl.
      do 2 f_equal. apply filter_ext_in. intros k Hk.
      apply list_elem_of_In in Hk. f_equal.
      apply bool_decide_ext. rewrite elem_of_app, list_elem_of_singleton.
      split; [|by left]. intros [?| ->]; [done|]. by destruct Hni.
Qed.

Lemma names_after_name (k : string) (r : list string) :
  isArrayIndex k = false →
  Forall (λ k', k' ≠ k ∧ comesBefore k' k = false) r →
  Forall (λ k', isArrayIndex k' = false) r.
Proof.
  intros Hk Hf. eapply Forall_impl; [exact Hf|]. intros k' [_ Hcb].
  destruct (isArrayIndex k') eqn:Hk'; [|done].
  by rewrite comesBefore_index_name in Hcb.
Qed.

Lemma filter_names {A} (o : list (string * A)) :
  Forall (λ k', isArrayIndex k' = false) (Object_keys o) →
  List.filter (λ e, isArrayIndex e.1) o = []
  ∧ List.filter (λ e, negb (isArrayIndex e.1)) o = o.
Proof.
  unfold Object_keys. induction o as [|[k y] o IH]; intros Hf; [done|].
  rewrite fmap_cons in Hf. apply Forall_cons in Hf as [Hk Hf]. simpl in *.
  rewrite Hk. simpl. destruct (IH Hf) as [-> ->]. done.
Qed.

(** An object has its array indices first. *)
Lemma wellFormed_split {A} (o : list (string * A)) :
  wellFormed o →
  o = List.filter (λ e, isArrayIndex e.1) o
      ++ List.filter (λ e, negb (isArrayIndex e.1)) o.
Proof.
  unfold wellFormed, Object_keys. induction o as [|[k y] o IH]; [done|].
  rewrite fmap_cons. intros [Hf Ho]. simpl.
  destruct (isArrayIndex k) eqn:Hk; simpl.
  - f_equal. by apply IH.
  - destruct (filter_names o (names_after_name _ _ Hk Hf)) as [-> ->]. done.
Qed.

Lemma filter_filter_names (f : string → bool) (keys : list string) :
  (∀ k, isArrayIndex k = false → f k = negb (String.eqb k "language")) →
  List.filter f (List.filter (λ k, negb (isArrayIndex k)) keys)
  = List.filter (λ k, negb (isArrayIndex k)
                      && negb (String.eqb k "language")) keys.
Proof.
  intros Hf. induction keys as [|k r IH]; [done|]. simpl.
  destruct (isArrayIndex k) eqn:Hk; simpl; [done|].
  rewrite (Hf k Hk). destruct (negb (k =? "language")%string); by rewrite IH.
Qed.

Lemma snapshot_keys (tag : option string) (fields : JSProps) :
  wellFormed fields →
  Object_keys (snapshotObject tag fields)
  = List.filter isArrayIndex (Object_keys fields)
    ++ "language"%string
       :: List.filter (λ k, negb (isArrayIndex k)
                            && negb (String.eqb k "language"))
            (Object_keys fields).
Proof.
  intros Hwf. unfold snapshotObject.
  pose proof (orderedKeys_NoDup _ Hwf) as Hnd.
  rewrite (wellFormed_split fields Hwf) at 1.
  rewrite foldl_app.
  pose proof (spread_indices
                (List.filter (λ e, isArrayIndex e.1) fields) [] "language"
                (from_option JString JUndefined tag) []) as Hi.
  cbn [app] in Hi. rewrite Hi; clear Hi.
  - rewrite spread_names.
    + assert (Happ : ∀ a b : JSProps,
                 Object_keys (a ++ b) = Object_keys a ++ Object_keys b).
      { intros. unfold Object_keys. apply fmap_app. }
      rewrite Happ, (keys_filter isArrayIndex),
        (keys_filter (λ k, negb (isArrayIndex k))).
      rewrite <- app_assoc.
      change (Object_keys [("language"%string,
                            from_option JString JUndefined tag)])
        with ["language"%string].
      cbn [app]. do 2 f_equal.
      apply filter_filter_names. intros k Hk.
      destruct (String.eqb_spec k "language") as [->|Hne]; simpl.
      * rewrite bool_decide_eq_true_2; [done|].
        apply elem_of_app. right. apply list_elem_of_here.
      * rewrite bool_decide_eq_false_2; [done|].
        rewrite elem_of_app, list_elem_of_singleton.
        intros [Hin|?]; [|done].
        apply list_elem_of_In, filter_In in Hin as [_ Hi]. congruence.
    + apply Forall_forall. intros f Hin.
      apply list_elem_of_In, filter_In in Hin as [_ Hi].
      by apply negb_true_iff.
    + rewrite (keys_filter (λ k, negb (isArrayIndex k))).
      by apply NoDup_List_filter.
  - apply Forall_forall. intros f Hin.
    by apply list_elem_of_In, filter_In in Hin as [_ Hi].
  - reflexivity.
  - rewrite (keys_filter isArrayIndex). by apply orderedKeys_filter.
  - apply Forall_nil_2.
Qed.

(** X18: the object that [getFormatedMetadataJSON] serializes for a
    document, from a metadata object with its keys distinct and in the order
    of enumeration.  Its keys are the array indices among the kept fields,
    then [language], then the other kept fields in their order; each key is
    there once, [language] also when the metadata has a field of that
    name. *)
Theorem snapshot_object_key_order
    (tm : list (string * bool)) (cellMetadata : JSProps)
    (tag : option string) :
  wellFormed cellMetadata →
  let filteredMetadata := filterMetadata tm cellMetadata in
  Object_keys (snapshotObject tag filteredMetadata)
  = List.filter isArrayIndex (Object_keys filteredMetadata)
    ++ "language"%string
       :: List.filter (λ k, negb (isArrayIndex k)
                            && negb (String.eqb k "language"))
            (Object_keys filteredMetadata)
  ∧ NoDup (Object_keys (snapshotObject tag filteredMetadata)).
Proof.
  intros Hwf fm.
  assert (Hfm : wellFormed fm).
  { unfold fm. rewrite filterMetadata_as_filter by done.
    by apply keptFields_wellFormed. }
  pose proof (snapshot_keys tag fm Hfm) as Hk.
  split; [exact Hk|]. rewrite Hk.
  pose proof (orderedKeys_NoDup _ Hfm) as Hnd.
  apply NoDup_app. split; [by apply NoDup_List_filter|]. split.
  - intros k Hin Hin'.
    apply list_elem_of_In, filter_In in Hin as [_ Hi].
    apply elem_of_cons in Hin' as [->|Hin']; [done|].
    apply list_elem_of_In, filter_In in Hin' as [_ Hn].
    rewrite Hi in Hn. done.
  - apply NoDup_cons. split; [|by apply NoDup_List_filter].
    intros Hin. apply list_elem_of_In, filter_In in Hin as [_ Hn].
    rewrite String.eqb_refl, andb_false_r in Hn. done.
Qed.

(** X18, at a metadata object with two array indices and a field named
    [language]. *)
Lemma snapshot_object_key_order_witness :
  let cellMetadata := [("2"%string, JNumber 1); ("10"%string, JNumber 2);
                       ("editable"%string, JBool true);
                       ("language"%string, JString "x")] in
  let o := snapshotObject (Some "python"%string)
             (filterMetadata [] cellMetadata) in
  Object_keys o = ["2"; "10"; "language"; "editable"]%string
  ∧ NoDup (Object_keys o).
Proof.
  intros cellMetadata o.
  apply (snapshot_object_key_order [] cellMetadata (Some "python"%string)).
  subst cellMetadata. ordered_keys.
Defined.

(** X24: a policy under which the loop keeps every field of a metadata
    object filters nothing.  For keys distinct and in the order of
    enumeration, none of them [__proto__] and none reading as true in the
    policy, the filtered object is the metadata object, and the snapshot
    made for a document with such a policy is the snapshot made without a
    document, which keeps every field. *)
Theorem nothing_transient_filters_nothing `{Host}
    (doc : NotebookTextModel) (cellMetadata : JSProps)
    (tag : option string) :
  wellFormed cellMetadata →
  (∀ k, k ∈ Object_keys cellMetadata →
        keptKey (transientMetadata (transientOptions doc)) k = true) →
  filterMetadata (transientMetadata (transientOptions doc)) cellMetadata
  = cellMetadata
  ∧ getFormatedMetadataJSON (Some doc) cellMetadata tag
    = getFormatedMetadataJSON None cellMetadata tag.
Proof.
  intros Hwf Hk.
  assert (Hf : filterMetadata (transientMetadata (transientOptions doc))
                 cellMetadata = cellMetadata).
  { rewrite filterMetadata_as_filter by done. unfold keptFields.
    clear Hwf. induction cellMetadata as [|[a x] md IH]; [done|].
    simpl. rewrite (Hk a) by apply list_elem_of_here. f_equal.
    apply IH. intros k Hin. apply Hk. by apply list_elem_of_further. }
  split; [exact Hf|]. unfold getFormatedMetadataJSON. by rewrite Hf.
Qed.

(** X24, at a concrete metadata object, with a policy that defines
    [constructor] as not transient. *)
Lemma nothing_transient_filters_nothing_witness :
  let doc := mkNotebook (mkTransientOptions false
                           [("custom"%string, true);
                            ("constructor"%string, false)]) in
  let cellMetadata := [("editable"%string, JBool true);
                       ("constructor"%string, JNull);
                       ("runState"%string, JNumber 2)] in
  getFormatedMetadataJSON (H := exampleHost) (Some doc) cellMetadata
    (Some "python"%string)
  = getFormatedMetadataJSON (H := exampleHost) None cellMetadata
      (Some "python"%string).
Proof.
  intros doc cellMetadata.
  apply (nothing_transient_filters_nothing (H := exampleHost)
           doc cellMetadata (Some "python"%string)).
  - subst cellMetadata. ordered_keys.
  - intros k Hin.
    repeat (apply elem_of_cons in Hin as [->|Hin]; [reflexivity|]).
    by apply elem_of_nil in Hin.
Defined.
